(** * Identity and access control engine of node-boilertemplate

    A shallow embedding of the authentication, token, lockout and role
    code of the repository, and the properties of its specification.

    Sources embedded here:
    - [src/utils/ApiError.js]                       -> [ApiError]
    - [src/models/mongodb/role.model.js]            -> [RoleMongo]
    - PostgreSQL role model   (unnamed/part_006)     -> [RolePostgres]
    - MongoDB user model (not among the sources,
      modelled from the specification)              -> [UserModel]
    - MongoDB token model     (unnamed/part_007)     -> [TokenModel]
    - token service           (unnamed/part_011)     -> [TokenService]
    - role service            (unnamed/part_010)     -> [RoleService]
    - auth service            (unnamed/part_010)     -> [AuthService]
    - e-mail service ([src/services/user.service.js]) -> [EmailService]
    - [resetPassword] cut at its [await]s            -> [ResetRace]

    Conventions.  Time is a [Z] number of milliseconds, as [Date.now()]
    gives it; every service call receives the instant [now] at which it
    runs.  A collection is the list of its documents in insertion order,
    so that [findOne] is the first match.  The automatic [createdAt] and
    [updatedAt] stamps kept by the drivers are not part of the model.
    A service is a computation in the monad [M]: it reads and writes the
    database [Db] and either returns a value or throws. *)

From Stdlib Require Import List String Ascii ZArith Bool Lia Arith DecimalString.
Import ListNotations.

Local Open Scope string_scope.
Local Open Scope Z_scope.

(* ------------------------------------------------------------------ *)
(** ** Strings, as the JavaScript code uses them (ASCII range) *)

Module Str.

(** [\s] of a JavaScript regular expression, restricted to ASCII. *)
Definition isSpace (c : ascii) : bool :=
  let n := nat_of_ascii c in
  ((9 <=? n)%nat && (n <=? 13)%nat) || (n =? 32)%nat.

Definition lowerChar (c : ascii) : ascii :=
  let n := nat_of_ascii c in
  if ((65 <=? n)%nat && (n <=? 90)%nat) then ascii_of_nat (n + 32) else c.

(** [s.toLowerCase()] *)
Fixpoint toLowerCase (s : string) : string :=
  match s with
  | EmptyString => EmptyString
  | String c r => String (lowerChar c) (toLowerCase r)
  end.

Fixpoint dropSpaces (s : string) : string :=
  match s with
  | EmptyString => EmptyString
  | String c r => if isSpace c then dropSpaces r else s
  end.

Fixpoint rev_onto (s acc : string) : string :=
  match s with
  | EmptyString => acc
  | String c r => rev_onto r (String c acc)
  end.

Definition rev (s : string) : string := rev_onto s EmptyString.

(** [s.trim()] *)
Definition trim (s : string) : string :=
  rev (dropSpaces (rev (dropSpaces s))).

(** [s.replace(/\s+/g, '-')]: every maximal run of white space becomes
    one hyphen.  [inRun] tells whether the previous character was white
    space. *)
Fixpoint hyphenate (inRun : bool) (s : string) : string :=
  match s with
  | EmptyString => EmptyString
  | String c r =>
      if isSpace c
      then (if inRun then hyphenate true r else String "-" (hyphenate true r))
      else String c (hyphenate false r)
  end.

Definition replaceSpaces (s : string) : string := hyphenate false s.

(** [xs.includes(x)] on an array of strings. *)
Definition includes (xs : list string) (x : string) : bool :=
  existsb (String.eqb x) xs.

Lemma includes_In (xs : list string) (x : string) :
  includes xs x = true <-> In x xs.
Proof.
  unfold includes. rewrite existsb_exists. split.
  - intros [y [Hy He]]. apply String.eqb_eq in He. now subst.
  - intros H. exists x. split; [assumption | apply String.eqb_refl].
Qed.

End Str.

Definition option_eqb {A : Type} (eqb : A -> A -> bool) (x y : option A) : bool :=
  match x, y with
  | Some a, Some b => eqb a b
  | None, None => true
  | _, _ => false
  end.

(* ------------------------------------------------------------------ *)
(** ** [ApiError] (src/utils/ApiError.js) *)

Module ApiError.

Record t : Type := mk {
  message : string;
  statusCode : Z;
  isOperational : bool
}.

Definition badRequest (m : string) : t := mk m 400 true.
Definition unauthorized (m : string) : t := mk m 401 true.
Definition notFound (m : string) : t := mk m 404 true.
Definition conflict (m : string) : t := mk m 409 true.
Definition internalError (m : string) : t := mk m 500 false.
Definition invalidCredentials (m : string) : t := mk m 401 true.

End ApiError.

(** What a JavaScript function can throw here: an [ApiError], or another
    [Error] (a driver error, a hook's [new Error(..)], a [TypeError]),
    kept with its [name] and [message]. *)
Inductive Thrown : Type :=
| Api (e : ApiError.t)
| JsError (name message : string).

Definition isApiError (e : Thrown) : bool :=
  match e with Api _ => true | JsError _ _ => false end.

Inductive Outcome (A : Type) : Type :=
| Returned (a : A)
| Threw (e : Thrown).
Arguments Returned {A} a.
Arguments Threw {A} e.

(* ------------------------------------------------------------------ *)
(** ** Documents *)

Definition ObjectId : Type := nat.

Module Role.

(** The fields of the role schema (both models declare the same ones;
    [metadata] is carried along unchanged and omitted). *)
Record t : Type := mk {
  _id : ObjectId;
  name : string;
  description : option string;
  permissions : list string;
  isDefault : bool;
  isSystem : bool;
  isActive : bool;
  isDeleted : bool
}.

Definition set_name (v : string) (r : t) : t :=
  mk (_id r) v (description r) (permissions r) (isDefault r) (isSystem r)
     (isActive r) (isDeleted r).
Definition set_description (v : option string) (r : t) : t :=
  mk (_id r) (name r) v (permissions r) (isDefault r) (isSystem r)
     (isActive r) (isDeleted r).
Definition set_permissions (v : list string) (r : t) : t :=
  mk (_id r) (name r) (description r) v (isDefault r) (isSystem r)
     (isActive r) (isDeleted r).
Definition set_isDefault (v : bool) (r : t) : t :=
  mk (_id r) (name r) (description r) (permissions r) v (isSystem r)
     (isActive r) (isDeleted r).
Definition set_isSystem (v : bool) (r : t) : t :=
  mk (_id r) (name r) (description r) (permissions r) (isDefault r) v
     (isActive r) (isDeleted r).
Definition set_isActive (v : bool) (r : t) : t :=
  mk (_id r) (name r) (description r) (permissions r) (isDefault r)
     (isSystem r) v (isDeleted r).
Definition set_isDeleted (v : bool) (r : t) : t :=
  mk (_id r) (name r) (description r) (permissions r) (isDefault r)
     (isSystem r) (isActive r) v.

End Role.

Module User.

(** The fields of the user record that the auth service reads or
    writes (profile fields such as names, phone and preferences are
    carried along unchanged and omitted).  [password] is the stored
    credential hash; a date is [None] for [null]/[undefined]. *)
Record t : Type := mk {
  _id : ObjectId;
  email : string;
  password : string;
  role : ObjectId;
  isEmailVerified : bool;
  emailVerificationToken : option string;
  emailVerificationExpires : option Z;
  passwordResetToken : option string;
  passwordResetExpires : option Z;
  loginAttempts : Z;
  lockUntil : option Z;
  lastLogin : option Z;
  isActive : bool;
  isDeleted : bool
}.

Definition set_password (v : string) (u : t) : t :=
  mk (_id u) (email u) v (role u) (isEmailVerified u)
     (emailVerificationToken u) (emailVerificationExpires u)
     (passwordResetToken u) (passwordResetExpires u)
     (loginAttempts u) (lockUntil u) (lastLogin u) (isActive u) (isDeleted u).
Definition set_isEmailVerified (v : bool) (u : t) : t :=
  mk (_id u) (email u) (password u) (role u) v
     (emailVerificationToken u) (emailVerificationExpires u)
     (passwordResetToken u) (passwordResetExpires u)
     (loginAttempts u) (lockUntil u) (lastLogin u) (isActive u) (isDeleted u).
Definition set_emailVerification (tok : option string) (exp : option Z) (u : t) : t :=
  mk (_id u) (email u) (password u) (role u) (isEmailVerified u)
     tok exp
     (passwordResetToken u) (passwordResetExpires u)
     (loginAttempts u) (lockUntil u) (lastLogin u) (isActive u) (isDeleted u).
Definition set_passwordReset (tok : option string) (exp : option Z) (u : t) : t :=
  mk (_id u) (email u) (password u) (role u) (isEmailVerified u)
     (emailVerificationToken u) (emailVerificationExpires u)
     tok exp
     (loginAttempts u) (lockUntil u) (lastLogin u) (isActive u) (isDeleted u).
Definition set_loginAttempts (v : Z) (u : t) : t :=
  mk (_id u) (email u) (password u) (role u) (isEmailVerified u)
     (emailVerificationToken u) (emailVerificationExpires u)
     (passwordResetToken u) (passwordResetExpires u)
     v (lockUntil u) (lastLogin u) (isActive u) (isDeleted u).
Definition set_lockUntil (v : option Z) (u : t) : t :=
  mk (_id u) (email u) (password u) (role u) (isEmailVerified u)
     (emailVerificationToken u) (emailVerificationExpires u)
     (passwordResetToken u) (passwordResetExpires u)
     (loginAttempts u) v (lastLogin u) (isActive u) (isDeleted u).
Definition set_lastLogin (v : option Z) (u : t) : t :=
  mk (_id u) (email u) (password u) (role u) (isEmailVerified u)
     (emailVerificationToken u) (emailVerificationExpires u)
     (passwordResetToken u) (passwordResetExpires u)
     (loginAttempts u) (lockUntil u) v (isActive u) (isDeleted u).

End User.

Module Token.

(** [type] of the MongoDB token schema. *)
Inductive kind : Type := refresh | reset | verification.

Definition kind_eqb (a b : kind) : bool :=
  match a, b with
  | refresh, refresh | reset, reset | verification, verification => true
  | _, _ => false
  end.

Lemma kind_eqb_eq (a b : kind) : kind_eqb a b = true <-> a = b.
Proof. destruct a, b; simpl; split; (congruence || discriminate). Qed.

Lemma kind_eqb_refl (a : kind) : kind_eqb a a = true.
Proof. now destruct a. Qed.

(** A stored token document (the request [metadata] is omitted). *)
Record t : Type := mk {
  userId : ObjectId;
  token : string;
  type : kind;
  expiresAt : Z;
  isRevoked : bool
}.

Definition set_isRevoked (v : bool) (d : t) : t :=
  mk (userId d) (token d) (type d) (expiresAt d) v.

End Token.

(** The database: the three collections. *)
Record Db : Type := mkDb {
  users : list User.t;
  roles : list Role.t;
  tokens : list Token.t
}.

Definition set_users (v : list User.t) (db : Db) : Db := mkDb v (roles db) (tokens db).
Definition set_roles (v : list Role.t) (db : Db) : Db := mkDb (users db) v (tokens db).
Definition set_tokens (v : list Token.t) (db : Db) : Db := mkDb (users db) (roles db) v.

(* ------------------------------------------------------------------ *)
(** ** The monad of service code: database state and exceptions

    A write that happened before a [throw] stays in the database (there
    are no transactions in the code). *)

Definition M (A : Type) : Type := Db -> Outcome A * Db.

Definition ret {A : Type} (a : A) : M A := fun db => (Returned a, db).

Definition throw {A : Type} (e : Thrown) : M A := fun db => (Threw e, db).

Definition bind {A B : Type} (c : M A) (k : A -> M B) : M B :=
  fun db =>
    match c db with
    | (Returned a, db') => k a db'
    | (Threw e, db') => (Threw e, db')
    end.

(** [try { c } catch (error) { h error }] *)
Definition try_catch {A : Type} (c : M A) (h : Thrown -> M A) : M A :=
  fun db =>
    match c db with
    | (Returned a, db') => (Returned a, db')
    | (Threw e, db') => h e db'
    end.

Definition gets {A : Type} (f : Db -> A) : M A := fun db => (Returned (f db), db).

Definition modify (f : Db -> Db) : M unit := fun db => (Returned tt, f db).

Declare Scope svc_scope.
Delimit Scope svc_scope with svc.
Notation "x <- c ;; k" := (bind c (fun x => k))
  (at level 61, c at next level, right associativity) : svc_scope.
Notation "c ;;; k" := (bind c (fun _ => k))
  (at level 61, right associativity) : svc_scope.
Local Open Scope svc_scope.

(** [if (error instanceof ApiError) throw error; throw fallback] *)
Definition rethrowApiOr {A : Type} (fallback : ApiError.t) (e : Thrown) : M A :=
  if isApiError e then throw e else throw (Api fallback).

(** Update of the first matching document ([findOneAndUpdate], the
    write of a [save] by [_id]). *)
Fixpoint updateFirst {A : Type} (p : A -> bool) (f : A -> A) (l : list A) : list A :=
  match l with
  | [] => []
  | x :: r => if p x then f x :: r else x :: updateFirst p f r
  end.

(** Update of every matching document ([updateMany], [Model.update]). *)
Definition updateAll {A : Type} (p : A -> bool) (f : A -> A) (l : list A) : list A :=
  map (fun x => if p x then f x else x) l.

(* ------------------------------------------------------------------ *)
(** ** MongoDB role model (src/models/mongodb/role.model.js) *)

Module RoleMongo.

(** The [enum] of the [permissions] path. *)
Definition permissionEnum : list string :=
  [ "user:read"; "user:create"; "user:update"; "user:delete"; "user:list";
    "role:read"; "role:create"; "role:update"; "role:delete"; "role:list";
    "auth:login"; "auth:register"; "auth:refresh"; "auth:logout";
    "profile:read"; "profile:update"; "profile:delete";
    "admin:all"; "admin:users"; "admin:roles"; "admin:system";
    "content:read"; "content:create"; "content:update"; "content:delete";
    "content:publish";
    "file:upload"; "file:download"; "file:delete"; "file:list" ].

(** A document in memory: its field values, whether it has been
    inserted yet, and the paths set since it was loaded or created
    ([modifiedPaths()], an array of path names). *)
Record Doc : Type := mkDoc {
  fields : Role.t;
  isNew : bool;
  modifiedPaths : list string
}.

Definition isModified (path : string) (d : Doc) : bool :=
  Str.includes (modifiedPaths d) path.

(** [this.isModified()] without a path. *)
Definition isModifiedAny (d : Doc) : bool :=
  match modifiedPaths d with [] => false | _ => true end.

Definition markModified (path : string) (d : Doc) : list string :=
  if isModified path d then modifiedPaths d else modifiedPaths d ++ [path].

(** The object given to [new Role(..)]. *)
Record RoleData : Type := mkData {
  d_name : string;
  d_description : option string;
  d_permissions : list string;
  d_isDefault : option bool;
  d_isSystem : option bool;
  d_isActive : option bool
}.

Definition orDefault (o : option bool) (d : bool) : bool :=
  match o with Some b => b | None => d end.

Definition givenPath {A : Type} (path : string) (o : option A) : list string :=
  match o with Some _ => [path] | None => [] end.

(** [new Role(roleData)]: the [trim] setters and the schema defaults. *)
Definition newRole (id : ObjectId) (data : RoleData) : Doc :=
  mkDoc
    (Role.mk id (Str.trim (d_name data))
             (option_map Str.trim (d_description data))
             (d_permissions data)
             (orDefault (d_isDefault data) false)
             (orDefault (d_isSystem data) false)
             (orDefault (d_isActive data) true)
             false)
    true
    (["name"] ++ givenPath "description" (d_description data)
       ++ ["permissions"]
       ++ givenPath "isDefault" (d_isDefault data)
       ++ givenPath "isSystem" (d_isSystem data)
       ++ givenPath "isActive" (d_isActive data)).

(** A document as a query returns it. *)
Definition loaded (r : Role.t) : Doc := mkDoc r false [].

(** The validators of the schema paths: [required], [minlength],
    [maxlength] and [enum].  The whole document is checked. *)
Definition validate (r : Role.t) : bool :=
  (2 <=? String.length (Role.name r))%nat
  && (String.length (Role.name r) <=? 50)%nat
  && match Role.description r with
     | Some s => (String.length s <=? 200)%nat
     | None => true
     end
  && forallb (Str.includes permissionEnum) (Role.permissions r).

(** [Object.keys(a)] of an array [a]: its indices, as strings. *)
Definition objectKeysOfArray {A : Type} (a : list A) : list string :=
  map (fun i => NilEmpty.string_of_uint (Nat.to_uint i)) (seq 0 (List.length a)).

Definition allowedModifications : list string :=
  ["description"; "isActive"; "updatedAt"].

(** First [pre('save')] hook: the name is lower-cased and hyphenated. *)
Definition preSave_name (d : Doc) : Doc :=
  if isModified "name" d
  then mkDoc (Role.set_name
                (Str.replaceSpaces (Str.toLowerCase (Role.name (fields d))))
                (fields d))
             (isNew d) (modifiedPaths d)
  else d.

(** Second [pre('save')] hook: [Some] is the error passed to [next]. *)
Definition preSave_deleteGuard (d : Doc) : option Thrown :=
  if isModified "isDeleted" d && Role.isDeleted (fields d)
     && Role.isSystem (fields d)
  then Some (JsError "Error" "Cannot delete system roles")
  else None.

(** Third [pre('save')] hook. *)
Definition preSave_systemGuard (d : Doc) : option Thrown :=
  if Role.isSystem (fields d) && isModifiedAny d && negb (isNew d)
  then
    let modifiedFields := objectKeysOfArray (modifiedPaths d) in
    let hasUnauthorizedModifications :=
      existsb (fun field => negb (Str.includes allowedModifications field))
              modifiedFields in
    if hasUnauthorizedModifications
    then Some (JsError "Error" "Cannot modify system role properties")
    else None
  else None.

(** The unique index on [name]. *)
Definition nameTaken (d : Role.t) (rs : list Role.t) : bool :=
  existsb (fun r => negb (Role._id r =? Role._id d)%nat
                    && String.eqb (Role.name r) (Role.name d)) rs.

Definition write (d : Doc) : M unit :=
  rs <- gets roles ;;
  if nameTaken (fields d) rs
  then throw (JsError "MongoServerError" "E11000 duplicate key error")
  else if isNew d
  then modify (set_roles (rs ++ [fields d]))
  else modify (set_roles
                 (updateFirst (fun r => (Role._id r =? Role._id (fields d))%nat)
                              (fun _ => fields d) rs)).

(** [role.save()]: validation, the three hooks in the order of their
    registration, then the write.  The saved field values are
    returned (the document object of the caller). *)
Definition save (d : Doc) : M Role.t :=
  if negb (validate (fields d))
  then throw (JsError "ValidationError" "Role validation failed")
  else
    let d1 := preSave_name d in
    match preSave_deleteGuard d1 with
    | Some e => throw e
    | None =>
        match preSave_systemGuard d1 with
        | Some e => throw e
        | None => write d1 ;;; ret (fields d1)
        end
    end.

Definition findById (id : ObjectId) : M (option Role.t) :=
  gets (fun db => find (fun r => (Role._id r =? id)%nat) (roles db)).

(** [hasPermission] *)
Definition hasPermission (r : Role.t) (permission : string) : bool :=
  if negb (Role.isActive r) || Role.isDeleted r then false
  else if Str.includes (Role.permissions r) "admin:all" then true
  else Str.includes (Role.permissions r) permission.

(** [hasAnyPermission] *)
Definition hasAnyPermission (r : Role.t) (permissions : list string) : bool :=
  if negb (Role.isActive r) || Role.isDeleted r then false
  else if Str.includes (Role.permissions r) "admin:all" then true
  else existsb (fun permission => Str.includes (Role.permissions r) permission)
               permissions.

(** [hasAllPermissions] *)
Definition hasAllPermissions (r : Role.t) (permissions : list string) : bool :=
  if negb (Role.isActive r) || Role.isDeleted r then false
  else if Str.includes (Role.permissions r) "admin:all" then true
  else forallb (fun permission => Str.includes (Role.permissions r) permission)
               permissions.

End RoleMongo.

(* ------------------------------------------------------------------ *)
(** ** PostgreSQL role model (unnamed/part_006, class Role) *)

Module RolePostgres.

(** A model instance: its values and the keys changed since it was
    loaded or built ([changed()]). *)
Record Instance : Type := mkInstance {
  values : Role.t;
  isNewRecord : bool;
  changedKeys : list string
}.

Definition changed (key : string) (i : Instance) : bool :=
  Str.includes (changedKeys i) key.

(** [role.changed()] without a key: truthy when some key changed. *)
Definition changedAny (i : Instance) : bool :=
  match changedKeys i with [] => false | _ => true end.

Definition findByPk (id : ObjectId) : M (option Role.t) :=
  gets (fun db => find (fun r => (Role._id r =? id)%nat) (roles db)).

(** The [beforeSave] hook.  The file is an ES module, in which
    [require] is not defined: building the [where] of the hook's
    [Role.update] evaluates [require('sequelize').Op.ne] and throws a
    ReferenceError before the update is issued. *)
Definition beforeSave (role : Instance) : M unit :=
  (if Role.isDefault (values role) && changed "isDefault" role
   then throw (JsError "ReferenceError" "require is not defined")
   else ret tt) ;;;
  (if Role.isSystem (values role) && changedAny role
   then originalRole <- findByPk (Role._id (values role)) ;;
        match originalRole with
        | Some o => if Role.isSystem o
                    then throw (JsError "Error" "Cannot modify system roles")
                    else ret tt
        | None => ret tt
        end
   else ret tt).

(** [role.save()]: the hook, then the insert or the update of the row. *)
Definition save (role : Instance) : M Role.t :=
  beforeSave role ;;;
  (if isNewRecord role
   then modify (fun db => set_roles (roles db ++ [values role]) db)
   else modify (fun db =>
          set_roles
            (updateFirst (fun r => (Role._id r =? Role._id (values role))%nat)
                         (fun _ => values role) (roles db)) db)) ;;;
  ret (values role).

(** [hasPermission] *)
Definition hasPermission (r : Role.t) (permission : string) : bool :=
  Str.includes (Role.permissions r) permission
  || Str.includes (Role.permissions r) "admin:all".

(** [hasAnyPermission] *)
Definition hasAnyPermission (r : Role.t) (permissions : list string) : bool :=
  existsb (fun permission => hasPermission r permission) permissions.

(** [hasAllPermissions] *)
Definition hasAllPermissions (r : Role.t) (permissions : list string) : bool :=
  forallb (fun permission => hasPermission r permission) permissions.

End RolePostgres.

(* ------------------------------------------------------------------ *)
(** ** MongoDB token model (unnamed/part_007) *)

Module TokenModel.

Definition sevenDays : Z := 7 * 24 * 60 * 60 * 1000.

(** The object given to [new Token(..)]; [expiresAt] may be absent. *)
Record TokenData : Type := mkData {
  d_userId : ObjectId;
  d_token : string;
  d_type : Token.kind;
  d_expiresAt : option Z
}.

(** The [pre('save')] hook: a refresh token without expiry gets seven
    days. *)
Definition preSave (now : Z) (d : TokenData) : TokenData :=
  if Token.kind_eqb (d_type d) Token.refresh
     && match d_expiresAt d with None => true | Some _ => false end
  then mkData (d_userId d) (d_token d) (d_type d) (Some (now + sevenDays))
  else d.

Definition tokenTaken (value : string) (ts : list Token.t) : bool :=
  existsb (fun t => String.eqb (Token.token t) value) ts.

(** The [required] validators of the schema on a new document: the
    paths [token] (a string, so the empty string counts as missing)
    and [expiresAt].  [userId] is always given. *)
Definition validate (d : TokenData) : bool :=
  negb (String.eqb (d_token d) "")
  && match d_expiresAt d with Some _ => true | None => false end.

(** [tokenDoc.save()] of a new document.  Mongoose validates the
    document before it runs the [pre('save')] hooks, so a document
    without [expiresAt] is refused before the hook could fill it; the
    unique index on [token] refuses a value that is already stored. *)
Definition save (now : Z) (d : TokenData) : M Token.t :=
  if negb (validate d)
  then throw (JsError "ValidationError" "Token validation failed")
  else
    let d1 := preSave now d in
    match d_expiresAt d1 with
    | None => throw (JsError "ValidationError" "Token validation failed")
    | Some e =>
        ts <- gets tokens ;;
        if tokenTaken (d_token d1) ts
        then throw (JsError "MongoServerError" "E11000 duplicate key error")
        else
          let doc := Token.mk (d_userId d1) (d_token d1) (d_type d1) e false in
          modify (set_tokens (ts ++ [doc])) ;;;
          ret doc
    end.

(** The filter of [findValidToken]. *)
Definition isValidFor (value : string) (k : Token.kind) (now : Z) (t : Token.t) : bool :=
  String.eqb (Token.token t) value
  && Token.kind_eqb (Token.type t) k
  && negb (Token.isRevoked t)
  && (now <? Token.expiresAt t).

(** [Token.findValidToken(token, type)] *)
Definition findValidToken (value : string) (k : Token.kind) (now : Z) : M (option Token.t) :=
  gets (fun db => find (isValidFor value k now) (tokens db)).

(** [Token.findByUserId(userId, type)] *)
Definition findByUserId (uid : ObjectId) (k : Token.kind) (now : Z) : M (list Token.t) :=
  gets (fun db =>
    filter (fun t => (Token.userId t =? uid)%nat
                     && Token.kind_eqb (Token.type t) k
                     && negb (Token.isRevoked t)
                     && (now <? Token.expiresAt t)) (tokens db)).

Definition ownedBy (uid : ObjectId) (k : Token.kind) (t : Token.t) : bool :=
  (Token.userId t =? uid)%nat && Token.kind_eqb (Token.type t) k.

(** [Token.revokeAllForUser(userId, type)]: an [updateMany]; the
    number of matched documents is returned. *)
Definition revokeAllForUser (uid : ObjectId) (k : Token.kind) : M nat :=
  ts <- gets tokens ;;
  modify (set_tokens (updateAll (ownedBy uid k) (Token.set_isRevoked true) ts)) ;;;
  ret (List.length (filter (ownedBy uid k) ts)).

Definition matches (value : string) (k : Token.kind) (t : Token.t) : bool :=
  String.eqb (Token.token t) value && Token.kind_eqb (Token.type t) k.

(** [Token.findOneAndUpdate({ token, type }, { isRevoked: true },
    { new: true })]: the first match is updated and returned as
    updated, [None] is [null]. *)
Definition findOneAndRevoke (value : string) (k : Token.kind) : M (option Token.t) :=
  ts <- gets tokens ;;
  modify (set_tokens (updateFirst (matches value k) (Token.set_isRevoked true) ts)) ;;;
  ret (option_map (Token.set_isRevoked true) (find (matches value k) ts)).

(** [Token.cleanExpired()] *)
Definition cleanExpired (now : Z) : M nat :=
  ts <- gets tokens ;;
  modify (set_tokens (filter (fun t => negb (Token.expiresAt t <? now)) ts)) ;;;
  ret (List.length (filter (fun t => Token.expiresAt t <? now) ts)).

End TokenModel.

(* ------------------------------------------------------------------ *)
(** ** Signing and hashing collaborators

    [jsonwebtoken] (through src/config/jwt.js) and [bcryptjs] are
    libraries; the services are embedded over their interface. *)

Record AccessPayload : Type := mkAccessPayload {
  ap_id : ObjectId;
  ap_email : string;
  ap_role : string;
  ap_permissions : list string
}.

Record RefreshPayload : Type := mkRefreshPayload {
  rp_id : ObjectId;
  rp_email : string;
  rp_role : string
}.

(** The outcomes of [jwt.verify]: the decoded payload, or one of the two
    errors that the token service tells apart by [error.name]. *)
Inductive JwtVerdict : Type :=
| Decoded (p : RefreshPayload)
| TokenExpiredError
| JsonWebTokenError.

Class Crypto : Type := {
  (** Modelled from the spec: the MongoDB user model, which stores the
      password of a saved user, is not among the sources; section 4.1's
      [hash] is what is stored when [password] was set. *)
  hashPassword : string -> string;
  (** [bcrypt.compare(password, hash)] *)
  comparePassword : string -> string -> bool;
  (** [generateAccessToken(payload)], signed at the given instant. *)
  generateAccessToken : AccessPayload -> Z -> string;
  (** [generateRefreshToken(payload)] *)
  generateRefreshToken : RefreshPayload -> Z -> string;
  (** [verifyRefreshToken(token)] of src/config/jwt.js *)
  verifyJWTRefreshToken : string -> Z -> JwtVerdict
}.

(* ------------------------------------------------------------------ *)
(** ** Token service (unnamed/part_011) *)

Module TokenService.
Section WithCrypto.
Context `{Crypto}.

(** [storeRefreshToken] *)
Definition storeRefreshToken (now : Z) (uid : ObjectId) (value : string) : M Token.t :=
  try_catch
    (TokenModel.save now (TokenModel.mkData uid value Token.refresh None))
    (fun _ => throw (Api (ApiError.internalError "Failed to store refresh token"))).

(** [verifyRefreshToken]: the signature first, then the stored
    record.  The [catch] renames the two library errors and rethrows
    anything else. *)
Definition verifyRefreshToken (now : Z) (value : string) : M RefreshPayload :=
  match verifyJWTRefreshToken value now with
  | TokenExpiredError => throw (Api (ApiError.unauthorized "Refresh token expired"))
  | JsonWebTokenError => throw (Api (ApiError.unauthorized "Invalid refresh token"))
  | Decoded decoded =>
      tokenDoc <- TokenModel.findValidToken value Token.refresh now ;;
      match tokenDoc with
      | None => throw (Api (ApiError.unauthorized "Invalid refresh token"))
      | Some _ => ret decoded
      end
  end.

(** [checkRefreshToken] *)
Definition checkRefreshToken (now : Z) (value : string) : M bool :=
  try_catch
    (tokenDoc <- TokenModel.findValidToken value Token.refresh now ;;
     ret (match tokenDoc with Some _ => true | None => false end))
    (fun _ => ret false).

(** [removeRefreshToken] *)
Definition removeRefreshToken (value : string) : M (option Token.t) :=
  try_catch
    (TokenModel.findOneAndRevoke value Token.refresh)
    (fun _ => throw (Api (ApiError.internalError "Failed to remove refresh token"))).

(** [removeAllRefreshTokens] *)
Definition removeAllRefreshTokens (uid : ObjectId) : M nat :=
  try_catch
    (TokenModel.revokeAllForUser uid Token.refresh)
    (fun _ => throw (Api (ApiError.internalError "Failed to remove refresh tokens"))).

(** [getUserTokens] *)
Definition getUserTokens (now : Z) (uid : ObjectId) : M (list Token.t) :=
  try_catch
    (TokenModel.findByUserId uid Token.refresh now)
    (fun _ => throw (Api (ApiError.internalError "Failed to get user tokens"))).

(** [cleanExpiredTokens] *)
Definition cleanExpiredTokens (now : Z) : M nat :=
  try_catch
    (TokenModel.cleanExpired now)
    (fun _ => throw (Api (ApiError.internalError "Failed to clean expired tokens"))).

End WithCrypto.
End TokenService.

(* ------------------------------------------------------------------ *)
(** ** Query filters on the user collection *)

(** Modelled from the spec: the filter of the absent MongoDB
    [findByEmail] (see [UserModel.findByEmail] below): the lower-cased
    address, among the users that are not flagged deleted. *)
Definition byEmail (email : string) (u : User.t) : bool :=
  String.eqb (User.email u) (Str.toLowerCase email) && negb (User.isDeleted u).

(** [{ _id: id }] *)
Definition byId (id : ObjectId) (u : User.t) : bool := (User._id u =? id)%nat.

(* ------------------------------------------------------------------ *)
(** ** User model

    The auth service is written against the MongoDB user model: it
    chains [.select(..)] on that model's queries and calls its
    [incLoginAttempts].  The file of that model is not among the
    sources, so its methods are modelled from the specification
    (sections 3, 4.1, 4.4, 4.6 and 6).  The PostgreSQL user model of
    the repository (unnamed/part_006, class User) declares the same
    fields and the same transitions.  The other queries are the
    [findById] and [findOne] calls of the service, which are the
    library's own. *)

Module UserModel.
Section WithCrypto.
Context `{Crypto}.

(** Modelled from the spec: the constants of the absent MongoDB user
    model; section 6 has the lockout threshold (5) and duration
    (2h). *)
Definition lockThreshold : Z := 5.
Definition lockDuration : Z := 2 * 60 * 60 * 1000.

(** Modelled from the spec: [comparePassword] of the absent MongoDB
    user model; section 4.1's [verify(password, hash)] on the stored
    hash. *)
Definition comparePassword (u : User.t) (candidate : string) : bool :=
  comparePassword candidate (User.password u).

(** Modelled from the spec: [isLocked] of the absent MongoDB user
    model.  Section 4.4: a user is Locked(until), and once
    [now > until] the Locked state is treated as Unlocked. *)
Definition isLocked (now : Z) (u : User.t) : bool :=
  match User.lockUntil u with
  | Some lockUntil => negb (lockUntil <? now)
  | None => false
  end.

(** [this.update(..)] / the write of a save: the listed changes are
    applied to the stored record with this [_id]. *)
Definition updateById (id : ObjectId) (f : User.t -> User.t) : M unit :=
  modify (fun db => set_users (updateFirst (byId id) f (users db)) db).

(** Modelled from the spec: [incLoginAttempts] of the absent MongoDB
    user model.  Section 4.4: on a failed credential check the
    attempts are incremented, and when they reach the threshold the
    user becomes Locked(now + 2h).  The updated document is
    returned. *)
Definition incLoginAttempts (now : Z) (u : User.t) : M User.t :=
  let attempts := User.loginAttempts u + 1 in
  let updates :=
    if lockThreshold <=? User.loginAttempts u + 1
    then fun x => User.set_lockUntil (Some (now + lockDuration))
                    (User.set_loginAttempts attempts x)
    else fun x => User.set_loginAttempts attempts x in
  updateById (User._id u) updates ;;;
  ret (updates u).

(** Modelled from the spec: [resetLoginAttempts] of the absent MongoDB
    user model.  Section 4.4: on success the attempts are reset to 0
    and the lock is cleared. *)
Definition resetLoginAttempts (u : User.t) : M User.t :=
  let updates := fun x => User.set_lockUntil None (User.set_loginAttempts 0 x) in
  updateById (User._id u) updates ;;;
  ret (updates u).

(** Modelled from the spec: [User.findByEmail] of the absent MongoDB
    user model.  Section 4.6 has [login] look the user up by the
    address, and section 3 has a deleted account flagged, never
    removed: the lookup is by the lower-cased address among the users
    that are not flagged deleted (the filter [byEmail] above), as the
    PostgreSQL model of the repository has it. *)
Definition findByEmail (email : string) : M (option User.t) :=
  gets (fun db => find (byEmail email) (users db)).

(** [User.findById(id)] *)
Definition findById (id : ObjectId) : M (option User.t) :=
  gets (fun db => find (byId id) (users db)).

Definition holdsResetToken (value : string) (now : Z) (u : User.t) : bool :=
  option_eqb String.eqb (User.passwordResetToken u) (Some value)
  && match User.passwordResetExpires u with
     | Some e => now <? e
     | None => false
     end.

(** [User.findOne({ passwordResetToken: token,
                    passwordResetExpires: { $gt: Date.now() } })] *)
Definition findByResetToken (value : string) (now : Z) : M (option User.t) :=
  gets (fun db => find (holdsResetToken value now) (users db)).

Definition holdsVerificationToken (value : string) (now : Z) (u : User.t) : bool :=
  option_eqb String.eqb (User.emailVerificationToken u) (Some value)
  && match User.emailVerificationExpires u with
     | Some e => now <? e
     | None => false
     end.

(** [User.findOne({ emailVerificationToken: token,
                    emailVerificationExpires: { $gt: Date.now() } })] *)
Definition findByVerificationToken (value : string) (now : Z) : M (option User.t) :=
  gets (fun db => find (holdsVerificationToken value now) (users db)).

End WithCrypto.
End UserModel.

(* ------------------------------------------------------------------ *)
(** ** Role service (unnamed/part_010, first file) *)

Module RoleService.

(** The body of an update request: a field is [Some] when its key is
    present in [updateData]. *)
Record UpdateData : Type := mkUpdate {
  u_name : option string;
  u_description : option string;
  u_permissions : option (list string);
  u_isDefault : option bool;
  u_isSystem : option bool;
  u_isActive : option bool;
  u_isDeleted : option bool
}.

(** The keys of [updateData]. *)
Definition keys (u : UpdateData) : list string :=
  RoleMongo.givenPath "name" (u_name u)
  ++ RoleMongo.givenPath "description" (u_description u)
  ++ RoleMongo.givenPath "permissions" (u_permissions u)
  ++ RoleMongo.givenPath "isDefault" (u_isDefault u)
  ++ RoleMongo.givenPath "isSystem" (u_isSystem u)
  ++ RoleMongo.givenPath "isActive" (u_isActive u)
  ++ RoleMongo.givenPath "isDeleted" (u_isDeleted u).

Fixpoint list_eqb (a b : list string) : bool :=
  match a, b with
  | [], [] => true
  | x :: a', y :: b' => String.eqb x y && list_eqb a' b'
  | _, _ => false
  end.

(** [role[key] = value] on a document: the path is marked modified
    when the value differs from the current one. *)
Definition assign (path : string) (same : bool)
           (set : Role.t -> Role.t) (d : RoleMongo.Doc) : RoleMongo.Doc :=
  if same then d
  else RoleMongo.mkDoc (set (RoleMongo.fields d)) (RoleMongo.isNew d)
                       (RoleMongo.markModified path d).

Definition onKey {A : Type} (o : option A) (f : A -> RoleMongo.Doc -> RoleMongo.Doc)
           (d : RoleMongo.Doc) : RoleMongo.Doc :=
  match o with Some v => f v d | None => d end.

(** [Object.keys(updateData).forEach(key => { if (role[key] !==
    undefined) role[key] = updateData[key]; })].  Every schema field
    but [description] has a value on a stored role. *)
Definition applyUpdate (u : UpdateData) (d : RoleMongo.Doc) : RoleMongo.Doc :=
  let d := onKey (u_name u) (fun v d =>
             assign "name"
               (String.eqb (Str.trim v) (Role.name (RoleMongo.fields d)))
               (Role.set_name (Str.trim v)) d) d in
  let d := onKey (u_description u) (fun v d =>
             match Role.description (RoleMongo.fields d) with
             | None => d
             | Some cur =>
                 assign "description" (String.eqb (Str.trim v) cur)
                   (Role.set_description (Some (Str.trim v))) d
             end) d in
  let d := onKey (u_permissions u) (fun v d =>
             assign "permissions"
               (list_eqb v (Role.permissions (RoleMongo.fields d)))
               (Role.set_permissions v) d) d in
  let d := onKey (u_isDefault u) (fun v d =>
             assign "isDefault"
               (Bool.eqb v (Role.isDefault (RoleMongo.fields d)))
               (Role.set_isDefault v) d) d in
  let d := onKey (u_isSystem u) (fun v d =>
             assign "isSystem"
               (Bool.eqb v (Role.isSystem (RoleMongo.fields d)))
               (Role.set_isSystem v) d) d in
  let d := onKey (u_isActive u) (fun v d =>
             assign "isActive"
               (Bool.eqb v (Role.isActive (RoleMongo.fields d)))
               (Role.set_isActive v) d) d in
  onKey (u_isDeleted u) (fun v d =>
             assign "isDeleted"
               (Bool.eqb v (Role.isDeleted (RoleMongo.fields d)))
               (Role.set_isDeleted v) d) d.

(** [Role.findOne({ name, isDeleted: false })].  The value of the
    filter is cast through the schema of the path, whose [trim]
    setter applies to it: the stored names are compared with the
    trimmed name. *)
Definition findByNameNotDeleted (name : string) : M (option Role.t) :=
  gets (fun db =>
    find (fun r => String.eqb (Role.name r) (Str.trim name)
                   && negb (Role.isDeleted r))
         (roles db)).

(** [createRole]; [newId] is the identifier the driver gives the new
    document. *)
Definition createRole (newId : ObjectId) (roleData : RoleMongo.RoleData) : M Role.t :=
  try_catch
    (existingRole <- findByNameNotDeleted (RoleMongo.d_name roleData) ;;
     match existingRole with
     | Some _ =>
         throw (Api (ApiError.badRequest "Role with this name already exists"))
     | None => RoleMongo.save (RoleMongo.newRole newId roleData)
     end)
    (rethrowApiOr (ApiError.internalError "Failed to create role")).

(** [updateRole]; the name in the filter of its [findOne] is trimmed by
    the cast, as in [findByNameNotDeleted]. *)
Definition updateRole (roleId : ObjectId) (updateData : UpdateData) : M Role.t :=
  try_catch
    (role <- RoleMongo.findById roleId ;;
     match role with
     | None => throw (Api (ApiError.notFound "Role not found"))
     | Some role =>
         if Role.isSystem role
         then throw (Api (ApiError.badRequest "Cannot update system roles"))
         else
           (match u_name updateData with
            | Some newName =>
                if negb (String.eqb newName "")
                   && negb (String.eqb newName (Role.name role))
                then
                  existingRole <- gets (fun db =>
                    find (fun r => String.eqb (Role.name r) (Str.trim newName)
                                   && negb (Role.isDeleted r)
                                   && negb (Role._id r =? roleId)%nat)
                         (roles db)) ;;
                  match existingRole with
                  | Some _ =>
                      throw (Api (ApiError.badRequest
                                    "Role with this name already exists"))
                  | None => ret tt
                  end
                else ret tt
            | None => ret tt
            end) ;;;
           RoleMongo.save (applyUpdate updateData (RoleMongo.loaded role))
     end)
    (rethrowApiOr (ApiError.internalError "Failed to update role")).

(** [deleteRole] *)
Definition deleteRole (roleId : ObjectId) : M string :=
  try_catch
    (role <- RoleMongo.findById roleId ;;
     match role with
     | None => throw (Api (ApiError.notFound "Role not found"))
     | Some role =>
         if Role.isSystem role
         then throw (Api (ApiError.badRequest "Cannot delete system roles"))
         else
           usersWithRole <- gets (fun db =>
             List.length (filter (fun u => (User.role u =? roleId)%nat
                                           && negb (User.isDeleted u))
                                 (users db))) ;;
           if (0 <? usersWithRole)%nat
           then throw (Api (ApiError.badRequest
                              "Cannot delete role that is assigned to users"))
           else
             RoleMongo.save
               (applyUpdate
                  (mkUpdate None None None None None (Some false) (Some true))
                  (RoleMongo.loaded role)) ;;;
             ret "Role deleted successfully"
     end)
    (rethrowApiOr (ApiError.internalError "Failed to delete role")).

(** [updateRolePermissions] *)
Definition updateRolePermissions (roleId : ObjectId) (permissions : list string)
  : M Role.t :=
  try_catch
    (role <- RoleMongo.findById roleId ;;
     match role with
     | None => throw (Api (ApiError.notFound "Role not found"))
     | Some role =>
         if Role.isSystem role
         then throw (Api (ApiError.badRequest "Cannot update system roles"))
         else
           RoleMongo.save
             (applyUpdate
                (mkUpdate None None (Some permissions) None None None None)
                (RoleMongo.loaded role))
     end)
    (rethrowApiOr (ApiError.internalError "Failed to update role permissions")).

End RoleService.

(* ------------------------------------------------------------------ *)
(** ** E-mail service (src/services/user.service.js, second file)

    [nodemailer] is a library, and the configuration module that the
    message templates read is not among the sources: the service is
    embedded over what they give it. *)

Class Mailer : Type := {
  (** the HTML of the verification message for a token: a template
      around [config.cors.origin] and the token *)
  verificationHtml : string -> string;
  (** the HTML of the reset message for a token *)
  resetHtml : string -> string;
  (** whether [createTransporter()] and then
      [transporter.sendMail(mailOptions)] complete for this recipient,
      subject and HTML.  (The service calls
      [nodemailer.createTransporter]; where the library has no
      function of that name the call throws, and this is constantly
      false.) *)
  transportSends : string -> string -> string -> bool
}.

Module EmailService.
Section WithMailer.
Context `{mailer : Mailer}.

(** [sendEmail]: its [catch] replaces whatever was thrown. *)
Definition sendEmail (to subject html : string) : M unit :=
  if transportSends to subject html then ret tt
  else throw (JsError "Error" "Failed to send email").

(** [sendVerificationEmail] *)
Definition sendVerificationEmail (email token : string) : M unit :=
  sendEmail email "Verify Your Email Address" (verificationHtml token).

(** [sendPasswordResetEmail] *)
Definition sendPasswordResetEmail (email token : string) : M unit :=
  sendEmail email "Reset Your Password" (resetHtml token).

End WithMailer.
End EmailService.

(* ------------------------------------------------------------------ *)
(** ** Auth service (unnamed/part_010, second file)

    The mail collaborator is [EmailService] above; the value that
    [crypto.randomBytes(32).toString('hex')] draws is an argument of
    the service that draws it. *)

Module AuthService.
Section WithCrypto.
Context `{Crypto}.
Context `{mailer : Mailer}.

(** [user.toObject()] without [password]. *)
Record UserView : Type := mkView {
  v_id : ObjectId;
  v_email : string;
  v_role : ObjectId;
  v_isEmailVerified : bool;
  v_emailVerificationToken : option string;
  v_emailVerificationExpires : option Z;
  v_passwordResetToken : option string;
  v_passwordResetExpires : option Z;
  v_loginAttempts : Z;
  v_lockUntil : option Z;
  v_lastLogin : option Z;
  v_isActive : bool;
  v_isDeleted : bool
}.

Definition toObject (u : User.t) : UserView :=
  mkView (User._id u) (User.email u) (User.role u) (User.isEmailVerified u)
         (User.emailVerificationToken u) (User.emailVerificationExpires u)
         (User.passwordResetToken u) (User.passwordResetExpires u)
         (User.loginAttempts u) (User.lockUntil u) (User.lastLogin u)
         (User.isActive u) (User.isDeleted u).

(** The [delete userResponse.*] lines of [login]. *)
Definition withoutSecrets (v : UserView) : UserView :=
  mkView (v_id v) (v_email v) (v_role v) (v_isEmailVerified v)
         None None None None
         (v_loginAttempts v) (v_lockUntil v) (v_lastLogin v)
         (v_isActive v) (v_isDeleted v).

Record LoginResult : Type := mkLoginResult {
  lr_user : UserView;
  lr_accessToken : string;
  lr_refreshToken : string;
  lr_role : string;
  lr_permissions : list string
}.

(** What [refreshToken] returns: there is no refresh token in it. *)
Record RefreshResult : Type := mkRefreshResult {
  rr_accessToken : string;
  rr_user : UserView;
  rr_role : string;
  rr_permissions : list string
}.

Definition nullRole {A : Type} : M A :=
  throw (JsError "TypeError" "Cannot read properties of null (reading 'name')").

(** [login] *)
Definition login (now : Z) (email password : string) : M LoginResult :=
  user <- UserModel.findByEmail email ;;
  match user with
  | None => throw (Api (ApiError.invalidCredentials "Invalid email or password"))
  | Some user =>
      if UserModel.isLocked now user
      then throw (Api (ApiError.unauthorized
                   "Account is temporarily locked. Please try again later."))
      else if negb (User.isActive user) || User.isDeleted user
      then throw (Api (ApiError.unauthorized "Account is deactivated or deleted"))
      else if negb (UserModel.comparePassword user password)
      then
        UserModel.incLoginAttempts now user ;;;
        throw (Api (ApiError.invalidCredentials "Invalid email or password"))
      else
        user <- UserModel.resetLoginAttempts user ;;
        let user := User.set_lastLogin (Some now) user in
        UserModel.updateById (User._id user) (User.set_lastLogin (Some now)) ;;;
        role <- RoleMongo.findById (User.role user) ;;
        match role with
        | None => nullRole
        | Some role =>
            let accessToken :=
              generateAccessToken
                (mkAccessPayload (User._id user) (User.email user)
                                 (Role.name role) (Role.permissions role)) now in
            let refreshToken :=
              generateRefreshToken
                (mkRefreshPayload (User._id user) (User.email user)
                                  (Role.name role)) now in
            TokenService.storeRefreshToken now (User._id user) refreshToken ;;;
            ret (mkLoginResult (withoutSecrets (toObject user))
                               accessToken refreshToken
                               (Role.name role) (Role.permissions role))
        end
  end.

(** [refreshToken] *)
Definition refreshToken (now : Z) (value : string) : M RefreshResult :=
  decoded <- TokenService.verifyRefreshToken now value ;;
  tokenExists <- TokenService.checkRefreshToken now value ;;
  if negb tokenExists
  then throw (Api (ApiError.unauthorized "Invalid refresh token"))
  else
    user <- UserModel.findById (rp_id decoded) ;;
    match user with
    | None => throw (Api (ApiError.unauthorized "User not found or inactive"))
    | Some user =>
        if negb (User.isActive user) || User.isDeleted user
        then throw (Api (ApiError.unauthorized "User not found or inactive"))
        else
          role <- RoleMongo.findById (User.role user) ;;
          match role with
          | None => nullRole
          | Some role =>
              let newAccessToken :=
                generateAccessToken
                  (mkAccessPayload (User._id user) (User.email user)
                                   (Role.name role) (Role.permissions role)) now in
              ret (mkRefreshResult newAccessToken (toObject user)
                                   (Role.name role) (Role.permissions role))
          end
    end.

(** [logout] *)
Definition logout (value : string) : M string :=
  TokenService.removeRefreshToken value ;;;
  ret "Logged out successfully".

(** [logoutAll] *)
Definition logoutAll (uid : ObjectId) : M string :=
  TokenService.removeAllRefreshTokens uid ;;;
  ret "Logged out from all devices".

Definition oneHour : Z := 1 * 60 * 60 * 1000.
Definition oneDay : Z := 24 * 60 * 60 * 1000.

(** [forgotPassword]; [resetToken] is the value drawn.  The mail is
    sent after the save, and its failure is not caught. *)
Definition forgotPassword (now : Z) (email resetToken : string) : M string :=
  user <- UserModel.findByEmail email ;;
  match user with
  | None =>
      ret "If an account with that email exists, a password reset email has been sent"
  | Some user =>
      UserModel.updateById (User._id user)
        (User.set_passwordReset (Some resetToken) (Some (now + oneHour))) ;;;
      EmailService.sendPasswordResetEmail (User.email user) resetToken ;;;
      ret "Password reset email sent"
  end.

(** The write of [resetPassword]'s [user.save()]: the three paths it
    has set. *)
Definition resetWrite (newPassword : string) (u : User.t) : User.t :=
  User.set_passwordReset None None (User.set_password (hashPassword newPassword) u).

(** [resetPassword] *)
Definition resetPassword (now : Z) (token newPassword : string) : M string :=
  user <- UserModel.findByResetToken token now ;;
  match user with
  | None => throw (Api (ApiError.badRequest "Invalid or expired reset token"))
  | Some user =>
      UserModel.updateById (User._id user) (resetWrite newPassword) ;;;
      TokenService.removeAllRefreshTokens (User._id user) ;;;
      ret "Password reset successfully"
  end.

(** [verifyEmail] *)
Definition verifyEmail (now : Z) (token : string) : M string :=
  user <- UserModel.findByVerificationToken token now ;;
  match user with
  | None => throw (Api (ApiError.badRequest "Invalid or expired verification token"))
  | Some user =>
      UserModel.updateById (User._id user)
        (fun u => User.set_emailVerification None None
                    (User.set_isEmailVerified true u)) ;;;
      ret "Email verified successfully"
  end.

(** [resendVerification]; [emailVerificationToken] is the value drawn.
    The mail is sent after the save, and its failure is not caught. *)
Definition resendVerification (now : Z) (email emailVerificationToken : string)
  : M string :=
  user <- UserModel.findByEmail email ;;
  match user with
  | None => throw (Api (ApiError.notFound "User not found"))
  | Some user =>
      if User.isEmailVerified user
      then throw (Api (ApiError.badRequest "Email is already verified"))
      else
        UserModel.updateById (User._id user)
          (User.set_emailVerification (Some emailVerificationToken)
                                      (Some (now + oneDay))) ;;;
        EmailService.sendVerificationEmail (User.email user) emailVerificationToken ;;;
        ret "Verification email sent"
  end.

End WithCrypto.
End AuthService.

(* ------------------------------------------------------------------ *)
(** ** Calls of [resetPassword] that overlap

    Node runs one handler at a time and switches between handlers at
    an [await].  A call of [resetPassword] is therefore three atomic
    steps, one for each awaited database operation: the [findOne], the
    [save], and [removeAllRefreshTokens].  A schedule says which of two
    calls takes the next step. *)

Module ResetRace.
Section WithCrypto.
Context `{Crypto}.

Inductive Call : Type :=
| AtFindOne (token newPassword : string)
| AtSave (user : User.t) (newPassword : string)
| AtRevokeAll (user : User.t)
| Settled (r : Outcome string).

(** A write of a user's password, recorded as it happens. *)
Inductive Event : Type :=
| PasswordWritten (uid : ObjectId) (stored : string).

Definition settle (o : Outcome string) (db : Db) : Call * list Event * Db :=
  (Settled o, [], db).

Definition step (now : Z) (c : Call) (db : Db) : Call * list Event * Db :=
  match c with
  | AtFindOne token newPassword =>
      match UserModel.findByResetToken token now db with
      | (Returned (Some user), db') => (AtSave user newPassword, [], db')
      | (Returned None, db') =>
          settle (Threw (Api (ApiError.badRequest "Invalid or expired reset token"))) db'
      | (Threw e, db') => settle (Threw e) db'
      end
  | AtSave user newPassword =>
      match UserModel.updateById (User._id user)
              (AuthService.resetWrite newPassword) db with
      | (Returned _, db') =>
          (AtRevokeAll user,
           [PasswordWritten (User._id user) (hashPassword newPassword)], db')
      | (Threw e, db') => settle (Threw e) db'
      end
  | AtRevokeAll user =>
      match TokenService.removeAllRefreshTokens (User._id user) db with
      | (Returned _, db') => settle (Returned "Password reset successfully") db'
      | (Threw e, db') => settle (Threw e) db'
      end
  | Settled _ => (c, [], db)
  end.

(** [false] lets the first call step, [true] the second. *)
Fixpoint run (now : Z) (schedule : list bool) (a b : Call) (db : Db)
  : Call * Call * list Event * Db :=
  match schedule with
  | [] => (a, b, [], db)
  | false :: rest =>
      let '(a1, ev, db1) := step now a db in
      let '(a2, b2, evs, db2) := run now rest a1 b db1 in
      (a2, b2, (ev ++ evs)%list, db2)
  | true :: rest =>
      let '(b1, ev, db1) := step now b db in
      let '(a2, b2, evs, db2) := run now rest a b1 db1 in
      (a2, b2, (ev ++ evs)%list, db2)
  end.

(** One call run alone, to its end. *)
Definition alone (now : Z) (token newPassword : string) (db : Db)
  : Call * list Event * Db :=
  let '(c1, e1, db1) := step now (AtFindOne token newPassword) db in
  let '(c2, e2, db2) := step now c1 db1 in
  let '(c3, e3, db3) := step now c2 db2 in
  (c3, (e1 ++ e2 ++ e3)%list, db3).

End WithCrypto.
End ResetRace.

(* ------------------------------------------------------------------ *)
(** ** A concrete instance of the collaborators, for examples

    Hashing prefixes the password; a token is a tag followed by the
    e-mail address it was signed for, and the verifier knows the one
    refresh token it has signed. *)

Definition exampleCrypto : Crypto := {|
  hashPassword := fun p => "h:" ++ p;
  comparePassword := fun p h => String.eqb ("h:" ++ p) h;
  generateAccessToken := fun p _ => "access." ++ ap_email p;
  generateRefreshToken := fun p _ => "refresh." ++ rp_email p;
  verifyJWTRefreshToken := fun t _ =>
    if String.eqb t "refresh.a@x.com"
    then Decoded (mkRefreshPayload 1%nat "a@x.com" "user")
    else if String.eqb t "refresh.old"
    then TokenExpiredError
    else JsonWebTokenError
|}.

(** Two mailers: one whose transport never completes, and one that
    delivers. *)
Definition exampleMailer : Mailer := {|
  verificationHtml := fun token => "verify:" ++ token;
  resetHtml := fun token => "reset:" ++ token;
  transportSends := fun _ _ _ => false
|}.

Definition deliveringMailer : Mailer := {|
  verificationHtml := fun token => "verify:" ++ token;
  resetHtml := fun token => "reset:" ++ token;
  transportSends := fun _ _ _ => true
|}.

Definition exampleUserRole : Role.t :=
  Role.mk 10%nat "user" (Some "Regular user with basic permissions")
          ["auth:login"; "profile:read"] true true true false.

Definition exampleAdminRole : Role.t :=
  Role.mk 11%nat "admin" (Some "Administrator with full access")
          ["admin:all"; "user:read"] false true true false.

Definition exampleUser : User.t :=
  User.mk 1%nat "a@x.com" "h:P1" 10%nat true None None None None 0 None None true false.

Definition exampleDb : Db :=
  mkDb [exampleUser] [exampleUserRole; exampleAdminRole] [].

(* ------------------------------------------------------------------ *)
(** ** Vocabulary of the properties *)

(** The stored record of a user. *)
Definition stored (db : Db) (id : ObjectId) : option User.t :=
  find (byId id) (users db).

(** Identifiers are unique in the user collection. *)
Definition UniqueIds (db : Db) : Prop := NoDup (map User._id (users db)).

(** The two errors of [login] that the lockout guard is about. *)
Definition invalidCredentialsError : Thrown :=
  Api (ApiError.invalidCredentials "Invalid email or password").

Definition lockedError : Thrown :=
  Api (ApiError.unauthorized "Account is temporarily locked. Please try again later.").

(** The roles that count as default: active, not deleted, [isDefault]. *)
Definition activeDefaults (db : Db) : list Role.t :=
  filter (fun r => Role.isDefault r && Role.isActive r && negb (Role.isDeleted r))
         (roles db).

(* ================================================================== *)
(** * Properties *)

(* ------------------------------------------------------------------ *)
(** ** Permission resolution *)

Lemma existsb_const {A : Type} (b : bool) (l : list A) :
  l <> [] -> existsb (fun _ => b) l = b.
Proof.
  destruct l as [|x l]; [congruence | intros _].
  simpl. destruct b; [reflexivity |].
  induction l; simpl; auto.
Qed.

Lemma forallb_const {A : Type} (b : bool) (l : list A) :
  l <> [] -> forallb (fun _ => b) l = b.
Proof.
  destruct l as [|x l]; [congruence | intros _].
  simpl. destruct b; [| reflexivity].
  induction l; simpl; auto.
Qed.

Lemma existsb_pointwise {A : Type} (f g : A -> bool) (l : list A) :
  (forall x, f x = g x) -> existsb f l = existsb g l.
Proof. intros E. induction l as [|x l IH]; simpl; [reflexivity | now rewrite E, IH]. Qed.

Lemma forallb_pointwise {A : Type} (f g : A -> bool) (l : list A) :
  (forall x, f x = g x) -> forallb f l = forallb g l.
Proof. intros E. induction l as [|x l IH]; simpl; [reflexivity | now rewrite E, IH]. Qed.

Lemma postgres_hasPermission_iff (r : Role.t) (p : string) :
  RolePostgres.hasPermission r p = true
  <-> In p (Role.permissions r) \/ In "admin:all" (Role.permissions r).
Proof.
  unfold RolePostgres.hasPermission.
  rewrite orb_true_iff, !Str.includes_In. reflexivity.
Qed.

Lemma mongo_hasPermission_iff (r : Role.t) (p : string) :
  RoleMongo.hasPermission r p = true
  <-> Role.isActive r = true /\ Role.isDeleted r = false
      /\ (In p (Role.permissions r) \/ In "admin:all" (Role.permissions r)).
Proof.
  unfold RoleMongo.hasPermission.
  destruct (Role.isActive r), (Role.isDeleted r); simpl;
    try (split; [discriminate | intros (? & ? & ?); discriminate]).
  destruct (Str.includes (Role.permissions r) "admin:all") eqn:Ha.
  - apply Str.includes_In in Ha. tauto.
  - rewrite Str.includes_In. split.
    + tauto.
    + intros (_ & _ & [Hp | Hadm]); [assumption |].
      apply Str.includes_In in Hadm. congruence.
Qed.

Lemma mongo_hasPermission_unfold (r : Role.t) (p : string) :
  RoleMongo.hasPermission r p
  = (Role.isActive r && negb (Role.isDeleted r))
    && (Str.includes (Role.permissions r) "admin:all"
        || Str.includes (Role.permissions r) p).
Proof.
  unfold RoleMongo.hasPermission.
  destruct (Role.isActive r), (Role.isDeleted r); simpl; try reflexivity;
    now destruct (Str.includes (Role.permissions r) "admin:all").
Qed.

(** C9, as stated, fails on the MongoDB model: a role that holds
    ['user:read'] but is inactive is refused that permission. *)
Lemma C9_inactive_role_has_no_permission :
  In "user:read"
     (Role.permissions
        (Role.mk 12%nat "moderator" None ["user:read"] false false false false))
  /\ RoleMongo.hasPermission
       (Role.mk 12%nat "moderator" None ["user:read"] false false false false)
       "user:read" = false.
Proof. split; [simpl; auto | reflexivity]. Qed.

(** C9 (amended).  PostgreSQL model: [hasPermission p] is true exactly
    when [p] or the wildcard ['admin:all'] is in the role's permission
    set, and [hasAnyPermission] / [hasAllPermissions] are its some /
    every liftings.  MongoDB model: [hasPermission p] is true exactly
    when the role is active, not deleted, and [p] or the wildcard is in
    its set; for a non-empty list of permissions its [hasAnyPermission]
    and [hasAllPermissions] are the some / every liftings. *)
Theorem C9_hasPermission_resolution :
  forall (r : Role.t) (p : string) (ps : list string),
    (RolePostgres.hasPermission r p = true
     <-> In p (Role.permissions r) \/ In "admin:all" (Role.permissions r))
    /\ RolePostgres.hasAnyPermission r ps
       = existsb (RolePostgres.hasPermission r) ps
    /\ RolePostgres.hasAllPermissions r ps
       = forallb (RolePostgres.hasPermission r) ps
    /\ (RoleMongo.hasPermission r p = true
        <-> Role.isActive r = true /\ Role.isDeleted r = false
            /\ (In p (Role.permissions r)
                \/ In "admin:all" (Role.permissions r)))
    /\ (ps <> [] ->
        RoleMongo.hasAnyPermission r ps = existsb (RoleMongo.hasPermission r) ps
        /\ RoleMongo.hasAllPermissions r ps
           = forallb (RoleMongo.hasPermission r) ps).
Proof.
  intros r p ps.
  split; [apply postgres_hasPermission_iff |].
  split; [reflexivity |].
  split; [reflexivity |].
  split; [apply mongo_hasPermission_iff |].
  intros Hne.
  unfold RoleMongo.hasAnyPermission, RoleMongo.hasAllPermissions.
  assert (Hext : forall q, RoleMongo.hasPermission r q
                 = (Role.isActive r && negb (Role.isDeleted r))
                   && (Str.includes (Role.permissions r) "admin:all"
                       || Str.includes (Role.permissions r) q))
    by apply mongo_hasPermission_unfold.
  rewrite (existsb_pointwise _ _ ps Hext), (forallb_pointwise _ _ ps Hext).
  destruct (Role.isActive r), (Role.isDeleted r); simpl;
    try (rewrite existsb_const, forallb_const by assumption; split; reflexivity).
  destruct (Str.includes (Role.permissions r) "admin:all"); simpl.
  - rewrite existsb_const, forallb_const by assumption. split; reflexivity.
  - split; reflexivity.
Qed.

Lemma C9_hasPermission_resolution_witness :
  ["user:read"] <> []
  /\ RoleMongo.hasAnyPermission exampleAdminRole ["user:read"]
     = existsb (RoleMongo.hasPermission exampleAdminRole) ["user:read"].
Proof.
  split; [discriminate |].
  apply (C9_hasPermission_resolution exampleAdminRole "user:read" ["user:read"]).
  discriminate.
Defined.

(* ------------------------------------------------------------------ *)
(** ** Collections *)

Lemma set_tokens_same (db : Db) : set_tokens (tokens db) db = db.
Proof. now destruct db. Qed.

Lemma updateFirst_no_match {A : Type} (p : A -> bool) (f : A -> A) (l : list A) :
  find p l = None -> updateFirst p f l = l.
Proof.
  induction l as [|x l IH]; simpl; [reflexivity |].
  destruct (p x); [discriminate |]. intros Hn. now rewrite IH.
Qed.

Lemma updateFirst_twice {A : Type} (p : A -> bool) (f : A -> A) (l : list A) :
  (forall x, p x = true -> p (f x) = true) ->
  (forall x, p x = true -> f (f x) = f x) ->
  updateFirst p f (updateFirst p f l) = updateFirst p f l.
Proof.
  intros Hp Hf. induction l as [|x l IH]; simpl; [reflexivity |].
  destruct (p x) eqn:E; simpl.
  - rewrite (Hp x E), (Hf x E). reflexivity.
  - rewrite E, IH. reflexivity.
Qed.

Lemma updateAll_In {A : Type} (p : A -> bool) (f : A -> A) (l : list A) (y : A) :
  In y (updateAll p f l) ->
  exists x, In x l /\ y = (if p x then f x else x).
Proof.
  unfold updateAll. rewrite in_map_iff. intros [x [E Hx]]. eauto.
Qed.

Lemma find_none_iff {A : Type} (p : A -> bool) (l : list A) :
  find p l = None <-> forall x, In x l -> p x = false.
Proof.
  split.
  - intros Hn x Hx. exact (find_none p l Hn x Hx).
  - induction l as [|x l IH]; simpl; [reflexivity |]. intros Hall.
    rewrite (Hall x (or_introl eq_refl)). apply IH. intros y Hy. apply Hall. now right.
Qed.

(* ------------------------------------------------------------------ *)
(** ** Revocation of one refresh token (logout) *)

(** C8.  [logout] never throws; a second [logout] of the same value
    returns normally and leaves the database as the first one left it;
    and a value that matches no stored refresh record leaves the
    database as it was. *)
Theorem C8_logout_idempotent :
  forall (value : string) (db : Db),
    let first := AuthService.logout value db in
    let second := AuthService.logout value (snd first) in
    fst first = Returned "Logged out successfully"
    /\ fst second = Returned "Logged out successfully"
    /\ snd second = snd first
    /\ (find (TokenModel.matches value Token.refresh) (tokens db) = None ->
        snd first = db).
Proof.
  intros value db. cbv zeta.
  unfold AuthService.logout, TokenService.removeRefreshToken,
    TokenModel.findOneAndRevoke, try_catch, bind, gets, modify, ret.
  simpl. repeat split.
  - unfold set_tokens. simpl. f_equal.
    apply updateFirst_twice; intros x Hx.
    + exact Hx.
    + reflexivity.
  - intros Hn. rewrite (updateFirst_no_match _ _ _ Hn). apply set_tokens_same.
Qed.

(* ------------------------------------------------------------------ *)
(** ** Refresh *)

Lemma findValidToken_reads `{Crypto} (value : string) (k : Token.kind) (now : Z) (db : Db) :
  TokenModel.findValidToken value k now db
  = (Returned (find (TokenModel.isValidFor value k now) (tokens db)), db).
Proof. reflexivity. Qed.

(** The two validation steps of the token service only read. *)
Lemma verifyRefreshToken_reads `{Crypto} (now : Z) (value : string) (db : Db) :
  snd (TokenService.verifyRefreshToken now value db) = db.
Proof.
  unfold TokenService.verifyRefreshToken.
  destruct (verifyJWTRefreshToken value now); try reflexivity.
  unfold bind. rewrite findValidToken_reads.
  destruct (find _ (tokens db)); reflexivity.
Qed.

Lemma checkRefreshToken_reads `{Crypto} (now : Z) (value : string) (db : Db) :
  TokenService.checkRefreshToken now value db
  = (Returned (match find (TokenModel.isValidFor value Token.refresh now) (tokens db)
               with Some _ => true | None => false end), db).
Proof. reflexivity. Qed.




(* ------------------------------------------------------------------ *)
(** ** Login: outcomes and the lockout guard *)

Lemma find_In_unique_id (l : list User.t) (u : User.t) :
  NoDup (map User._id l) -> In u l -> find (byId (User._id u)) l = Some u.
Proof.
  induction l as [|x l IH]; simpl; [tauto |].
  intros Hnd [-> | Hin].
  - unfold byId. now rewrite Nat.eqb_refl.
  - inversion Hnd as [|? ? Hnotin Hnd']; subst.
    unfold byId at 1. destruct (User._id x =? User._id u)%nat eqn:E.
    + apply Nat.eqb_eq in E. exfalso. apply Hnotin. rewrite E.
      now apply in_map.
    + now apply IH.
Qed.

Lemma find_updateFirst_hit {A : Type} (p : A -> bool) (f : A -> A) (l : list A) (u : A) :
  find p l = Some u -> p (f u) = true -> find p (updateFirst p f l) = Some (f u).
Proof.
  induction l as [|x l IH]; simpl; [discriminate |].
  destruct (p x) eqn:E.
  - intros [= ->] Hf. simpl. now rewrite Hf.
  - intros Hfind Hf. simpl. rewrite E. now apply IH.
Qed.

Lemma stored_after_update (db : Db) (u : User.t) (f : User.t -> User.t) :
  UniqueIds db -> In u (users db) -> User._id (f u) = User._id u ->
  stored (set_users (updateFirst (byId (User._id u)) f (users db)) db) (User._id u)
  = Some (f u).
Proof.
  intros Hu Hin Hid. unfold stored. simpl.
  apply find_updateFirst_hit.
  - now apply find_In_unique_id.
  - unfold byId. rewrite Hid. apply Nat.eqb_refl.
Qed.

Lemma findByEmail_reads `{Crypto} (email : string) (db : Db) :
  UserModel.findByEmail email db = (Returned (find (byEmail email) (users db)), db).
Proof. reflexivity. Qed.

Lemma updateById_writes `{Crypto} (id : ObjectId) (f : User.t -> User.t) (db : Db) :
  UserModel.updateById id f db
  = (Returned tt, set_users (updateFirst (byId id) f (users db)) db).
Proof. reflexivity. Qed.

(** A login that reaches the password check and fails it. *)
Lemma login_wrong_password `{Crypto} (now : Z) (email password : string)
      (db : Db) (user : User.t) :
  find (byEmail email) (users db) = Some user ->
  UserModel.isLocked now user = false ->
  User.isActive user = true ->
  comparePassword password (User.password user) = false ->
  AuthService.login now email password db
  = (Threw invalidCredentialsError,
     set_users
       (updateFirst (byId (User._id user))
          (fun x =>
             if UserModel.lockThreshold <=? User.loginAttempts user + 1
             then User.set_lockUntil (Some (now + UserModel.lockDuration))
                    (User.set_loginAttempts (User.loginAttempts user + 1) x)
             else User.set_loginAttempts (User.loginAttempts user + 1) x)
          (users db)) db).
Proof.
  intros Hfind Hlock Hact Hpw.
  assert (Hdel : User.isDeleted user = false).
  { apply find_some in Hfind. destruct Hfind as [_ Hb]. unfold byEmail in Hb.
    apply andb_true_iff in Hb. destruct Hb as [_ Hb]. now apply negb_true_iff in Hb. }
  unfold AuthService.login. unfold bind at 1. rewrite findByEmail_reads, Hfind.
  rewrite Hlock, Hact, Hdel. cbn [negb orb].
  unfold UserModel.comparePassword. rewrite Hpw. cbn [negb].
  unfold UserModel.incLoginAttempts, bind. rewrite updateById_writes.
  cbn [ret throw]. unfold invalidCredentialsError.
  destruct (UserModel.lockThreshold <=? User.loginAttempts user + 1); reflexivity.
Qed.

(** A login against a locked account. *)
Lemma login_locked `{Crypto} (now : Z) (email password : string)
      (db : Db) (user : User.t) :
  find (byEmail email) (users db) = Some user ->
  UserModel.isLocked now user = true ->
  AuthService.login now email password db = (Threw lockedError, db).
Proof.
  intros Hfind Hlock.
  unfold AuthService.login. unfold bind at 1. rewrite findByEmail_reads, Hfind.
  now rewrite Hlock.
Qed.

(** A login with an address that no stored user has. *)
Lemma login_unknown_email `{Crypto} (now : Z) (email password : string) (db : Db) :
  find (byEmail email) (users db) = None ->
  AuthService.login now email password db = (Threw invalidCredentialsError, db).
Proof.
  intros Hfind.
  unfold AuthService.login. unfold bind at 1. now rewrite findByEmail_reads, Hfind.
Qed.

Lemma updateFirst_compose {A : Type} (p : A -> bool) (f g : A -> A) (l : list A) :
  (forall x, p x = true -> p (f x) = true) ->
  updateFirst p g (updateFirst p f l) = updateFirst p (fun x => g (f x)) l.
Proof.
  intros Hp. induction l as [|x l IH]; simpl; [reflexivity |].
  destruct (p x) eqn:E; simpl.
  - now rewrite (Hp x E).
  - now rewrite E, IH.
Qed.

(** [storeRefreshToken] never stores: it builds the document without
    [expiresAt], which the schema requires. *)
Lemma storeRefreshToken_refused (now : Z) (uid : ObjectId) (value : string) (db : Db) :
  TokenService.storeRefreshToken now uid value db
  = (Threw (Api (ApiError.internalError "Failed to store refresh token")), db).
Proof.
  unfold TokenService.storeRefreshToken, try_catch, TokenModel.save,
    TokenModel.validate.
  cbn [TokenModel.d_expiresAt]. rewrite andb_false_r. reflexivity.
Qed.

(** A login that passes every check of [login] and then fails to store
    the refresh token: the counter has been reset and the last login
    written by then. *)
Lemma login_right_credentials `{Crypto} (now : Z) (email password : string)
      (db : Db) (user : User.t) (role : Role.t) :
  find (byEmail email) (users db) = Some user ->
  UserModel.isLocked now user = false ->
  User.isActive user = true ->
  comparePassword password (User.password user) = true ->
  find (fun r => (Role._id r =? User.role user)%nat) (roles db) = Some role ->
  AuthService.login now email password db
  = (Threw (Api (ApiError.internalError "Failed to store refresh token")),
     mkDb
       (updateFirst (byId (User._id user))
          (fun x => User.set_lastLogin (Some now)
                      (User.set_lockUntil None (User.set_loginAttempts 0 x)))
          (users db))
       (roles db) (tokens db)).
Proof.
  intros Hfind Hlock Hact Hpw Hrole.
  assert (Hdel : User.isDeleted user = false).
  { apply find_some in Hfind. destruct Hfind as [_ Hb]. unfold byEmail in Hb.
    apply andb_true_iff in Hb. destruct Hb as [_ Hb]. now apply negb_true_iff in Hb. }
  unfold AuthService.login. unfold bind at 1. rewrite findByEmail_reads, Hfind.
  rewrite Hlock, Hact, Hdel. cbn [negb orb].
  unfold UserModel.comparePassword. rewrite Hpw. cbn [negb].
  unfold UserModel.resetLoginAttempts.
  unfold bind at 1 2. rewrite updateById_writes. cbn [ret].
  unfold bind at 1. rewrite updateById_writes.
  unfold bind at 1. unfold RoleMongo.findById at 1, gets at 1.
  cbn [roles set_users User._id User.set_lastLogin User.set_lockUntil
       User.set_loginAttempts User.role User.email users].
  rewrite Hrole.
  unfold bind at 1. rewrite storeRefreshToken_refused.
  rewrite updateFirst_compose by (intros x Hx; exact Hx).
  reflexivity.
Qed.

(** C6, as stated, fails: when the account exists and is locked, a wrong
    password is answered by the lock message, while an unknown address
    is answered by 'Invalid email or password'. *)
Lemma C6_locked_account_answers_differently :
  comparePassword (Crypto:=exampleCrypto) "wrong" "h:P1" = false
  /\ fst (AuthService.login (H:=exampleCrypto) 0 "nobody@x.com" "wrong"
            (mkDb [User.set_lockUntil (Some 7200000) exampleUser]
                  [exampleUserRole] []))
     = Threw invalidCredentialsError
  /\ fst (AuthService.login (H:=exampleCrypto) 0 "a@x.com" "wrong"
            (mkDb [User.set_lockUntil (Some 7200000) exampleUser]
                  [exampleUserRole] []))
     = Threw lockedError.
Proof. repeat split. Qed.

(** C6 (amended).  A login with an address that matches no user, and a
    login with the address of an existing user who is active and not
    locked at that instant but with a wrong password, have the same
    outcome: the 401 error 'Invalid email or password'. *)
Theorem C6_unknown_user_and_wrong_password_agree `{Crypto} :
  forall (now : Z) (db : Db) (unknownEmail knownEmail pw1 pw2 : string)
         (user : User.t),
    find (byEmail unknownEmail) (users db) = None ->
    find (byEmail knownEmail) (users db) = Some user ->
    UserModel.isLocked now user = false ->
    User.isActive user = true ->
    comparePassword pw2 (User.password user) = false ->
    fst (AuthService.login now unknownEmail pw1 db)
    = fst (AuthService.login now knownEmail pw2 db)
    /\ fst (AuthService.login now knownEmail pw2 db)
       = Threw (Api (ApiError.mk "Invalid email or password" 401 true)).
Proof.
  intros now db e1 e2 pw1 pw2 user Hnone Hsome Hlock Hact Hpw.
  rewrite (login_unknown_email now e1 pw1 db Hnone).
  rewrite (login_wrong_password now e2 pw2 db user Hsome Hlock Hact Hpw).
  split; reflexivity.
Qed.

Lemma C6_unknown_user_and_wrong_password_agree_witness :
  fst (AuthService.login (H:=exampleCrypto) 0 "nobody@x.com" "P1" exampleDb)
  = fst (AuthService.login (H:=exampleCrypto) 0 "a@x.com" "wrong" exampleDb).
Proof.
  apply (C6_unknown_user_and_wrong_password_agree (H:=exampleCrypto)
           0 exampleDb "nobody@x.com" "a@x.com" "P1" "wrong" exampleUser);
    reflexivity.
Defined.

Lemma isLocked_future `{Crypto} (now t : Z) (u : User.t) :
  User.lockUntil u = Some t -> now <= t -> UserModel.isLocked now u = true.
Proof.
  unfold UserModel.isLocked. intros -> Hle. apply negb_true_iff. now apply Z.ltb_ge.
Qed.

Lemma isLocked_elapsed `{Crypto} (now t : Z) (u : User.t) :
  User.lockUntil u = Some t -> t < now -> UserModel.isLocked now u = false.
Proof.
  unfold UserModel.isLocked. intros -> Hlt. apply negb_false_iff. now apply Z.ltb_lt.
Qed.

Lemma exampleDb_unique_ids : UniqueIds exampleDb.
Proof. unfold UniqueIds. simpl. constructor; [simpl; tauto | constructor]. Qed.

(** The transitions of the lockout guard through [login], for a
    stored, active user (identifiers being unique):
    - a login whose password check fails throws 'Invalid email or
      password' and leaves the stored counter one higher; when the
      counter thereby reaches 5 the stored lock time is [now] plus two
      hours, below 5 it is unchanged;
    - until the lock time has passed, a login throws the lock error
      whatever the password, and changes nothing;
    - once the lock time has passed, a login with the correct password
      (the user's role existing) resets the stored counter to 0 and
      clears the lock, and then throws the 500 error 'Failed to store
      refresh token' instead of returning. *)
Lemma lockout_transitions `{Crypto} :
  forall (now : Z) (email password : string) (db : Db) (user : User.t),
    UniqueIds db ->
    find (byEmail email) (users db) = Some user ->
    User.isActive user = true ->
    (UserModel.isLocked now user = false ->
     comparePassword password (User.password user) = false ->
     fst (AuthService.login now email password db) = Threw invalidCredentialsError
     /\ exists u',
         stored (snd (AuthService.login now email password db)) (User._id user)
         = Some u'
         /\ User.loginAttempts u' = User.loginAttempts user + 1
         /\ (5 <= User.loginAttempts user + 1 ->
             User.lockUntil u' = Some (now + 2 * 60 * 60 * 1000)
             /\ forall later, later <= now + 2 * 60 * 60 * 1000 ->
                              UserModel.isLocked later u' = true)
         /\ (User.loginAttempts user + 1 < 5 ->
             User.lockUntil u' = User.lockUntil user))
    /\ (forall t, User.lockUntil user = Some t -> now <= t ->
        AuthService.login now email password db = (Threw lockedError, db))
    /\ (forall t role,
        User.lockUntil user = Some t -> t < now ->
        comparePassword password (User.password user) = true ->
        find (fun r => (Role._id r =? User.role user)%nat) (roles db) = Some role ->
        exists u',
          fst (AuthService.login now email password db)
          = Threw (Api (ApiError.internalError "Failed to store refresh token"))
          /\ stored (snd (AuthService.login now email password db)) (User._id user)
             = Some u'
          /\ User.loginAttempts u' = 0
          /\ User.lockUntil u' = None
          /\ tokens (snd (AuthService.login now email password db)) = tokens db).
Proof.
  intros now email password db user Huniq Hfind Hact.
  assert (Hin : In user (users db)) by (apply find_some in Hfind; tauto).
  split; [| split].
  - intros Hlock Hpw.
    rewrite (login_wrong_password now email password db user Hfind Hlock Hact Hpw).
    cbn [fst snd]. split; [reflexivity |].
    eexists. split.
    + apply stored_after_update; [assumption | assumption |].
      destruct (UserModel.lockThreshold <=? User.loginAttempts user + 1); reflexivity.
    + unfold UserModel.lockThreshold, UserModel.lockDuration.
      destruct (5 <=? User.loginAttempts user + 1) eqn:E.
      * apply Z.leb_le in E. cbn. repeat split.
        -- intros later Hl. unfold UserModel.isLocked. cbn.
           apply negb_true_iff. apply Z.ltb_ge. lia.
        -- intros Hlt. lia.
      * apply Z.leb_gt in E. cbn. repeat split; intros; lia.
  - intros t Ht Hlt. apply login_locked with (user := user); [assumption |].
    now apply isLocked_future with (t := t).
  - intros t role Ht Hle Hpw Hrole.
    pose proof (isLocked_elapsed now t user Ht Hle) as Hlock.
    rewrite (login_right_credentials now email password db user role
               Hfind Hlock Hact Hpw Hrole).
    cbn [fst snd]. eexists. split; [reflexivity |]. split.
    + pose proof (stored_after_update db user
        (fun x => User.set_lastLogin (Some now)
                    (User.set_lockUntil None (User.set_loginAttempts 0 x)))
        Huniq Hin eq_refl) as Hst.
      unfold stored in *. cbn [users set_users] in *. exact Hst.
    + repeat split.
Qed.

(** C2.  The scenario of the specification, run on the example
    collaborators.  Five failed logins lock the account for two
    hours, and the sixth attempt fails with the lock error even with
    the right password, as the claim says.  After the two hours the
    right password passes every check, the stored counter is reset to
    0 and the lock is cleared, but the login does not succeed: it
    throws the 500 error 'Failed to store refresh token', because
    [storeRefreshToken] builds the token document without the
    [expiresAt] that the schema requires, and no token is stored. *)
Theorem C2_login_after_the_lock_cannot_store_its_token :
  let attempt now pw db := AuthService.login (H:=exampleCrypto) now "a@x.com" pw db in
  let d1 := snd (attempt 0 "bad" exampleDb) in
  let d2 := snd (attempt 1 "bad" d1) in
  let d3 := snd (attempt 2 "bad" d2) in
  let d4 := snd (attempt 3 "bad" d3) in
  let d5 := snd (attempt 4 "bad" d4) in
  let after := snd (attempt 7200005 "P1" d5) in
  comparePassword (Crypto:=exampleCrypto) "P1" (User.password exampleUser) = true
  /\ fst (attempt 0 "bad" exampleDb) = Threw invalidCredentialsError
  /\ option_map User.loginAttempts (stored d1 1%nat) = Some 1
  /\ option_map User.lockUntil (stored d4 1%nat) = Some None
  /\ option_map User.loginAttempts (stored d5 1%nat) = Some 5
  /\ option_map User.lockUntil (stored d5 1%nat) = Some (Some 7200004)
  /\ attempt 5 "P1" d5 = (Threw lockedError, d5)
  /\ fst (attempt 7200005 "P1" d5)
     = Threw (Api (ApiError.internalError "Failed to store refresh token"))
  /\ option_map User.loginAttempts (stored after 1%nat) = Some 0
  /\ option_map User.lockUntil (stored after 1%nat) = Some None
  /\ tokens after = [].
Proof. vm_compute. repeat split. Qed.

(* ------------------------------------------------------------------ *)
(** ** System roles *)

(** C3, as stated, fails: a lone [isActive] toggle on a system role is
    refused by [updateRole]. *)
Lemma C3_isActive_toggle_on_system_role_refused :
  Role.isSystem exampleUserRole = true
  /\ RoleService.keys
       (RoleService.mkUpdate None None None None None (Some false) None)
     = ["isActive"]
  /\ RoleService.updateRole 10%nat
       (RoleService.mkUpdate None None None None None (Some false) None)
       exampleDb
     = (Threw (Api (ApiError.badRequest "Cannot update system roles")), exampleDb).
Proof. repeat split. Qed.

(** C3 (amended).  For every stored role with [isSystem = true],
    [roleService.updateRole] refuses every update, whatever fields it
    carries (a lone [isActive] or [description] change as well as a
    change of name or permissions), with the 400 error 'Cannot update
    system roles', and leaves the database, hence the role, unchanged. *)
Theorem C3_updateRole_refuses_system_roles :
  forall (db : Db) (roleId : ObjectId) (role : Role.t)
         (updateData : RoleService.UpdateData),
    find (fun r => (Role._id r =? roleId)%nat) (roles db) = Some role ->
    Role.isSystem role = true ->
    RoleService.updateRole roleId updateData db
    = (Threw (Api (ApiError.mk "Cannot update system roles" 400 true)), db).
Proof.
  intros db roleId role updateData Hfind Hsys.
  unfold RoleService.updateRole, try_catch, bind, RoleMongo.findById, gets.
  rewrite Hfind, Hsys. reflexivity.
Qed.

Lemma C3_updateRole_refuses_system_roles_witness :
  RoleService.updateRole 11%nat
    (RoleService.mkUpdate (Some "root") None (Some ["user:read"]) None None None None)
    exampleDb
  = (Threw (Api (ApiError.mk "Cannot update system roles" 400 true)), exampleDb).
Proof.
  apply (C3_updateRole_refuses_system_roles exampleDb 11%nat exampleAdminRole);
    reflexivity.
Defined.

(** The third pre-save hook of the MongoDB model, on a stored system
    role: [Object.keys] of the array of modified paths yields indices,
    none of which is an allowed name, so any modification is refused. *)
Lemma preSave_systemGuard_on_system_role (d : RoleMongo.Doc) :
  Role.isSystem (RoleMongo.fields d) = true ->
  RoleMongo.isNew d = false ->
  RoleMongo.modifiedPaths d <> [] ->
  RoleMongo.preSave_systemGuard d
  = Some (JsError "Error" "Cannot modify system role properties").
Proof.
  intros Hsys Hnew Hmod. unfold RoleMongo.preSave_systemGuard, RoleMongo.isModifiedAny.
  rewrite Hsys, Hnew.
  destruct (RoleMongo.modifiedPaths d) as [|p ps]; [congruence |].
  reflexivity.
Qed.

(* ------------------------------------------------------------------ *)
(** ** The default role *)

(** C4 is violated by the MongoDB path.  With the seeded default role
    ['user'] in place, [createRole] of a role with [isDefault: true]
    returns normally and clears nothing: two active, non-deleted roles
    are default afterwards. *)
Theorem C4_createRole_makes_second_default :
  let roleData :=
    RoleMongo.mkData "editor" None ["content:read"] (Some true) None None in
  List.length (activeDefaults exampleDb) = 1%nat
  /\ fst (RoleService.createRole 12%nat roleData exampleDb)
     = Returned (Role.mk 12%nat "editor" None ["content:read"] true false true false)
  /\ map Role.name
         (activeDefaults (snd (RoleService.createRole 12%nat roleData exampleDb)))
     = ["user"; "editor"].
Proof. vm_compute. repeat split. Qed.

(* ------------------------------------------------------------------ *)
(** ** Password reset revokes the user's refresh tokens *)

Lemma removeAllRefreshTokens_writes `{Crypto} (uid : ObjectId) (db : Db) :
  TokenService.removeAllRefreshTokens uid db
  = (Returned (List.length (filter (TokenModel.ownedBy uid Token.refresh) (tokens db))),
     set_tokens (updateAll (TokenModel.ownedBy uid Token.refresh)
                           (Token.set_isRevoked true) (tokens db)) db).
Proof. reflexivity. Qed.

Lemma findByResetToken_reads `{Crypto} (value : string) (now : Z) (db : Db) :
  UserModel.findByResetToken value now db
  = (Returned (find (UserModel.holdsResetToken value now) (users db)), db).
Proof. reflexivity. Qed.

Lemma findByVerificationToken_reads `{Crypto} (value : string) (now : Z) (db : Db) :
  UserModel.findByVerificationToken value now db
  = (Returned (find (UserModel.holdsVerificationToken value now) (users db)), db).
Proof. reflexivity. Qed.

(** What a successful [resetPassword] does to the database. *)
Lemma resetPassword_found `{Crypto} (now : Z) (token newPassword : string)
      (db : Db) (user : User.t) :
  find (UserModel.holdsResetToken token now) (users db) = Some user ->
  AuthService.resetPassword now token newPassword db
  = (Returned "Password reset successfully",
     mkDb (updateFirst (byId (User._id user)) (AuthService.resetWrite newPassword)
                       (users db))
          (roles db)
          (updateAll (TokenModel.ownedBy (User._id user) Token.refresh)
                     (Token.set_isRevoked true) (tokens db))).
Proof.
  intros Hfind. unfold AuthService.resetPassword.
  unfold bind at 1. rewrite findByResetToken_reads, Hfind.
  unfold bind at 1. rewrite updateById_writes.
  unfold bind at 1. rewrite removeAllRefreshTokens_writes. reflexivity.
Qed.

Lemma resetPassword_not_found `{Crypto} (now : Z) (token newPassword : string) (db : Db) :
  find (UserModel.holdsResetToken token now) (users db) = None ->
  AuthService.resetPassword now token newPassword db
  = (Threw (Api (ApiError.badRequest "Invalid or expired reset token")), db).
Proof.
  intros Hfind. unfold AuthService.resetPassword.
  unfold bind at 1. now rewrite findByResetToken_reads, Hfind.
Qed.

(** A refresh call whose token value has no valid stored record. *)
Lemma refreshToken_without_record `{Crypto} (now : Z) (value : string) (db : Db) :
  find (TokenModel.isValidFor value Token.refresh now) (tokens db) = None ->
  exists m,
    AuthService.refreshToken now value db = (Threw (Api (ApiError.unauthorized m)), db)
    /\ (forall decoded, verifyJWTRefreshToken value now = Decoded decoded ->
                        m = "Invalid refresh token").
Proof.
  intros Hn. unfold AuthService.refreshToken, TokenService.verifyRefreshToken.
  destruct (verifyJWTRefreshToken value now) as [d| |].
  - exists "Invalid refresh token". split; [| reflexivity].
    unfold bind at 1 2. now rewrite findValidToken_reads, Hn.
  - exists "Refresh token expired". split; [reflexivity | discriminate].
  - exists "Invalid refresh token". split; [reflexivity | discriminate].
Qed.

(** C7.  When [resetPassword] finds the user of a reset token it
    returns normally, and afterwards every stored refresh record of
    that user is revoked; a later [refreshToken] call with a value that
    had been issued to that user (every stored refresh record carrying
    it being the user's) fails with a 401 error and changes nothing,
    the error being 'Invalid refresh token' when the signature
    verifies. *)
Theorem C7_reset_revokes_refresh_tokens `{Crypto} :
  forall (now : Z) (token newPassword : string) (db : Db) (user : User.t),
    find (UserModel.holdsResetToken token now) (users db) = Some user ->
    let after := AuthService.resetPassword now token newPassword db in
    fst after = Returned "Password reset successfully"
    /\ (forall t, In t (tokens (snd after)) ->
                  Token.userId t = User._id user -> Token.type t = Token.refresh ->
                  Token.isRevoked t = true)
    /\ (forall (value : string) (later : Z),
        (forall t, In t (tokens db) -> Token.token t = value ->
                   Token.type t = Token.refresh ->
                   Token.userId t = User._id user) ->
        exists m,
          AuthService.refreshToken later value (snd after)
          = (Threw (Api (ApiError.mk m 401 true)), snd after)
          /\ (forall decoded, verifyJWTRefreshToken value later = Decoded decoded ->
                              m = "Invalid refresh token")).
Proof.
  intros now token newPassword db user Hfind. cbv zeta.
  rewrite (resetPassword_found now token newPassword db user Hfind). cbn [fst snd].
  assert (Hrev : forall t,
    In t (updateAll (TokenModel.ownedBy (User._id user) Token.refresh)
                    (Token.set_isRevoked true) (tokens db)) ->
    Token.userId t = User._id user -> Token.type t = Token.refresh ->
    Token.isRevoked t = true).
  { intros t Hin Hu Hk. apply updateAll_In in Hin. destruct Hin as [x [_ ->]].
    destruct (TokenModel.ownedBy (User._id user) Token.refresh x) eqn:E;
      [reflexivity |].
    exfalso. unfold TokenModel.ownedBy in E. rewrite Hu, Hk in E.
    now rewrite Nat.eqb_refl in E. }
  split; [reflexivity |]. split; [exact Hrev |].
  intros value later Hissued.
  apply refreshToken_without_record. cbn [tokens].
  apply find_none_iff. intros t Hin.
  unfold TokenModel.isValidFor.
  destruct (String.eqb (Token.token t) value) eqn:Ev; [| reflexivity].
  destruct (Token.kind_eqb (Token.type t) Token.refresh) eqn:Ek; [| reflexivity].
  apply String.eqb_eq in Ev. apply Token.kind_eqb_eq in Ek.
  assert (Hu : Token.userId t = User._id user).
  { pose proof Hin as Hin'. apply updateAll_In in Hin'. destruct Hin' as [x [Hx Ht]].
    assert (Hsame : Token.token x = Token.token t /\ Token.type x = Token.type t
                    /\ Token.userId x = Token.userId t).
    { subst t. destruct (TokenModel.ownedBy _ _ x); repeat split. }
    destruct Hsame as (Htok & Hty & Hid). rewrite <- Hid.
    apply Hissued; [assumption | congruence | congruence]. }
  rewrite (Hrev t Hin Hu Ek). reflexivity.
Qed.

Lemma C7_reset_revokes_refresh_tokens_witness :
  fst (AuthService.resetPassword (H:=exampleCrypto) 10 "r3s3t" "P2"
         (mkDb [User.set_passwordReset (Some "r3s3t") (Some 3600000) exampleUser]
               [exampleUserRole]
               [Token.mk 1%nat "refresh.a@x.com" Token.refresh 604800000 false]))
  = Returned "Password reset successfully".
Proof.
  apply (C7_reset_revokes_refresh_tokens (H:=exampleCrypto) 10 "r3s3t" "P2"
           (mkDb [User.set_passwordReset (Some "r3s3t") (Some 3600000) exampleUser]
                 [exampleUserRole]
                 [Token.mk 1%nat "refresh.a@x.com" Token.refresh 604800000 false])
           (User.set_passwordReset (Some "r3s3t") (Some 3600000) exampleUser)
           eq_refl).
Defined.

(** The same scenario, run: the refresh token that worked before the
    reset is refused after it. *)
Example refresh_refused_after_reset :
  let db := mkDb [User.set_passwordReset (Some "r3s3t") (Some 3600000) exampleUser]
                 [exampleUserRole]
                 [Token.mk 1%nat "refresh.a@x.com" Token.refresh 604800000 false] in
  (exists r, fst (AuthService.refreshToken (H:=exampleCrypto) 5 "refresh.a@x.com" db)
             = Returned r)
  /\ fst (AuthService.refreshToken (H:=exampleCrypto) 20 "refresh.a@x.com"
            (snd (AuthService.resetPassword (H:=exampleCrypto) 10 "r3s3t" "P2" db)))
     = Threw (Api (ApiError.unauthorized "Invalid refresh token")).
Proof. cbv zeta. split; [eexists; reflexivity | reflexivity]. Qed.

(* ------------------------------------------------------------------ *)
(** ** Ephemeral tokens on the user record *)

Lemma In_updateFirst_unique (l : list User.t) (id : ObjectId)
      (f : User.t -> User.t) (y : User.t) :
  NoDup (map User._id l) ->
  In y (updateFirst (byId id) f l) ->
  (In y l /\ User._id y <> id) \/ (exists x, In x l /\ User._id x = id /\ y = f x).
Proof.
  induction l as [|x l IH]; simpl; [tauto |].
  intros Hnd Hin. inversion Hnd as [|? ? Hnotin Hnd']; subst.
  unfold byId at 1 in Hin. destruct (User._id x =? id)%nat eqn:E.
  - apply Nat.eqb_eq in E. destruct Hin as [<- | Hin].
    + right. exists x. auto.
    + left. split; [now right |]. intros Hy. apply Hnotin. rewrite E, <- Hy.
      now apply in_map.
  - apply Nat.eqb_neq in E. destruct Hin as [<- | Hin].
    + left. split; [now left | assumption].
    + destruct (IH Hnd' Hin) as [[Hy Hne] | [z (Hz & Hid & ->)]].
      * left. split; [now right | assumption].
      * right. exists z. auto.
Qed.

(** After the record of the only holder has been rewritten so that it
    no longer satisfies a filter, no stored user satisfies it. *)
Lemma no_holder_after_update (h : User.t -> bool) (l : list User.t)
      (id : ObjectId) (f : User.t -> User.t) :
  NoDup (map User._id l) ->
  (forall v, In v l -> h v = true -> User._id v = id) ->
  (forall x, h (f x) = false) ->
  find h (updateFirst (byId id) f l) = None.
Proof.
  intros Hnd Honly Hf. apply find_none_iff. intros y Hy.
  destruct (In_updateFirst_unique l id f y Hnd Hy) as [[Hin Hne] | [x (_ & _ & ->)]].
  - destruct (h y) eqn:E; [| reflexivity]. exfalso. apply Hne. now apply Honly.
  - apply Hf.
Qed.

Lemma option_string_eqb_eq (a : option string) (s : string) :
  option_eqb String.eqb a (Some s) = true <-> a = Some s.
Proof.
  destruct a as [x|]; simpl.
  - rewrite String.eqb_eq. split; congruence.
  - split; discriminate.
Qed.

Lemma holdsResetToken_token `{Crypto} (value : string) (now : Z) (u : User.t) :
  UserModel.holdsResetToken value now u = true ->
  User.passwordResetToken u = Some value.
Proof.
  unfold UserModel.holdsResetToken. intros Hh. apply andb_true_iff in Hh.
  now apply option_string_eqb_eq.
Qed.

Lemma holdsVerificationToken_token `{Crypto} (value : string) (now : Z) (u : User.t) :
  UserModel.holdsVerificationToken value now u = true ->
  User.emailVerificationToken u = Some value.
Proof.
  unfold UserModel.holdsVerificationToken. intros Hh. apply andb_true_iff in Hh.
  now apply option_string_eqb_eq.
Qed.

Lemma forgotPassword_found `{Crypto} `{Mailer} (now : Z) (email resetToken : string)
      (db : Db) (user : User.t) :
  find (byEmail email) (users db) = Some user ->
  AuthService.forgotPassword now email resetToken db
  = (if transportSends (User.email user) "Reset Your Password" (resetHtml resetToken)
     then Returned "Password reset email sent"
     else Threw (JsError "Error" "Failed to send email"),
     set_users
       (updateFirst (byId (User._id user))
          (User.set_passwordReset (Some resetToken) (Some (now + AuthService.oneHour)))
          (users db)) db).
Proof.
  intros Hfind. unfold AuthService.forgotPassword.
  unfold bind at 1. rewrite findByEmail_reads, Hfind.
  unfold bind at 1. rewrite updateById_writes.
  unfold bind, EmailService.sendPasswordResetEmail, EmailService.sendEmail.
  destruct (transportSends _ _ _); reflexivity.
Qed.

Lemma resendVerification_found `{Crypto} `{Mailer} (now : Z) (email value : string)
      (db : Db) (user : User.t) :
  find (byEmail email) (users db) = Some user ->
  User.isEmailVerified user = false ->
  AuthService.resendVerification now email value db
  = (if transportSends (User.email user) "Verify Your Email Address"
                       (verificationHtml value)
     then Returned "Verification email sent"
     else Threw (JsError "Error" "Failed to send email"),
     set_users
       (updateFirst (byId (User._id user))
          (User.set_emailVerification (Some value) (Some (now + AuthService.oneDay)))
          (users db)) db).
Proof.
  intros Hfind Hver. unfold AuthService.resendVerification.
  unfold bind at 1. rewrite findByEmail_reads, Hfind, Hver.
  unfold bind at 1. rewrite updateById_writes.
  unfold bind, EmailService.sendVerificationEmail, EmailService.sendEmail.
  destruct (transportSends _ _ _); reflexivity.
Qed.

Lemma verifyEmail_not_found `{Crypto} (now : Z) (token : string) (db : Db) :
  find (UserModel.holdsVerificationToken token now) (users db) = None ->
  AuthService.verifyEmail now token db
  = (Threw (Api (ApiError.badRequest "Invalid or expired verification token")), db).
Proof.
  intros Hfind. unfold AuthService.verifyEmail.
  unfold bind at 1. now rewrite findByVerificationToken_reads, Hfind.
Qed.

Lemma verifyEmail_found `{Crypto} (now : Z) (token : string) (db : Db) (user : User.t) :
  find (UserModel.holdsVerificationToken token now) (users db) = Some user ->
  AuthService.verifyEmail now token db
  = (Returned "Email verified successfully",
     set_users
       (updateFirst (byId (User._id user))
          (fun u => User.set_emailVerification None None
                      (User.set_isEmailVerified true u))
          (users db)) db).
Proof.
  intros Hfind. unfold AuthService.verifyEmail.
  unfold bind at 1. rewrite findByVerificationToken_reads, Hfind.
  unfold bind. now rewrite updateById_writes.
Qed.

(** C10.  The reset token and the verification token are single fields
    of the user record.  After [forgotPassword] for a stored user, the
    stored reset token is the new value, which is the only value that
    the record can be found by; and a previously issued value,
    different from the new one and held by no other user, no longer
    consumes: [resetPassword] with it fails with 'Invalid or expired
    reset token'.  The same holds for [resendVerification] and
    [verifyEmail] on a user whose e-mail is not verified yet. *)
Theorem C10_new_token_overwrites_previous `{Crypto} `{Mailer} :
  forall (now : Z) (email oldToken newToken : string) (db : Db) (user : User.t),
    UniqueIds db ->
    find (byEmail email) (users db) = Some user ->
    oldToken <> newToken ->
    (let after := snd (AuthService.forgotPassword now email newToken db) in
     (forall v, In v (users db) -> User.passwordResetToken v = Some oldToken ->
                User._id v = User._id user) ->
     (exists u', stored after (User._id user) = Some u'
                 /\ User.passwordResetToken u' = Some newToken
                 /\ User.passwordResetExpires u' = Some (now + 60 * 60 * 1000)
                 /\ forall value later,
                      UserModel.holdsResetToken value later u' = true ->
                      value = newToken)
     /\ forall later newPassword,
          AuthService.resetPassword later oldToken newPassword after
          = (Threw (Api (ApiError.mk "Invalid or expired reset token" 400 true)),
             after))
    /\ (let after := snd (AuthService.resendVerification now email newToken db) in
        User.isEmailVerified user = false ->
        (forall v, In v (users db) -> User.emailVerificationToken v = Some oldToken ->
                   User._id v = User._id user) ->
        (exists u', stored after (User._id user) = Some u'
                    /\ User.emailVerificationToken u' = Some newToken
                    /\ User.emailVerificationExpires u' = Some (now + 24 * 60 * 60 * 1000)
                    /\ forall value later,
                         UserModel.holdsVerificationToken value later u' = true ->
                         value = newToken)
        /\ forall later,
             AuthService.verifyEmail later oldToken after
             = (Threw (Api (ApiError.mk "Invalid or expired verification token"
                                        400 true)),
                after)).
Proof.
  intros now email oldToken newToken db user Huniq Hfind Hneq.
  assert (Hin : In user (users db)) by (apply find_some in Hfind; tauto).
  split.
  - cbv zeta. rewrite (forgotPassword_found now email newToken db user Hfind).
    cbn [snd]. intros Honly. split.
    + eexists. split; [apply stored_after_update; auto |].
      cbn. repeat split.
      intros value later Hh. apply holdsResetToken_token in Hh. cbn in Hh. congruence.
    + intros later newPassword. apply resetPassword_not_found. cbn [users set_users].
      apply no_holder_after_update.
      * exact Huniq.
      * intros v Hv Hh. apply Honly; [assumption |].
        now apply holdsResetToken_token with (now := later).
      * intros x. unfold UserModel.holdsResetToken. cbn.
        destruct (String.eqb newToken oldToken) eqn:E; [| reflexivity].
        apply String.eqb_eq in E. congruence.
  - cbv zeta. intros Hver.
    rewrite (resendVerification_found now email newToken db user Hfind Hver).
    cbn [snd]. intros Honly. split.
    + eexists. split; [apply stored_after_update; auto |].
      cbn. repeat split.
      intros value later Hh. apply holdsVerificationToken_token in Hh. cbn in Hh.
      congruence.
    + intros later. apply verifyEmail_not_found. cbn [users set_users].
      apply no_holder_after_update.
      * exact Huniq.
      * intros v Hv Hh. apply Honly; [assumption |].
        now apply holdsVerificationToken_token with (now := later).
      * intros x. unfold UserModel.holdsVerificationToken. cbn.
        destruct (String.eqb newToken oldToken) eqn:E; [| reflexivity].
        apply String.eqb_eq in E. congruence.
Qed.

Lemma C10_new_token_overwrites_previous_witness :
  AuthService.resetPassword (H:=exampleCrypto) 20 "old" "P2"
    (snd (AuthService.forgotPassword (mailer:=exampleMailer) 10 "a@x.com" "new"
            (mkDb [User.set_passwordReset (Some "old") (Some 3600000) exampleUser]
                  [exampleUserRole] [])))
  = (Threw (Api (ApiError.mk "Invalid or expired reset token" 400 true)),
     snd (AuthService.forgotPassword (mailer:=exampleMailer) 10 "a@x.com" "new"
            (mkDb [User.set_passwordReset (Some "old") (Some 3600000) exampleUser]
                  [exampleUserRole] []))).
Proof.
  refine (proj2 (proj1 (@C10_new_token_overwrites_previous exampleCrypto exampleMailer
            10 "a@x.com" "old" "new"
            (mkDb [User.set_passwordReset (Some "old") (Some 3600000) exampleUser]
                  [exampleUserRole] [])
            (User.set_passwordReset (Some "old") (Some 3600000) exampleUser)
            _ eq_refl _) _) 20 "P2").
  - unfold UniqueIds. simpl. constructor; [simpl; tauto | constructor].
  - discriminate.
  - simpl. intros v [<- | []] _. reflexivity.
Defined.

(* ------------------------------------------------------------------ *)
(** ** Consumption of a reset token: one call after another, and two
       calls that overlap *)

(** A call run alone through its three steps is [resetPassword]. *)
Lemma alone_found `{Crypto} (now : Z) (token newPassword : string)
      (db : Db) (user : User.t) :
  find (UserModel.holdsResetToken token now) (users db) = Some user ->
  ResetRace.alone now token newPassword db
  = (ResetRace.Settled (fst (AuthService.resetPassword now token newPassword db)),
     [ResetRace.PasswordWritten (User._id user) (hashPassword newPassword)],
     snd (AuthService.resetPassword now token newPassword db)).
Proof.
  intros Hfind. rewrite (resetPassword_found now token newPassword db user Hfind).
  unfold ResetRace.alone. cbn [ResetRace.step].
  unfold UserModel.findByResetToken, gets. rewrite Hfind. reflexivity.
Qed.

Lemma alone_not_found `{Crypto} (now : Z) (token newPassword : string) (db : Db) :
  find (UserModel.holdsResetToken token now) (users db) = None ->
  ResetRace.alone now token newPassword db
  = (ResetRace.Settled (fst (AuthService.resetPassword now token newPassword db)),
     [],
     snd (AuthService.resetPassword now token newPassword db)).
Proof.
  intros Hfind. rewrite (resetPassword_not_found now token newPassword db Hfind).
  unfold ResetRace.alone. cbn [ResetRace.step].
  unfold UserModel.findByResetToken, gets. rewrite Hfind. reflexivity.
Qed.

(** C1, as stated, fails.  One user holds the reset token ['r3s3t'].
    Two calls of [resetPassword] with that token overlap: both run
    their [findOne] before either runs its [save].  Both calls return
    'Password reset successfully', and the password is written twice. *)
Lemma C1_overlapping_resets_both_succeed :
  ResetRace.run (H:=exampleCrypto) 10
    [false; true; false; false; true; true]
    (ResetRace.AtFindOne "r3s3t" "P2") (ResetRace.AtFindOne "r3s3t" "P3")
    (mkDb [User.set_passwordReset (Some "r3s3t") (Some 3600000) exampleUser]
          [exampleUserRole] [])
  = (ResetRace.Settled (Returned "Password reset successfully"),
     ResetRace.Settled (Returned "Password reset successfully"),
     [ResetRace.PasswordWritten 1%nat "h:P2"; ResetRace.PasswordWritten 1%nat "h:P3"],
     mkDb [User.set_password "h:P3" exampleUser] [exampleUserRole] []).
Proof. reflexivity. Qed.

(** C1 (amended).  Validation and consumption of a reset or verification
    token are a [findOne] followed by a separate save.  When two calls
    with the same token value run one after the other (identifiers
    being unique and no other user holding that value), the first
    succeeds and stores the new password, run alone it writes the
    password exactly once, and the second fails with the 400 error
    'Invalid or expired reset token' ('Invalid or expired verification
    token' for [verifyEmail]) and changes nothing.  Refresh validation
    only reads the token store: it revokes nothing. *)
Theorem C1_consumption_one_call_after_another `{Crypto} :
  forall (now1 now2 : Z) (token pw1 pw2 : string) (db : Db) (user : User.t),
    UniqueIds db ->
    (find (UserModel.holdsResetToken token now1) (users db) = Some user ->
     (forall v, In v (users db) -> User.passwordResetToken v = Some token ->
                User._id v = User._id user) ->
     let first := AuthService.resetPassword now1 token pw1 db in
     fst first = Returned "Password reset successfully"
     /\ option_map User.password (stored (snd first) (User._id user))
        = Some (hashPassword pw1)
     /\ ResetRace.alone now1 token pw1 db
        = (ResetRace.Settled (fst first),
           [ResetRace.PasswordWritten (User._id user) (hashPassword pw1)],
           snd first)
     /\ AuthService.resetPassword now2 token pw2 (snd first)
        = (Threw (Api (ApiError.mk "Invalid or expired reset token" 400 true)),
           snd first))
    /\ (find (UserModel.holdsVerificationToken token now1) (users db) = Some user ->
        (forall v, In v (users db) -> User.emailVerificationToken v = Some token ->
                   User._id v = User._id user) ->
        let first := AuthService.verifyEmail now1 token db in
        fst first = Returned "Email verified successfully"
        /\ AuthService.verifyEmail now2 token (snd first)
           = (Threw (Api (ApiError.mk "Invalid or expired verification token"
                                      400 true)),
              snd first))
    /\ (forall value,
        snd (TokenService.verifyRefreshToken now1 value db) = db
        /\ snd (TokenService.checkRefreshToken now1 value db) = db).
Proof.
  intros now1 now2 token pw1 pw2 db user Huniq. split; [| split].
  - intros Hfind Honly. cbv zeta.
    assert (Hin : In user (users db)) by (apply find_some in Hfind; tauto).
    rewrite (resetPassword_found now1 token pw1 db user Hfind). cbn [fst snd].
    split; [reflexivity |]. split; [| split].
    + pose proof (stored_after_update db user (AuthService.resetWrite pw1)
                    Huniq Hin eq_refl) as Hst.
      unfold stored in *. cbn [users set_users] in *. now rewrite Hst.
    + rewrite (alone_found now1 token pw1 db user Hfind).
      now rewrite (resetPassword_found now1 token pw1 db user Hfind).
    + apply resetPassword_not_found. cbn [users].
      apply no_holder_after_update.
      * exact Huniq.
      * intros v Hv Hh. apply Honly; [assumption |].
        now apply holdsResetToken_token with (now := now2).
      * intros x. reflexivity.
  - intros Hfind Honly. cbv zeta.
    rewrite (verifyEmail_found now1 token db user Hfind). cbn [fst snd].
    split; [reflexivity |].
    apply verifyEmail_not_found. cbn [users set_users].
    apply no_holder_after_update.
    + exact Huniq.
    + intros v Hv Hh. apply Honly; [assumption |].
      now apply holdsVerificationToken_token with (now := now2).
    + intros x. reflexivity.
  - intros value. split; [apply verifyRefreshToken_reads | reflexivity].
Qed.

Lemma C1_consumption_one_call_after_another_witness :
  AuthService.resetPassword (H:=exampleCrypto) 20 "r3s3t" "P3"
    (snd (AuthService.resetPassword (H:=exampleCrypto) 10 "r3s3t" "P2"
            (mkDb [User.set_passwordReset (Some "r3s3t") (Some 3600000) exampleUser]
                  [exampleUserRole] [])))
  = (Threw (Api (ApiError.mk "Invalid or expired reset token" 400 true)),
     snd (AuthService.resetPassword (H:=exampleCrypto) 10 "r3s3t" "P2"
            (mkDb [User.set_passwordReset (Some "r3s3t") (Some 3600000) exampleUser]
                  [exampleUserRole] []))).
Proof.
  refine (proj2 (proj2 (proj2 (proj1
            (@C1_consumption_one_call_after_another exampleCrypto
               10 20 "r3s3t" "P2" "P3"
               (mkDb [User.set_passwordReset (Some "r3s3t") (Some 3600000) exampleUser]
                     [exampleUserRole] [])
               (User.set_passwordReset (Some "r3s3t") (Some 3600000) exampleUser)
               _) eq_refl _)))).
  - unfold UniqueIds. simpl. constructor; [simpl; tauto | constructor].
  - simpl. intros v [<- | []] _. reflexivity.
Defined.

(* ================================================================== *)
(** * Further operations of the same files, and their properties *)

(* ------------------------------------------------------------------ *)
(** ** Token service: reset and verification records
       (unnamed/part_011, lines 140-208) *)

Module EphemeralTokens.

(** [storePasswordResetToken] *)
Definition storePasswordResetToken (now : Z) (uid : ObjectId) (value : string)
           (expiresAt : option Z) : M Token.t :=
  try_catch
    (TokenModel.save now (TokenModel.mkData uid value Token.reset expiresAt))
    (fun _ => throw (Api (ApiError.internalError "Failed to store password reset token"))).

(** [verifyPasswordResetToken]: the [catch] has no [instanceof] test, so
    the error thrown inside the [try] is replaced as well. *)
Definition verifyPasswordResetToken (now : Z) (value : string) : M Token.t :=
  try_catch
    (tokenDoc <- TokenModel.findValidToken value Token.reset now ;;
     match tokenDoc with
     | None => throw (Api (ApiError.unauthorized
                             "Invalid or expired password reset token"))
     | Some d => ret d
     end)
    (fun _ => throw (Api (ApiError.unauthorized "Invalid password reset token"))).


(** [verifyEmailVerificationToken] *)
Definition verifyEmailVerificationToken (now : Z) (value : string) : M Token.t :=
  try_catch
    (tokenDoc <- TokenModel.findValidToken value Token.verification now ;;
     match tokenDoc with
     | None => throw (Api (ApiError.unauthorized
                             "Invalid or expired email verification token"))
     | Some d => ret d
     end)
    (fun _ => throw (Api (ApiError.unauthorized "Invalid email verification token"))).

End EphemeralTokens.

(** Token values are unique in the token collection (the unique index
    on [token]). *)
Definition UniqueTokens (db : Db) : Prop := NoDup (map Token.token (tokens db)).

(* ------------------------------------------------------------------ *)
(** ** Lists: lookups after an insert, an update or a purge *)

Lemma find_app_miss {A : Type} (p : A -> bool) (l l' : list A) :
  find p l = None -> find p (l ++ l') = find p l'.
Proof.
  induction l as [|x l IH]; simpl; [reflexivity |].
  destruct (p x); [discriminate | exact IH].
Qed.

Lemma find_filter_kept {A : Type} (p q : A -> bool) (l : list A) :
  (forall x, p x = true -> q x = true) ->
  find p (filter q l) = find p l.
Proof.
  intros Hpq. induction l as [|x l IH]; simpl; [reflexivity |].
  destruct (q x) eqn:Eq; simpl.
  - now rewrite IH.
  - destruct (p x) eqn:Ep; [| exact IH].
    rewrite (Hpq x Ep) in Eq. discriminate.
Qed.

Lemma tokenTaken_false (value : string) (ts : list Token.t) :
  TokenModel.tokenTaken value ts = false <-> ~ In value (map Token.token ts).
Proof.
  unfold TokenModel.tokenTaken. split.
  - intros Hf Hin. apply in_map_iff in Hin. destruct Hin as [t [Ht Hin]].
    assert (Hex : existsb (fun t0 => String.eqb (Token.token t0) value) ts = true).
    { apply existsb_exists. exists t. split; [assumption |]. now apply String.eqb_eq. }
    congruence.
  - intros Hn. destruct (existsb _ ts) eqn:E; [| reflexivity].
    exfalso. apply existsb_exists in E. destruct E as [t [Hin He]].
    apply String.eqb_eq in He. apply Hn. rewrite <- He. now apply in_map.
Qed.


Lemma map_updateAll_key {A K : Type} (key : A -> K) (p : A -> bool)
      (f : A -> A) (l : list A) :
  (forall x, key (f x) = key x) ->
  map key (updateAll p f l) = map key l.
Proof.
  intros Hk. unfold updateAll. rewrite map_map. apply map_ext.
  intros x. destruct (p x); [apply Hk | reflexivity].
Qed.


Lemma NoDup_map_snoc {A K : Type} (key : A -> K) (l : list A) (x : A) :
  NoDup (map key l) -> ~ In (key x) (map key l) -> NoDup (map key (l ++ [x])).
Proof.
  intros Hnd Hnotin. rewrite map_app. simpl.
  apply NoDup_app; [assumption | constructor; [simpl; tauto | constructor] |].
  intros k Hk [<- | []]. now apply Hnotin.
Qed.

(** With unique keys, and a filter that only one key can satisfy, the
    elements after [updateFirst] are the untouched non-matches and the
    image of the one match. *)
Lemma In_updateFirst_keyed {A K : Type} (key : A -> K) (p : A -> bool)
      (f : A -> A) (l : list A) (y : A) :
  NoDup (map key l) ->
  (forall x x', p x = true -> p x' = true -> key x = key x') ->
  In y (updateFirst p f l) ->
  (In y l /\ p y = false) \/ (exists x, In x l /\ p x = true /\ y = f x).
Proof.
  intros Hnd Hone. induction l as [|x l IH]; simpl; [tauto |].
  inversion Hnd as [|? ? Hnotin Hnd']; subst.
  destruct (p x) eqn:E.
  - intros [<- | Hin].
    + right. exists x. auto.
    + left. split; [now right |].
      destruct (p y) eqn:Ey; [| reflexivity].
      exfalso. apply Hnotin. rewrite (Hone x y E Ey). now apply in_map.
  - intros [<- | Hin].
    + left. split; [now left | assumption].
    + destruct (IH Hnd' Hin) as [[Hy Hp] | [z (Hz & Hpz & ->)]].
      * left. split; [now right | assumption].
      * right. exists z. auto.
Qed.

(* ------------------------------------------------------------------ *)
(** ** Token service: properties *)

Lemma preSave_with_expiry (now e : Z) (uid : ObjectId) (value : string)
      (k : Token.kind) :
  TokenModel.preSave now (TokenModel.mkData uid value k (Some e))
  = TokenModel.mkData uid value k (Some e).
Proof. unfold TokenModel.preSave. cbn. now rewrite andb_false_r. Qed.

(** A save of a document that has a token and an expiry, under a value
    that is not stored yet. *)
Lemma save_fresh (now e : Z) (uid : ObjectId) (value : string) (k : Token.kind)
      (db : Db) :
  value <> EmptyString ->
  TokenModel.tokenTaken value (tokens db) = false ->
  TokenModel.save now (TokenModel.mkData uid value k (Some e)) db
  = (Returned (Token.mk uid value k e false),
     set_tokens (tokens db ++ [Token.mk uid value k e false]) db).
Proof.
  intros Hne Hfresh. unfold TokenModel.save, TokenModel.validate.
  cbn [TokenModel.d_token TokenModel.d_expiresAt].
  apply String.eqb_neq in Hne. rewrite Hne. cbn [negb andb].
  rewrite preSave_with_expiry.
  cbn [TokenModel.d_token TokenModel.d_expiresAt TokenModel.d_userId TokenModel.d_type].
  unfold bind at 1. unfold gets at 1. rewrite Hfresh. reflexivity.
Qed.

Lemma isValidFor_other_value (value : string) (k : Token.kind) (now : Z)
      (ts : list Token.t) :
  ~ In value (map Token.token ts) ->
  find (TokenModel.isValidFor value k now) ts = None.
Proof.
  intros Hn. apply find_none_iff. intros t Hin. unfold TokenModel.isValidFor.
  destruct (String.eqb (Token.token t) value) eqn:E; [| reflexivity].
  exfalso. apply String.eqb_eq in E. apply Hn. rewrite <- E. now apply in_map.
Qed.

Lemma checkRefreshToken_find (now : Z) (value : string) (db : Db) :
  TokenService.checkRefreshToken now value db
  = (Returned (match find (TokenModel.isValidFor value Token.refresh now) (tokens db)
               with Some _ => true | None => false end), db).
Proof. reflexivity. Qed.

(** X1.  [storeRefreshToken] never stores a token.  It builds the
    document without [expiresAt], which the schema requires, and the
    validation of a save comes before the hook that would fill in
    seven days: every call fails with the 500 error 'Failed to store
    refresh token' and leaves the database as it was.  The same
    document with an expiry is stored by the model (for a value that
    is not empty and not stored yet), and [checkRefreshToken] then
    answers true for the value exactly until that expiry. *)
Theorem storeRefreshToken_is_always_refused :
  forall (now : Z) (uid : ObjectId) (value : string) (db : Db),
    TokenService.storeRefreshToken now uid value db
    = (Threw (Api (ApiError.mk "Failed to store refresh token" 500 false)), db)
    /\ forall expiresAt,
        value <> EmptyString ->
        TokenModel.tokenTaken value (tokens db) = false ->
        fst (TokenModel.save now
               (TokenModel.mkData uid value Token.refresh (Some expiresAt)) db)
        = Returned (Token.mk uid value Token.refresh expiresAt false)
        /\ forall later,
            fst (TokenService.checkRefreshToken later value
                   (snd (TokenModel.save now
                           (TokenModel.mkData uid value Token.refresh
                                              (Some expiresAt)) db)))
            = Returned (later <? expiresAt).
Proof.
  intros now uid value db. split; [apply storeRefreshToken_refused |].
  intros expiresAt Hne Hfresh.
  rewrite (save_fresh now expiresAt uid value Token.refresh db Hne Hfresh).
  cbn [fst snd]. split; [reflexivity |]. intros later.
  rewrite checkRefreshToken_find. cbn [fst tokens set_tokens].
  rewrite find_app_miss
    by (apply isValidFor_other_value; now apply tokenTaken_false).
  cbn [find]. unfold TokenModel.isValidFor. cbn.
  rewrite String.eqb_refl. cbn.
  destruct (later <? _); reflexivity.
Qed.

Lemma storeRefreshToken_is_always_refused_witness :
  fst (TokenService.checkRefreshToken 604799999 "refresh.a@x.com"
         (snd (TokenModel.save 0
                 (TokenModel.mkData 1%nat "refresh.a@x.com" Token.refresh
                                    (Some 604800000)) exampleDb)))
  = Returned true.
Proof.
  refine (proj2 (proj2 (storeRefreshToken_is_always_refused 0 1%nat
                          "refresh.a@x.com" exampleDb) 604800000 _ eq_refl)
                604799999).
  discriminate.
Defined.







Lemma updateFirst_length {A : Type} (p : A -> bool) (f : A -> A) (l : list A) :
  List.length (updateFirst p f l) = List.length l.
Proof.
  induction l as [|x l IH]; simpl; [reflexivity |].
  destruct (p x); simpl; [reflexivity | now rewrite IH].
Qed.

Lemma In_updateFirst_untouched {A : Type} (p : A -> bool) (f : A -> A)
      (l : list A) (x : A) :
  In x l -> p x = false -> In x (updateFirst p f l).
Proof.
  induction l as [|y l IH]; simpl; [tauto |].
  intros [-> | Hin] Hp.
  - rewrite Hp. now left.
  - destruct (p y); simpl; [now right | right; now apply IH].
Qed.

(** X3.  With unique token values, [logout] revokes the one refresh
    record of the value and nothing else: the collection keeps its
    size, every record under another value stays as it was, and a
    later [refreshToken] call with the value fails with a 401 error
    and changes nothing. *)
Theorem logout_then_refresh_is_refused `{Crypto} :
  forall (value : string) (db : Db),
    UniqueTokens db ->
    let after := snd (AuthService.logout value db) in
    List.length (tokens after) = List.length (tokens db)
    /\ users after = users db
    /\ (forall t, In t (tokens db) -> Token.token t <> value -> In t (tokens after))
    /\ (forall later,
        exists m,
          AuthService.refreshToken later value after
          = (Threw (Api (ApiError.mk m 401 true)), after)).
Proof.
  intros value db Hu. cbv zeta.
  unfold AuthService.logout, TokenService.removeRefreshToken,
    TokenModel.findOneAndRevoke, try_catch, bind, gets, modify, ret.
  cbn [fst snd tokens users set_tokens].
  split; [apply updateFirst_length |]. split; [reflexivity |]. split.
  - intros t Hin Hne. apply In_updateFirst_untouched; [assumption |].
    unfold TokenModel.matches.
    destruct (String.eqb (Token.token t) value) eqn:E; [| reflexivity].
    apply String.eqb_eq in E. congruence.
  - intros later.
    destruct (refreshToken_without_record later value
                (set_tokens (updateFirst (TokenModel.matches value Token.refresh)
                                         (Token.set_isRevoked true) (tokens db)) db))
      as [m [Hm _]].
    + cbn [tokens set_tokens]. apply find_none_iff. intros y Hy.
      destruct (In_updateFirst_keyed Token.token
                  (TokenModel.matches value Token.refresh)
                  (Token.set_isRevoked true) (tokens db) y Hu) as [[_ Hp] | [x (_ & _ & ->)]].
      * intros x x' Hx Hx'. unfold TokenModel.matches in Hx, Hx'.
        apply andb_true_iff in Hx, Hx'. destruct Hx as [Hx _], Hx' as [Hx' _].
        apply String.eqb_eq in Hx, Hx'. congruence.
      * exact Hy.
      * unfold TokenModel.matches in Hp. unfold TokenModel.isValidFor.
        destruct (String.eqb (Token.token y) value); [| reflexivity].
        destruct (Token.kind_eqb (Token.type y) Token.refresh); [| reflexivity].
        discriminate.
      * unfold TokenModel.isValidFor. cbn.
        destruct (String.eqb (Token.token x) value); [| reflexivity].
        destruct (Token.kind_eqb (Token.type x) Token.refresh); reflexivity.
    + exists m. exact Hm.
Qed.

Lemma logout_then_refresh_is_refused_witness :
  exists m,
    AuthService.refreshToken (H:=exampleCrypto) 20 "refresh.a@x.com"
      (snd (AuthService.logout "refresh.a@x.com"
              (mkDb [exampleUser] [exampleUserRole]
                    [Token.mk 1%nat "refresh.a@x.com" Token.refresh 604800000 false])))
    = (Threw (Api (ApiError.mk m 401 true)),
       snd (AuthService.logout "refresh.a@x.com"
              (mkDb [exampleUser] [exampleUserRole]
                    [Token.mk 1%nat "refresh.a@x.com" Token.refresh 604800000 false]))).
Proof.
  refine (proj2 (proj2 (proj2
    (logout_then_refresh_is_refused (H:=exampleCrypto) "refresh.a@x.com"
       (mkDb [exampleUser] [exampleUserRole]
             [Token.mk 1%nat "refresh.a@x.com" Token.refresh 604800000 false])
       _))) 20).
  unfold UniqueTokens. simpl. constructor; [simpl; tauto | constructor].
Defined.

Lemma updateAll_twice {A : Type} (p : A -> bool) (f : A -> A) (l : list A) :
  (forall x, p x = true -> p (f x) = true) ->
  (forall x, p x = true -> f (f x) = f x) ->
  updateAll p f (updateAll p f l) = updateAll p f l.
Proof.
  intros Hp Hf. unfold updateAll. rewrite map_map. apply map_ext.
  intros x. destruct (p x) eqn:E.
  - now rewrite (Hp x E), (Hf x E).
  - now rewrite E.
Qed.

Lemma filter_nothing {A : Type} (p : A -> bool) (l : list A) :
  (forall x, In x l -> p x = false) -> filter p l = [].
Proof.
  induction l as [|x l IH]; simpl; [reflexivity |]. intros Hall.
  rewrite (Hall x (or_introl eq_refl)). apply IH. intros y Hy. apply Hall. now right.
Qed.

(** X4.  [removeAllRefreshTokens] returns the number of refresh records
    of the user and revokes exactly those: afterwards [getUserTokens]
    of the user is empty at any time, the records of other users and
    of other kinds are as they were, no record is added or removed,
    the users and roles are untouched, and a second call changes
    nothing more. *)
Theorem removeAllRefreshTokens_revokes_exactly_the_users :
  forall (uid : ObjectId) (db : Db),
    let after := snd (TokenService.removeAllRefreshTokens uid db) in
    fst (TokenService.removeAllRefreshTokens uid db)
    = Returned (List.length (filter (TokenModel.ownedBy uid Token.refresh) (tokens db)))
    /\ (forall later, fst (TokenService.getUserTokens later uid after) = Returned [])
    /\ (forall t, In t (tokens db) ->
                  TokenModel.ownedBy uid Token.refresh t = false ->
                  In t (tokens after))
    /\ map Token.token (tokens after) = map Token.token (tokens db)
    /\ users after = users db /\ roles after = roles db
    /\ snd (TokenService.removeAllRefreshTokens uid after) = after.
Proof.
  intros uid db. cbv zeta.
  unfold TokenService.removeAllRefreshTokens, TokenService.getUserTokens,
    TokenModel.revokeAllForUser, TokenModel.findByUserId,
    try_catch, bind, gets, modify, ret.
  cbn [fst snd tokens users roles set_tokens].
  split; [reflexivity |]. split; [| split; [| split; [| split; [| split]]]].
  - intros later. f_equal. apply filter_nothing. intros y Hy.
    apply updateAll_In in Hy. destruct Hy as [x [_ ->]].
    unfold TokenModel.ownedBy.
    destruct ((Token.userId x =? uid)%nat) eqn:Eu;
      destruct (Token.kind_eqb (Token.type x) Token.refresh) eqn:Ek; cbn;
        rewrite ?Eu, ?Ek; reflexivity.
  - intros t Hin Hown. unfold updateAll. apply in_map_iff. exists t.
    rewrite Hown. auto.
  - apply map_updateAll_key. reflexivity.
  - reflexivity.
  - reflexivity.
  - unfold set_tokens. cbn. f_equal. apply updateAll_twice.
    + intros x Hx. exact Hx.
    + reflexivity.
Qed.

(** X5.  [cleanExpiredTokens] removes the records whose expiry lies
    before [now] and returns their number; the records it leaves have
    not expired; and at [now] or any later instant [findValidToken]
    answers for every value and kind as it would have without the
    purge. *)
Theorem cleanExpiredTokens_keeps_every_valid_token :
  forall (now : Z) (db : Db),
    let after := snd (TokenService.cleanExpiredTokens now db) in
    (exists n, fst (TokenService.cleanExpiredTokens now db) = Returned n
               /\ (n + List.length (tokens after))%nat = List.length (tokens db))
    /\ (forall t, In t (tokens after) -> In t (tokens db) /\ now <= Token.expiresAt t)
    /\ (forall later value k,
        now <= later ->
        TokenModel.findValidToken value k later after
        = (fst (TokenModel.findValidToken value k later db), after)).
Proof.
  intros now db. cbv zeta.
  unfold TokenService.cleanExpiredTokens, TokenModel.cleanExpired,
    TokenModel.findValidToken, try_catch, bind, gets, modify, ret.
  cbn [fst snd tokens set_tokens]. split; [| split].
  - eexists. split; [reflexivity |].
    induction (tokens db) as [|t ts IH]; [reflexivity |].
    cbn [filter]. destruct (Token.expiresAt t <? now); cbn [negb List.length]; lia.
  - intros t Hin. apply filter_In in Hin. destruct Hin as [Hin Hb].
    split; [assumption |]. apply negb_true_iff, Z.ltb_ge in Hb. exact Hb.
  - intros later value k Hle. f_equal. f_equal.
    apply find_filter_kept. intros x Hx. unfold TokenModel.isValidFor in Hx.
    apply andb_true_iff in Hx. destruct Hx as [_ Hx]. apply Z.ltb_lt in Hx.
    apply negb_true_iff, Z.ltb_ge. lia.
Qed.

Lemma cleanExpiredTokens_keeps_every_valid_token_witness :
  TokenModel.findValidToken "t2" Token.refresh 60
    (snd (TokenService.cleanExpiredTokens 50
            (mkDb [] [] [Token.mk 1%nat "t1" Token.refresh 40 false;
                         Token.mk 1%nat "t2" Token.refresh 100 false])))
  = (fst (TokenModel.findValidToken "t2" Token.refresh 60
            (mkDb [] [] [Token.mk 1%nat "t1" Token.refresh 40 false;
                         Token.mk 1%nat "t2" Token.refresh 100 false])),
     snd (TokenService.cleanExpiredTokens 50
            (mkDb [] [] [Token.mk 1%nat "t1" Token.refresh 40 false;
                         Token.mk 1%nat "t2" Token.refresh 100 false]))).
Proof.
  refine (proj2 (proj2 (cleanExpiredTokens_keeps_every_valid_token 50
            (mkDb [] [] [Token.mk 1%nat "t1" Token.refresh 40 false;
                         Token.mk 1%nat "t2" Token.refresh 100 false])))
          60 "t2" Token.refresh _).
  lia.
Defined.

Lemma verifyPasswordResetToken_find (now : Z) (value : string) (db : Db) :
  EphemeralTokens.verifyPasswordResetToken now value db
  = (match find (TokenModel.isValidFor value Token.reset now) (tokens db) with
     | Some d => Returned d
     | None => Threw (Api (ApiError.unauthorized "Invalid password reset token"))
     end, db).
Proof.
  unfold EphemeralTokens.verifyPasswordResetToken, try_catch, bind,
    TokenModel.findValidToken, gets.
  destruct (find _ (tokens db)); reflexivity.
Qed.

(** X6.  A password-reset record stored with an expiry under a value
    that is not empty and not stored yet is returned by
    [verifyPasswordResetToken] before the expiry, and refused from the
    expiry on.  A refusal is always the 401 error 'Invalid password
    reset token' (the message thrown inside the [try] is replaced by
    the [catch]), verification never writes, and a value stored only
    under other kinds (a refresh token, say) is refused.  A reset
    record without an expiry, or with the empty string as its token,
    is not stored: the store fails with a 500 error and changes
    nothing. *)
Theorem resetToken_store_then_verify :
  forall (now : Z) (uid : ObjectId) (value : string) (e : Z) (db : Db),
    (value <> EmptyString ->
     TokenModel.tokenTaken value (tokens db) = false ->
     let after :=
       snd (EphemeralTokens.storePasswordResetToken now uid value (Some e) db) in
     forall later,
       (later < e ->
        EphemeralTokens.verifyPasswordResetToken later value after
        = (Returned (Token.mk uid value Token.reset e false), after))
       /\ (e <= later ->
           EphemeralTokens.verifyPasswordResetToken later value after
           = (Threw (Api (ApiError.mk "Invalid password reset token" 401 true)),
              after)))
    /\ ((forall t, In t (tokens db) -> Token.token t = value ->
                   Token.type t <> Token.reset) ->
        EphemeralTokens.verifyPasswordResetToken now value db
        = (Threw (Api (ApiError.mk "Invalid password reset token" 401 true)), db))
    /\ snd (EphemeralTokens.verifyPasswordResetToken now value db) = db
    /\ EphemeralTokens.storePasswordResetToken now uid value None db
       = (Threw (Api (ApiError.mk "Failed to store password reset token" 500 false)),
          db)
    /\ EphemeralTokens.storePasswordResetToken now uid EmptyString (Some e) db
       = (Threw (Api (ApiError.mk "Failed to store password reset token" 500 false)),
          db).
Proof.
  intros now uid value e db. split; [| split; [| split; [| split]]].
  - intros Hne Hfresh. cbv zeta.
    assert (Hstore :
      EphemeralTokens.storePasswordResetToken now uid value (Some e) db
      = (Returned (Token.mk uid value Token.reset e false),
         set_tokens (tokens db ++ [Token.mk uid value Token.reset e false]) db)).
    { unfold EphemeralTokens.storePasswordResetToken, try_catch.
      now rewrite (save_fresh now e uid value Token.reset db Hne Hfresh). }
    rewrite Hstore. cbn [snd]. intros later.
    rewrite verifyPasswordResetToken_find. cbn [tokens set_tokens].
    rewrite find_app_miss
      by (apply isValidFor_other_value; now apply tokenTaken_false).
    cbn [find]. unfold TokenModel.isValidFor. cbn.
    rewrite String.eqb_refl. cbn. split; intros Hl.
    + apply Z.ltb_lt in Hl. now rewrite Hl.
    + apply Z.ltb_ge in Hl. now rewrite Hl.
  - intros Hkind. rewrite verifyPasswordResetToken_find.
    assert (Hn : find (TokenModel.isValidFor value Token.reset now) (tokens db) = None).
    { apply find_none_iff. intros t Hin. unfold TokenModel.isValidFor.
      destruct (String.eqb (Token.token t) value) eqn:Ev; [| reflexivity].
      destruct (Token.kind_eqb (Token.type t) Token.reset) eqn:Ek; [| reflexivity].
      apply String.eqb_eq in Ev. apply Token.kind_eqb_eq in Ek.
      exfalso. exact (Hkind t Hin Ev Ek). }
    now rewrite Hn.
  - now rewrite verifyPasswordResetToken_find.
  - unfold EphemeralTokens.storePasswordResetToken, try_catch, TokenModel.save,
      TokenModel.validate.
    cbn [TokenModel.d_expiresAt]. rewrite andb_false_r. reflexivity.
  - reflexivity.
Qed.

Lemma resetToken_store_then_verify_witness :
  EphemeralTokens.verifyPasswordResetToken 3599999 "r3s3t"
    (snd (EphemeralTokens.storePasswordResetToken 0 1%nat "r3s3t" (Some 3600000)
            exampleDb))
  = (Returned (Token.mk 1%nat "r3s3t" Token.reset 3600000 false),
     snd (EphemeralTokens.storePasswordResetToken 0 1%nat "r3s3t" (Some 3600000)
            exampleDb)).
Proof.
  refine (proj1 (proj1 (resetToken_store_then_verify 0 1%nat "r3s3t" 3600000 exampleDb)
                       _ eq_refl 3599999) _).
  - discriminate.
  - lia.
Defined.

(* ------------------------------------------------------------------ *)
(** ** Auth service: [changePassword] and [deleteAccount]
       (unnamed/part_010, second file, lines 188-210 and 311-334) *)

Module AccountService.
Section WithCrypto.
Context `{Crypto}.

(** The write of [changePassword]'s [user.save()]: [password] was set,
    and is stored hashed as in [AuthService.resetWrite]. *)
Definition passwordWrite (newPassword : string) (u : User.t) : User.t :=
  User.set_password (hashPassword newPassword) u.

(** The write of [deleteAccount]'s [user.save()]:
    [isDeleted = true; isActive = false]. *)
Definition softDelete (u : User.t) : User.t :=
  User.mk (User._id u) (User.email u) (User.password u) (User.role u)
          (User.isEmailVerified u)
          (User.emailVerificationToken u) (User.emailVerificationExpires u)
          (User.passwordResetToken u) (User.passwordResetExpires u)
          (User.loginAttempts u) (User.lockUntil u) (User.lastLogin u)
          false true.

(** [changePassword] *)
Definition changePassword (userId : ObjectId) (currentPassword newPassword : string)
  : M string :=
  user <- UserModel.findById userId ;;
  match user with
  | None => throw (Api (ApiError.notFound "User not found"))
  | Some user =>
      if negb (UserModel.comparePassword user currentPassword)
      then throw (Api (ApiError.invalidCredentials "Current password is incorrect"))
      else
        UserModel.updateById (User._id user) (passwordWrite newPassword) ;;;
        TokenService.removeAllRefreshTokens userId ;;;
        ret "Password changed successfully"
  end.

(** [deleteAccount] *)
Definition deleteAccount (userId : ObjectId) (password : string) : M string :=
  user <- UserModel.findById userId ;;
  match user with
  | None => throw (Api (ApiError.notFound "User not found"))
  | Some user =>
      if negb (UserModel.comparePassword user password)
      then throw (Api (ApiError.invalidCredentials "Password is incorrect"))
      else
        UserModel.updateById (User._id user) softDelete ;;;
        TokenService.removeAllRefreshTokens userId ;;;
        ret "Account deleted successfully"
  end.

End WithCrypto.
End AccountService.

(* ------------------------------------------------------------------ *)
(** ** Auth service: properties *)

Lemma find_byId_id (l : list User.t) (id : ObjectId) (u : User.t) :
  find (byId id) l = Some u -> User._id u = id /\ In u l.
Proof.
  intros Hf. apply find_some in Hf. destruct Hf as [Hin Hb].
  unfold byId in Hb. apply Nat.eqb_eq in Hb. auto.
Qed.

Lemma find_after_update_same_filter (p : User.t -> bool) (l : list User.t)
      (id : ObjectId) (f : User.t -> User.t) (u : User.t) :
  NoDup (map User._id l) ->
  (forall x, p (f x) = p x) ->
  find p l = Some u -> User._id u = id ->
  find p (updateFirst (byId id) f l) = Some (f u).
Proof.
  intros Hnd Hp. induction l as [|x l IH]; simpl; [discriminate |].
  inversion Hnd as [|? ? Hnotin Hnd']; subst.
  intros Hfind Hid. unfold byId at 1. rewrite <- Hid.
  destruct (User._id x =? User._id u)%nat eqn:E.
  - apply Nat.eqb_eq in E. simpl. rewrite Hp.
    destruct (p x) eqn:Epx.
    + now injection Hfind as ->.
    + exfalso. apply Hnotin. rewrite E. apply in_map.
      apply find_some in Hfind. tauto.
  - simpl. destruct (p x) eqn:Epx.
    + injection Hfind as ->. rewrite Nat.eqb_refl in E. discriminate.
    + rewrite Hid. now apply IH.
Qed.

Lemma users_after_update (db : Db) (id : ObjectId) (f : User.t -> User.t)
      (v : User.t) :
  In v (users db) -> User._id v <> id ->
  In v (updateFirst (byId id) f (users db)).
Proof.
  intros Hin Hne. apply In_updateFirst_untouched; [assumption |].
  unfold byId. now apply Nat.eqb_neq.
Qed.

Lemma revoked_after_updateAll (uid : ObjectId) (ts : list Token.t) (t : Token.t) :
  In t (updateAll (TokenModel.ownedBy uid Token.refresh) (Token.set_isRevoked true) ts) ->
  Token.userId t = uid -> Token.type t = Token.refresh -> Token.isRevoked t = true.
Proof.
  intros Hin Hu Hk. apply updateAll_In in Hin. destruct Hin as [x [_ ->]].
  destruct (TokenModel.ownedBy uid Token.refresh x) eqn:E; [reflexivity |].
  exfalso. unfold TokenModel.ownedBy in E. rewrite Hu, Hk in E.
  now rewrite Nat.eqb_refl in E.
Qed.

(** X7.  [changePassword] fails with 404 for an unknown user and with
    the 401 error 'Current password is incorrect' when the current
    password does not match, and writes nothing in either case.  When
    it matches, the stored password becomes the hash of the new one,
    every refresh record of the user is revoked, and the other users
    and the roles are as they were. *)
Theorem changePassword_outcomes `{Crypto} :
  forall (uid : ObjectId) (current newPassword : string) (db : Db),
    UniqueIds db ->
    (find (byId uid) (users db) = None ->
     AccountService.changePassword uid current newPassword db
     = (Threw (Api (ApiError.mk "User not found" 404 true)), db))
    /\ (forall user,
        find (byId uid) (users db) = Some user ->
        (comparePassword current (User.password user) = false ->
         AccountService.changePassword uid current newPassword db
         = (Threw (Api (ApiError.mk "Current password is incorrect" 401 true)), db))
        /\ (comparePassword current (User.password user) = true ->
            let after :=
              snd (AccountService.changePassword uid current newPassword db) in
            fst (AccountService.changePassword uid current newPassword db)
            = Returned "Password changed successfully"
            /\ option_map User.password (stored after uid)
               = Some (hashPassword newPassword)
            /\ (forall t, In t (tokens after) -> Token.userId t = uid ->
                          Token.type t = Token.refresh -> Token.isRevoked t = true)
            /\ (forall v, In v (users db) -> User._id v <> uid -> In v (users after))
            /\ roles after = roles db)).
Proof.
  intros uid current newPassword db Huniq. split.
  - intros Hfind. unfold AccountService.changePassword, bind, UserModel.findById, gets.
    now rewrite Hfind.
  - intros user Hfind. destruct (find_byId_id _ _ _ Hfind) as [Hid Hin]. split.
    + intros Hpw. unfold AccountService.changePassword.
      unfold bind at 1. unfold UserModel.findById, gets. rewrite Hfind.
      unfold UserModel.comparePassword. now rewrite Hpw.
    + intros Hpw. cbv zeta.
      assert (Hrun :
        AccountService.changePassword uid current newPassword db
        = (Returned "Password changed successfully",
           mkDb (updateFirst (byId uid) (AccountService.passwordWrite newPassword)
                             (users db))
                (roles db)
                (updateAll (TokenModel.ownedBy uid Token.refresh)
                           (Token.set_isRevoked true) (tokens db)))).
      { unfold AccountService.changePassword.
        unfold bind at 1. unfold UserModel.findById, gets. rewrite Hfind.
        unfold UserModel.comparePassword. rewrite Hpw. cbn [negb].
        unfold bind at 1. rewrite updateById_writes, Hid.
        unfold bind at 1. rewrite removeAllRefreshTokens_writes. reflexivity. }
      rewrite Hrun. cbn [fst snd users roles tokens].
      split; [reflexivity |]. split; [| split; [| split]].
      * pose proof (stored_after_update db user
                      (AccountService.passwordWrite newPassword) Huniq Hin eq_refl) as Hst.
        rewrite Hid in Hst. unfold stored in *. cbn [users set_users] in *.
        now rewrite Hst.
      * intros t. apply revoked_after_updateAll.
      * intros v. apply users_after_update.
      * reflexivity.
Qed.

Lemma changePassword_outcomes_witness :
  AccountService.changePassword (H:=exampleCrypto) 1%nat "wrong" "P2" exampleDb
  = (Threw (Api (ApiError.mk "Current password is incorrect" 401 true)), exampleDb).
Proof.
  refine (proj1 (proj2 (changePassword_outcomes (H:=exampleCrypto)
                          1%nat "wrong" "P2" exampleDb exampleDb_unique_ids)
                       exampleUser eq_refl) eq_refl).
Defined.

(** X8.  [deleteAccount] with the right password soft-deletes: the
    record stays in the collection with [isDeleted = true] and
    [isActive = false], and every refresh record of the user is
    revoked.  Afterwards no refresh token whose payload names the
    user is accepted: [refreshToken] fails with the 401 error 'Invalid
    refresh token' when no valid record is stored under the value,
    and with the 401 error 'User not found or inactive' otherwise, and
    it writes nothing. *)
Theorem deleteAccount_then_refresh_is_refused `{Crypto} :
  forall (uid : ObjectId) (password : string) (db : Db) (user : User.t),
    UniqueIds db ->
    find (byId uid) (users db) = Some user ->
    comparePassword password (User.password user) = true ->
    let after := snd (AccountService.deleteAccount uid password db) in
    fst (AccountService.deleteAccount uid password db)
    = Returned "Account deleted successfully"
    /\ stored after uid = Some (AccountService.softDelete user)
    /\ List.length (users after) = List.length (users db)
    /\ (forall t, In t (tokens after) -> Token.userId t = uid ->
                  Token.type t = Token.refresh -> Token.isRevoked t = true)
    /\ (forall later value decoded,
        verifyJWTRefreshToken value later = Decoded decoded ->
        rp_id decoded = uid ->
        AuthService.refreshToken later value after
        = (Threw (Api (ApiError.mk
                         (match find (TokenModel.isValidFor value Token.refresh later)
                                     (tokens after) with
                          | None => "Invalid refresh token"
                          | Some _ => "User not found or inactive"
                          end) 401 true)), after)).
Proof.
  intros uid password db user Huniq Hfind Hpw. cbv zeta.
  destruct (find_byId_id _ _ _ Hfind) as [Hid Hin].
  assert (Hrun :
    AccountService.deleteAccount uid password db
    = (Returned "Account deleted successfully",
       mkDb (updateFirst (byId uid) AccountService.softDelete (users db))
            (roles db)
            (updateAll (TokenModel.ownedBy uid Token.refresh)
                       (Token.set_isRevoked true) (tokens db)))).
  { unfold AccountService.deleteAccount.
    unfold bind at 1. unfold UserModel.findById, gets. rewrite Hfind.
    unfold UserModel.comparePassword. rewrite Hpw. cbn [negb].
    unfold bind at 1. rewrite updateById_writes, Hid.
    unfold bind at 1. rewrite removeAllRefreshTokens_writes. reflexivity. }
  rewrite Hrun. cbn [fst snd users roles tokens].
  assert (Hstored :
    find (byId uid) (updateFirst (byId uid) AccountService.softDelete (users db))
    = Some (AccountService.softDelete user)).
  { pose proof (stored_after_update db user AccountService.softDelete
                  Huniq Hin eq_refl) as Hst.
    rewrite Hid in Hst. unfold stored in *. cbn [users set_users] in *. exact Hst. }
  split; [reflexivity |]. split; [| split; [| split]].
  - exact Hstored.
  - apply updateFirst_length.
  - intros t. apply revoked_after_updateAll.
  - intros later value decoded Hv Hdec.
    unfold AuthService.refreshToken, TokenService.verifyRefreshToken.
    rewrite Hv. unfold bind at 1 2. rewrite findValidToken_reads.
    cbn [tokens].
    destruct (find (TokenModel.isValidFor value Token.refresh later) _) eqn:Ef;
      [| reflexivity].
    cbn [ret]. unfold bind at 1. rewrite checkRefreshToken_reads. cbn [tokens].
    rewrite Ef. cbn [negb].
    unfold bind at 1. unfold UserModel.findById, gets. cbn [users].
    rewrite Hdec, Hstored. reflexivity.
Qed.

Lemma deleteAccount_then_refresh_is_refused_witness :
  AuthService.refreshToken (H:=exampleCrypto) 20 "refresh.a@x.com"
    (snd (AccountService.deleteAccount (H:=exampleCrypto) 1%nat "P1"
            (mkDb [exampleUser] [exampleUserRole]
                  [Token.mk 1%nat "refresh.a@x.com" Token.refresh 5000 false])))
  = (Threw (Api (ApiError.mk "Invalid refresh token" 401 true)),
     snd (AccountService.deleteAccount (H:=exampleCrypto) 1%nat "P1"
            (mkDb [exampleUser] [exampleUserRole]
                  [Token.mk 1%nat "refresh.a@x.com" Token.refresh 5000 false]))).
Proof.
  exact (proj2 (proj2 (proj2 (proj2
    (deleteAccount_then_refresh_is_refused (H:=exampleCrypto) 1%nat "P1"
       (mkDb [exampleUser] [exampleUserRole]
             [Token.mk 1%nat "refresh.a@x.com" Token.refresh 5000 false])
       exampleUser exampleDb_unique_ids eq_refl eq_refl))))
    20 "refresh.a@x.com" (mkRefreshPayload 1%nat "a@x.com" "user") eq_refl eq_refl).
Defined.

(** X9.  After [verifyEmail] has consumed a user's verification token,
    the stored user is verified and holds no verification token, and
    [resendVerification] for that user is refused with the 400 error
    'Email is already verified' and writes nothing. *)
Theorem verifyEmail_then_resend_is_refused `{Crypto} `{Mailer} :
  forall (now : Z) (token : string) (db : Db) (user : User.t),
    UniqueIds db ->
    find (UserModel.holdsVerificationToken token now) (users db) = Some user ->
    let after := snd (AuthService.verifyEmail now token db) in
    (exists u', stored after (User._id user) = Some u'
                /\ User.isEmailVerified u' = true
                /\ User.emailVerificationToken u' = None
                /\ User.emailVerificationExpires u' = None
                /\ User.password u' = User.password user)
    /\ (forall later email newToken,
        find (byEmail email) (users db) = Some user ->
        AuthService.resendVerification later email newToken after
        = (Threw (Api (ApiError.mk "Email is already verified" 400 true)), after)).
Proof.
  intros now token db user Huniq Hfind. cbv zeta.
  assert (Hin : In user (users db)) by (apply find_some in Hfind; tauto).
  rewrite (verifyEmail_found now token db user Hfind). cbn [snd]. split.
  - eexists. split; [apply stored_after_update; auto |]. cbn. repeat split.
  - intros later email newToken Hmail.
    unfold AuthService.resendVerification. unfold bind at 1.
    rewrite findByEmail_reads. cbn [users set_users].
    rewrite (find_after_update_same_filter (byEmail email) (users db) (User._id user)
               (fun u => User.set_emailVerification None None
                           (User.set_isEmailVerified true u))
               user Huniq (fun x => eq_refl) Hmail eq_refl).
    reflexivity.
Qed.

Lemma verifyEmail_then_resend_is_refused_witness :
  AuthService.resendVerification (mailer:=exampleMailer) 20 "a@x.com" "v2"
    (snd (AuthService.verifyEmail 10 "v1"
            (mkDb [User.set_emailVerification (Some "v1") (Some 86400000)
                     (User.set_isEmailVerified false exampleUser)]
                  [exampleUserRole] [])))
  = (Threw (Api (ApiError.mk "Email is already verified" 400 true)),
     snd (AuthService.verifyEmail 10 "v1"
            (mkDb [User.set_emailVerification (Some "v1") (Some 86400000)
                     (User.set_isEmailVerified false exampleUser)]
                  [exampleUserRole] []))).
Proof.
  refine (proj2 (@verifyEmail_then_resend_is_refused exampleCrypto exampleMailer 10 "v1"
            (mkDb [User.set_emailVerification (Some "v1") (Some 86400000)
                     (User.set_isEmailVerified false exampleUser)]
                  [exampleUserRole] [])
            (User.set_emailVerification (Some "v1") (Some 86400000)
               (User.set_isEmailVerified false exampleUser))
            _ eq_refl) 20 "a@x.com" "v2" eq_refl).
  unfold UniqueIds. simpl. constructor; [simpl; tauto | constructor].
Defined.

(** X10.  [forgotPassword] for an address without account returns the
    uniform message, writes nothing and sends nothing.  For a stored
    user it stores the drawn token with an expiry of one hour and then
    sends the mail: it returns 'Password reset email sent' when the
    transport completes and throws 'Failed to send email' when it
    does not, and the stored token stays either way.
    [resetPassword] with that token succeeds at every instant before
    [now] plus one hour, and from then on fails with the 400 error
    'Invalid or expired reset token' (no other user holding the
    value). *)
Theorem forgotPassword_token_lives_one_hour `{Crypto} `{Mailer} :
  forall (now : Z) (email token : string) (db : Db),
    (find (byEmail email) (users db) = None ->
     AuthService.forgotPassword now email token db
     = (Returned
          "If an account with that email exists, a password reset email has been sent",
        db))
    /\ (forall user,
        UniqueIds db ->
        find (byEmail email) (users db) = Some user ->
        (forall v, In v (users db) -> User.passwordResetToken v = Some token ->
                   User._id v = User._id user) ->
        let after := snd (AuthService.forgotPassword now email token db) in
        fst (AuthService.forgotPassword now email token db)
        = (if transportSends (User.email user) "Reset Your Password" (resetHtml token)
           then Returned "Password reset email sent"
           else Threw (JsError "Error" "Failed to send email"))
        /\ stored after (User._id user)
           = Some (User.set_passwordReset (Some token) (Some (now + 60 * 60 * 1000))
                                          user)
        /\ forall later newPassword,
            (later < now + 60 * 60 * 1000 ->
             fst (AuthService.resetPassword later token newPassword after)
             = Returned "Password reset successfully")
            /\ (now + 60 * 60 * 1000 <= later ->
                AuthService.resetPassword later token newPassword after
                = (Threw (Api (ApiError.mk "Invalid or expired reset token" 400 true)),
                   after))).
Proof.
  intros now email token db. split.
  - intros Hnone. unfold AuthService.forgotPassword, bind.
    now rewrite findByEmail_reads, Hnone.
  - intros user Huniq Hfind Honly. cbv zeta.
    assert (Hin : In user (users db)) by (apply find_some in Hfind; tauto).
    rewrite (forgotPassword_found now email token db user Hfind). cbn [fst snd].
    split; [reflexivity |]. split.
    { exact (stored_after_update db user
               (User.set_passwordReset (Some token) (Some (now + AuthService.oneHour)))
               Huniq Hin eq_refl). }
    intros later newPassword. split.
    + intros Hlt.
      destruct (find (UserModel.holdsResetToken token later)
                  (users (set_users
                     (updateFirst (byId (User._id user))
                        (User.set_passwordReset (Some token)
                           (Some (now + AuthService.oneHour))) (users db)) db)))
        as [u|] eqn:Ef.
      * now rewrite (resetPassword_found later token newPassword _ u Ef).
      * exfalso.
        pose proof (stored_after_update db user
          (User.set_passwordReset (Some token) (Some (now + AuthService.oneHour)))
          Huniq Hin eq_refl) as Hst.
        unfold stored in Hst. apply find_some in Hst. destruct Hst as [Hst _].
        pose proof (find_none _ _ Ef _ Hst) as Hh.
        unfold UserModel.holdsResetToken in Hh. cbn in Hh.
        rewrite String.eqb_refl in Hh. cbn in Hh.
        unfold AuthService.oneHour in Hh. apply Z.ltb_ge in Hh. lia.
    + intros Hge. apply resetPassword_not_found. cbn [users set_users].
      apply find_none_iff. intros y Hy.
      destruct (In_updateFirst_unique (users db) (User._id user) _ y Huniq Hy)
        as [[Hyin Hne] | [x (_ & _ & ->)]].
      * destruct (UserModel.holdsResetToken token later y) eqn:E; [| reflexivity].
        exfalso. apply Hne. apply Honly; [assumption |].
        now apply holdsResetToken_token with (now := later).
      * unfold UserModel.holdsResetToken. cbn. rewrite String.eqb_refl. cbn.
        unfold AuthService.oneHour. apply Z.ltb_ge. lia.
Qed.

Lemma forgotPassword_token_lives_one_hour_witness :
  fst (AuthService.forgotPassword (mailer:=exampleMailer) 0 "a@x.com" "r3s3t" exampleDb)
  = Threw (JsError "Error" "Failed to send email")
  /\ fst (AuthService.forgotPassword (mailer:=deliveringMailer)
            0 "a@x.com" "r3s3t" exampleDb)
     = Returned "Password reset email sent"
  /\ fst (AuthService.resetPassword (H:=exampleCrypto) 3599999 "r3s3t" "P2"
            (snd (AuthService.forgotPassword (mailer:=exampleMailer)
                    0 "a@x.com" "r3s3t" exampleDb)))
     = Returned "Password reset successfully".
Proof.
  assert (Honly : forall v, In v (users exampleDb) ->
                            User.passwordResetToken v = Some "r3s3t" ->
                            User._id v = User._id exampleUser).
  { simpl. intros v [<- | []] _. reflexivity. }
  split; [| split].
  - exact (proj1 (proj2 (@forgotPassword_token_lives_one_hour exampleCrypto
             exampleMailer 0 "a@x.com" "r3s3t" exampleDb)
             exampleUser exampleDb_unique_ids eq_refl Honly)).
  - exact (proj1 (proj2 (@forgotPassword_token_lives_one_hour exampleCrypto
             deliveringMailer 0 "a@x.com" "r3s3t" exampleDb)
             exampleUser exampleDb_unique_ids eq_refl Honly)).
  - refine (proj1 (proj2 (proj2 (proj2 (@forgotPassword_token_lives_one_hour
              exampleCrypto exampleMailer 0 "a@x.com" "r3s3t" exampleDb)
              exampleUser exampleDb_unique_ids eq_refl Honly))
              3599999 "P2") _).
    lia.
Defined.

(** X11.  No call of [login] returns, and none stores a token: every
    path ends in a throw, and the tokens and the roles are as before.
    With the right password for a stored user who is active and not
    locked, and whose role exists, the error is the 500 'Failed to
    store refresh token' of [storeRefreshToken]; the reset of the
    counter and of the lock and the time of the login have been
    written by then. *)
Theorem login_never_returns `{Crypto} :
  forall (now : Z) (email password : string) (db : Db),
    (exists e, fst (AuthService.login now email password db) = Threw e)
    /\ tokens (snd (AuthService.login now email password db)) = tokens db
    /\ roles (snd (AuthService.login now email password db)) = roles db
    /\ (forall user role,
        UniqueIds db ->
        find (byEmail email) (users db) = Some user ->
        UserModel.isLocked now user = false ->
        User.isActive user = true ->
        comparePassword password (User.password user) = true ->
        find (fun r => (Role._id r =? User.role user)%nat) (roles db) = Some role ->
        fst (AuthService.login now email password db)
        = Threw (Api (ApiError.mk "Failed to store refresh token" 500 false))
        /\ stored (snd (AuthService.login now email password db)) (User._id user)
           = Some (User.set_lastLogin (Some now)
                     (User.set_lockUntil None (User.set_loginAttempts 0 user)))).
Proof.
  intros now email password db.
  assert (Hshape :
    (exists e, fst (AuthService.login now email password db) = Threw e)
    /\ tokens (snd (AuthService.login now email password db)) = tokens db
    /\ roles (snd (AuthService.login now email password db)) = roles db).
  { set (P := fun r : Outcome AuthService.LoginResult * Db =>
                 (exists e, fst r = Threw e)
                 /\ tokens (snd r) = tokens db /\ roles (snd r) = roles db).
    change (P (AuthService.login now email password db)).
    assert (Hdone : forall e users', P (Threw e, mkDb users' (roles db) (tokens db))).
    { intros e users'. unfold P. cbn. split; [now exists e | split; reflexivity]. }
    assert (Hsame : forall e, P (Threw e, db)).
    { intros e. unfold P. cbn. split; [now exists e | split; reflexivity]. }
    unfold AuthService.login. unfold bind at 1. rewrite findByEmail_reads.
    destruct (find (byEmail email) (users db)) as [user |]; [| apply Hsame].
    destruct (UserModel.isLocked now user); [apply Hsame |].
    destruct (negb (User.isActive user) || User.isDeleted user); [apply Hsame |].
    destruct (negb (UserModel.comparePassword user password)).
    - unfold UserModel.incLoginAttempts, bind. rewrite updateById_writes.
      cbn [ret throw]. apply Hdone.
    - unfold UserModel.resetLoginAttempts.
      unfold bind at 1 2. rewrite updateById_writes. cbn [ret].
      unfold bind at 1. rewrite updateById_writes.
      unfold bind at 1. unfold RoleMongo.findById at 1, gets at 1.
      cbn [roles set_users].
      destruct (find _ (roles db)) as [role |];
        [| unfold AuthService.nullRole, throw; apply Hdone].
      unfold bind at 1. rewrite storeRefreshToken_refused. apply Hdone. }
  destruct Hshape as (Hthrow & Htok & Hroles).
  split; [exact Hthrow |]. split; [exact Htok |]. split; [exact Hroles |].
  intros user role Huniq Hfind Hlock Hact Hpw Hrole.
  assert (Hin : In user (users db)) by (apply find_some in Hfind; tauto).
  rewrite (login_right_credentials now email password db user role
             Hfind Hlock Hact Hpw Hrole).
  cbn [fst snd]. split; [reflexivity |].
  pose proof (stored_after_update db user
    (fun x => User.set_lastLogin (Some now)
                (User.set_lockUntil None (User.set_loginAttempts 0 x)))
    Huniq Hin eq_refl) as Hst.
  unfold stored in *. cbn [users set_users] in *. exact Hst.
Qed.

Lemma login_never_returns_witness :
  fst (AuthService.login (H:=exampleCrypto) 0 "a@x.com" "P1" exampleDb)
  = Threw (Api (ApiError.mk "Failed to store refresh token" 500 false))
  /\ stored (snd (AuthService.login (H:=exampleCrypto) 0 "a@x.com" "P1" exampleDb))
            (User._id exampleUser)
     = Some (User.set_lastLogin (Some 0)
               (User.set_lockUntil None (User.set_loginAttempts 0 exampleUser))).
Proof.
  exact (proj2 (proj2 (proj2
    (login_never_returns (H:=exampleCrypto) 0 "a@x.com" "P1" exampleDb)))
    exampleUser exampleUserRole exampleDb_unique_ids
    eq_refl eq_refl eq_refl eq_refl eq_refl).
Defined.

(* ------------------------------------------------------------------ *)
(** ** Role service: permissions and assignment
       (unnamed/part_010, first file, lines 232-288 and 356-414),
       and the permission methods of the two role models *)

Module RoleAdmin.

(** The [forEach] of [addRolePermissions]: a permission is pushed when
    the array does not include it yet. *)
Definition pushMissing (current : list string) (permission : string) : list string :=
  if Str.includes current permission then current else current ++ [permission].

Definition mergePermissions (current added : list string) : list string :=
  fold_left pushMissing added current.

(** The [filter] of [removeRolePermissions]. *)
Definition withoutPermissions (current removed : list string) : list string :=
  filter (fun permission => negb (Str.includes removed permission)) current.

(** [addRolePermissions] *)
Definition addRolePermissions (roleId : ObjectId) (permissions : list string)
  : M Role.t :=
  try_catch
    (role <- RoleMongo.findById roleId ;;
     match role with
     | None => throw (Api (ApiError.notFound "Role not found"))
     | Some role =>
         if Role.isSystem role
         then throw (Api (ApiError.badRequest "Cannot update system roles"))
         else
           let merged := mergePermissions (Role.permissions role) permissions in
           RoleMongo.save
             (RoleService.assign "permissions"
                (RoleService.list_eqb merged (Role.permissions role))
                (Role.set_permissions merged) (RoleMongo.loaded role))
     end)
    (rethrowApiOr (ApiError.internalError "Failed to add role permissions")).

(** [removeRolePermissions] *)
Definition removeRolePermissions (roleId : ObjectId) (permissions : list string)
  : M Role.t :=
  try_catch
    (role <- RoleMongo.findById roleId ;;
     match role with
     | None => throw (Api (ApiError.notFound "Role not found"))
     | Some role =>
         if Role.isSystem role
         then throw (Api (ApiError.badRequest "Cannot update system roles"))
         else
           let kept := withoutPermissions (Role.permissions role) permissions in
           RoleMongo.save
             (RoleService.assign "permissions"
                (RoleService.list_eqb kept (Role.permissions role))
                (Role.set_permissions kept) (RoleMongo.loaded role))
     end)
    (rethrowApiOr (ApiError.internalError "Failed to remove role permissions")).

(** [user.role = ...] *)
Definition setRole (roleId : ObjectId) (u : User.t) : User.t :=
  User.mk (User._id u) (User.email u) (User.password u) roleId
          (User.isEmailVerified u)
          (User.emailVerificationToken u) (User.emailVerificationExpires u)
          (User.passwordResetToken u) (User.passwordResetExpires u)
          (User.loginAttempts u) (User.lockUntil u) (User.lastLogin u)
          (User.isActive u) (User.isDeleted u).

Definition saveUserRole (id roleId : ObjectId) : M unit :=
  modify (fun db => set_users (updateFirst (byId id) (setRole roleId) (users db)) db).

(** [assignRole] *)
Definition assignRole (roleId userId : ObjectId) : M string :=
  try_catch
    (role <- RoleMongo.findById roleId ;;
     match role with
     | None => throw (Api (ApiError.notFound "Role not found"))
     | Some _ =>
         user <- gets (fun db => find (byId userId) (users db)) ;;
         match user with
         | None => throw (Api (ApiError.notFound "User not found"))
         | Some user =>
             saveUserRole (User._id user) roleId ;;;
             ret "Role assigned successfully"
         end
     end)
    (rethrowApiOr (ApiError.internalError "Failed to assign role")).

(** [Role.findOne({ isDefault: true, isActive: true })] *)
Definition findActiveDefault : M (option Role.t) :=
  gets (fun db => find (fun r => Role.isDefault r && Role.isActive r) (roles db)).

(** [unassignRole] *)
Definition unassignRole (roleId userId : ObjectId) : M string :=
  try_catch
    (user <- gets (fun db => find (byId userId) (users db)) ;;
     match user with
     | None => throw (Api (ApiError.notFound "User not found"))
     | Some user =>
         if negb (User.role user =? roleId)%nat
         then throw (Api (ApiError.badRequest "User does not have this role"))
         else
           defaultRole <- findActiveDefault ;;
           match defaultRole with
           | None => throw (Api (ApiError.internalError "No default role found"))
           | Some defaultRole =>
               saveUserRole (User._id user) (Role._id defaultRole) ;;;
               ret "Role unassigned successfully"
           end
     end)
    (rethrowApiOr (ApiError.internalError "Failed to unassign role")).

(** [addPermission] of both role models. *)
Definition addPermission (r : Role.t) (permission : string) : Role.t :=
  if Str.includes (Role.permissions r) permission then r
  else Role.set_permissions (Role.permissions r ++ [permission]) r.

(** [removePermission] of the PostgreSQL model. *)
Definition removePermission (r : Role.t) (permission : string) : Role.t :=
  Role.set_permissions
    (filter (fun p => negb (String.eqb p permission)) (Role.permissions r)) r.

(** [removePermission] of the MongoDB model, which throws on a system
    role. *)
Definition removePermissionMongo (r : Role.t) (permission : string) : Outcome Role.t :=
  if Role.isSystem r
  then Threw (JsError "Error" "Cannot modify permissions of system roles")
  else Returned (removePermission r permission).

End RoleAdmin.

(* ------------------------------------------------------------------ *)
(** ** Roles: identifiers and names stay unique *)

(** Identifiers and names are unique in the role collection. *)
Definition RolesWellKeyed (db : Db) : Prop :=
  NoDup (map Role._id (roles db)) /\ NoDup (map Role.name (roles db)).

Lemma In_updateFirst_cases {A : Type} (p : A -> bool) (f : A -> A) (l : list A) (y : A) :
  In y (updateFirst p f l) ->
  In y l \/ (exists x, In x l /\ p x = true /\ y = f x).
Proof.
  induction l as [|x l IH]; simpl; [tauto |].
  destruct (p x) eqn:E.
  - intros [<- | Hin]; [right; exists x; auto | left; now right].
  - intros [<- | Hin]; [left; now left |].
    destruct (IH Hin) as [Hy | [z (Hz & Hpz & ->)]]; [left; now right |].
    right. exists z. auto.
Qed.

Lemma map_updateFirst_key_on_match {A K : Type} (key : A -> K) (p : A -> bool)
      (f : A -> A) (l : list A) :
  (forall x, p x = true -> key (f x) = key x) ->
  map key (updateFirst p f l) = map key l.
Proof.
  intros Hk. induction l as [|x l IH]; simpl; [reflexivity |].
  destruct (p x) eqn:E; simpl; [now rewrite (Hk x E) | now rewrite IH].
Qed.

Lemma nameTaken_false (d : Role.t) (rs : list Role.t) :
  RoleMongo.nameTaken d rs = false ->
  forall r, In r rs -> Role._id r <> Role._id d -> Role.name r <> Role.name d.
Proof.
  unfold RoleMongo.nameTaken. intros Hf r Hin Hid Hname.
  assert (Hex : existsb (fun r0 => negb (Role._id r0 =? Role._id d)%nat
                                   && String.eqb (Role.name r0) (Role.name d)) rs = true).
  { apply existsb_exists. exists r. split; [assumption |].
    apply andb_true_iff. split.
    - apply negb_true_iff. now apply Nat.eqb_neq.
    - now apply String.eqb_eq. }
  congruence.
Qed.

Lemma replace_keeps_names (rs : list Role.t) (d : Role.t) :
  NoDup (map Role._id rs) -> NoDup (map Role.name rs) ->
  (forall r, In r rs -> Role._id r <> Role._id d -> Role.name r <> Role.name d) ->
  NoDup (map Role.name
           (updateFirst (fun r => (Role._id r =? Role._id d)%nat) (fun _ => d) rs)).
Proof.
  induction rs as [|x rs IH]; simpl; [constructor |].
  intros Hids Hnames Hfree.
  inversion Hids as [|? ? Hidx Hids']; subst.
  inversion Hnames as [|? ? Hnamex Hnames']; subst.
  destruct (Role._id x =? Role._id d)%nat eqn:E; simpl.
  - apply Nat.eqb_eq in E. constructor; [| assumption].
    intros Hin. apply in_map_iff in Hin. destruct Hin as [r [Hr Hin]].
    apply (Hfree r); [now right | | assumption].
    intros Hid. apply Hidx. rewrite E, <- Hid. now apply in_map.
  - apply Nat.eqb_neq in E. constructor.
    + intros Hin. apply in_map_iff in Hin. destruct Hin as [y [Hy Hin]].
      destruct (In_updateFirst_cases _ _ _ _ Hin) as [Hyin | [z (_ & _ & ->)]].
      * apply Hnamex. rewrite <- Hy. now apply in_map.
      * apply (Hfree x); [now left | assumption | now symmetry].
    + apply IH; [assumption | assumption |].
      intros r Hr. apply Hfree. now right.
Qed.

Lemma preSave_name_keeps (d : RoleMongo.Doc) :
  Role._id (RoleMongo.fields (RoleMongo.preSave_name d)) = Role._id (RoleMongo.fields d)
  /\ RoleMongo.isNew (RoleMongo.preSave_name d) = RoleMongo.isNew d
  /\ RoleMongo.modifiedPaths (RoleMongo.preSave_name d) = RoleMongo.modifiedPaths d
  /\ Role.isSystem (RoleMongo.fields (RoleMongo.preSave_name d))
     = Role.isSystem (RoleMongo.fields d).
Proof.
  unfold RoleMongo.preSave_name. destruct (RoleMongo.isModified "name" d); repeat split.
Qed.

Lemma write_keeps_keys (d : RoleMongo.Doc) (db : Db) :
  RolesWellKeyed db ->
  (RoleMongo.isNew d = true ->
   ~ In (Role._id (RoleMongo.fields d)) (map Role._id (roles db))) ->
  RolesWellKeyed (snd (RoleMongo.write d db)).
Proof.
  intros [Hids Hnames] Hfresh. unfold RoleMongo.write, bind, gets.
  destruct (RoleMongo.nameTaken (RoleMongo.fields d) (roles db)) eqn:Et;
    [split; assumption |].
  pose proof (nameTaken_false _ _ Et) as Hfree.
  destruct (RoleMongo.isNew d) eqn:En; cbn; unfold RolesWellKeyed; cbn [roles set_roles].
  - specialize (Hfresh eq_refl). split.
    + now apply NoDup_map_snoc.
    + apply NoDup_map_snoc; [assumption |].
      intros Hin. apply in_map_iff in Hin. destruct Hin as [r [Hr Hin]].
      apply (Hfree r Hin); [| assumption].
      intros Hid. apply Hfresh. rewrite <- Hid. now apply in_map.
  - split.
    + rewrite map_updateFirst_key_on_match; [assumption |].
      intros x Hx. apply Nat.eqb_eq in Hx. now symmetry.
    + now apply replace_keeps_names.
Qed.

Lemma save_keeps_keys (d : RoleMongo.Doc) (db : Db) :
  RolesWellKeyed db ->
  (RoleMongo.isNew d = true ->
   ~ In (Role._id (RoleMongo.fields d)) (map Role._id (roles db))) ->
  RolesWellKeyed (snd (RoleMongo.save d db)).
Proof.
  intros Hk Hfresh. unfold RoleMongo.save.
  destruct (negb (RoleMongo.validate (RoleMongo.fields d))); [exact Hk |].
  destruct (RoleMongo.preSave_deleteGuard _); [exact Hk |].
  destruct (RoleMongo.preSave_systemGuard _); [exact Hk |].
  destruct (preSave_name_keeps d) as (Hid & Hnew & _).
  pose proof (write_keeps_keys (RoleMongo.preSave_name d) db Hk) as Hw.
  rewrite Hid, Hnew in Hw. specialize (Hw Hfresh).
  unfold bind. destruct (RoleMongo.write (RoleMongo.preSave_name d) db) as [[u|e] db'];
    exact Hw.
Qed.

Lemma try_catch_rethrow_snd {A : Type} (c : M A) (fallback : ApiError.t) (db : Db) :
  snd (try_catch c (rethrowApiOr fallback) db) = snd (c db).
Proof.
  unfold try_catch, rethrowApiOr, throw.
  destruct (c db) as [[a|e] db']; [reflexivity |].
  destruct (isApiError e); reflexivity.
Qed.

Lemma assign_isNew (path : string) (same : bool) (set : Role.t -> Role.t)
      (d : RoleMongo.Doc) :
  RoleMongo.isNew (RoleService.assign path same set d) = RoleMongo.isNew d.
Proof. unfold RoleService.assign. destruct same; reflexivity. Qed.

Lemma applyUpdate_isNew (u : RoleService.UpdateData) (d : RoleMongo.Doc) :
  RoleMongo.isNew (RoleService.applyUpdate u d) = RoleMongo.isNew d.
Proof.
  unfold RoleService.applyUpdate, RoleService.onKey.
  destruct (RoleService.u_isDeleted u); rewrite ?assign_isNew;
  destruct (RoleService.u_isActive u); rewrite ?assign_isNew;
  destruct (RoleService.u_isSystem u); rewrite ?assign_isNew;
  destruct (RoleService.u_isDefault u); rewrite ?assign_isNew;
  destruct (RoleService.u_permissions u); rewrite ?assign_isNew;
  (destruct (RoleService.u_description u);
   [destruct (Role.description _) | ]); rewrite ?assign_isNew;
  destruct (RoleService.u_name u); rewrite ?assign_isNew; reflexivity.
Qed.

(** A stored document that is saved again is not new. *)
Lemma save_loaded_keeps_keys (d : RoleMongo.Doc) (db : Db) :
  RolesWellKeyed db -> RoleMongo.isNew d = false ->
  RolesWellKeyed (snd (RoleMongo.save d db)).
Proof.
  intros Hk Hnew. apply save_keeps_keys; [assumption |]. congruence.
Qed.

(** X12.  No operation of the role service ever stores two roles under
    one identifier or one name: when identifiers and names are
    pairwise different before [createRole] (with an identifier that is
    not in use), [updateRole], [deleteRole], [updateRolePermissions],
    [addRolePermissions] or [removeRolePermissions], they are pairwise
    different afterwards, whether the operation returns or throws. *)
Theorem role_keys_stay_unique :
  forall (db : Db),
    RolesWellKeyed db ->
    (forall newId roleData,
        ~ In newId (map Role._id (roles db)) ->
        RolesWellKeyed (snd (RoleService.createRole newId roleData db)))
    /\ (forall roleId updateData,
        RolesWellKeyed (snd (RoleService.updateRole roleId updateData db)))
    /\ (forall roleId, RolesWellKeyed (snd (RoleService.deleteRole roleId db)))
    /\ (forall roleId permissions,
        RolesWellKeyed (snd (RoleService.updateRolePermissions roleId permissions db))
        /\ RolesWellKeyed (snd (RoleAdmin.addRolePermissions roleId permissions db))
        /\ RolesWellKeyed (snd (RoleAdmin.removeRolePermissions roleId permissions db))).
Proof.
  intros db Hk. split; [| split; [| split]].
  - intros newId roleData Hfresh.
    unfold RoleService.createRole. rewrite try_catch_rethrow_snd.
    unfold bind, RoleService.findByNameNotDeleted, gets.
    destruct (find _ (roles db)); [exact Hk |].
    apply save_keeps_keys; [assumption |]. intros _. exact Hfresh.
  - intros roleId updateData.
    unfold RoleService.updateRole. rewrite try_catch_rethrow_snd.
    unfold bind at 1. unfold RoleMongo.findById, gets.
    destruct (find _ (roles db)) as [role|]; [| exact Hk].
    destruct (Role.isSystem role); [exact Hk |].
    unfold bind.
    destruct (match RoleService.u_name updateData with
              | Some newName => _
              | None => ret tt
              end db) as [[u|e] db'] eqn:Echeck.
    + assert (db' = db) as ->.
      { destruct (RoleService.u_name updateData) as [n|]; [| now inversion Echeck].
        destruct (negb (n =? "")%string && negb (n =? Role.name role)%string);
          [| now inversion Echeck].
        unfold gets in Echeck.
        destruct (find _ (roles db)); now inversion Echeck. }
      apply save_loaded_keeps_keys; [assumption |]. now rewrite applyUpdate_isNew.
    + assert (db' = db) as ->.
      { destruct (RoleService.u_name updateData) as [n|]; [| now inversion Echeck].
        destruct (negb (n =? "")%string && negb (n =? Role.name role)%string);
          [| now inversion Echeck].
        unfold gets in Echeck.
        destruct (find _ (roles db)); now inversion Echeck. }
      exact Hk.
  - intros roleId.
    unfold RoleService.deleteRole. rewrite try_catch_rethrow_snd.
    unfold bind at 1. unfold RoleMongo.findById, gets.
    destruct (find _ (roles db)) as [role|]; [| exact Hk].
    destruct (Role.isSystem role); [exact Hk |].
    unfold bind at 1.
    destruct (0 <? _)%nat; [exact Hk |].
    unfold bind.
    pose proof (save_loaded_keeps_keys
                  (RoleService.applyUpdate
                     (RoleService.mkUpdate None None None None None
                                           (Some false) (Some true))
                     (RoleMongo.loaded role)) db Hk) as Hs.
    rewrite applyUpdate_isNew in Hs. specialize (Hs eq_refl).
    destruct (RoleMongo.save _ db) as [[u|e] db']; exact Hs.
  - intros roleId permissions. split; [| split].
    + unfold RoleService.updateRolePermissions. rewrite try_catch_rethrow_snd.
      unfold bind at 1. unfold RoleMongo.findById, gets.
      destruct (find _ (roles db)) as [role|]; [| exact Hk].
      destruct (Role.isSystem role); [exact Hk |].
      apply save_loaded_keeps_keys; [assumption |]. now rewrite applyUpdate_isNew.
    + unfold RoleAdmin.addRolePermissions. rewrite try_catch_rethrow_snd.
      unfold bind at 1. unfold RoleMongo.findById, gets.
      destruct (find _ (roles db)) as [role|]; [| exact Hk].
      destruct (Role.isSystem role); [exact Hk |].
      apply save_loaded_keeps_keys; [assumption |]. now rewrite assign_isNew.
    + unfold RoleAdmin.removeRolePermissions. rewrite try_catch_rethrow_snd.
      unfold bind at 1. unfold RoleMongo.findById, gets.
      destruct (find _ (roles db)) as [role|]; [| exact Hk].
      destruct (Role.isSystem role); [exact Hk |].
      apply save_loaded_keeps_keys; [assumption |]. now rewrite assign_isNew.
Qed.

Lemma exampleDb_roles_well_keyed : RolesWellKeyed exampleDb.
Proof.
  split; simpl.
  - constructor; [simpl; intros [E | []]; discriminate |].
    constructor; [simpl; tauto | constructor].
  - constructor; [simpl; intros [E | []]; discriminate |].
    constructor; [simpl; tauto | constructor].
Qed.

Lemma role_keys_stay_unique_witness :
  RolesWellKeyed
    (snd (RoleService.createRole 12%nat
            (RoleMongo.mkData "editor" None ["content:read"] (Some true) None None)
            exampleDb)).
Proof.
  refine (proj1 (role_keys_stay_unique exampleDb exampleDb_roles_well_keyed) 12%nat _ _).
  simpl. intros [E | [E | []]]; discriminate.
Defined.

(* ------------------------------------------------------------------ *)
(** ** Role names as the pre-save hook stores them *)

Definition noSpace (s : string) : Prop :=
  forall c, In c (list_ascii_of_string s) -> Str.isSpace c = false.

Definition noUpper (s : string) : Prop :=
  forall c, In c (list_ascii_of_string s) ->
            ~ (65 <= nat_of_ascii c <= 90)%nat.

(** The stored form of a name: lower case, white space runs as hyphens. *)
Definition storedName (s : string) : string :=
  Str.replaceSpaces (Str.toLowerCase s).

Lemma isSpace_hyphen : Str.isSpace "-"%char = false.
Proof. reflexivity. Qed.

Lemma hyphenate_noSpace (b : bool) (s : string) : noSpace (Str.hyphenate b s).
Proof.
  revert b. induction s as [|c s IH]; intros b; simpl; [intros c [] |].
  destruct (Str.isSpace c) eqn:E.
  - destruct b; [apply IH |].
    intros x [<- | Hin]; [apply isSpace_hyphen | exact (IH true x Hin)].
  - intros x [<- | Hin]; [exact E | exact (IH false x Hin)].
Qed.

Lemma hyphenate_fixed (b : bool) (s : string) :
  noSpace s -> Str.hyphenate b s = s.
Proof.
  revert b. induction s as [|c s IH]; intros b Hn; simpl; [reflexivity |].
  rewrite (Hn c (or_introl eq_refl)). f_equal. apply IH.
  intros x Hx. apply Hn. now right.
Qed.

Lemma lowerChar_not_upper (c : ascii) :
  ~ (65 <= nat_of_ascii (Str.lowerChar c) <= 90)%nat.
Proof.
  unfold Str.lowerChar.
  destruct ((65 <=? nat_of_ascii c)%nat && (nat_of_ascii c <=? 90)%nat) eqn:E.
  - apply andb_true_iff in E. destruct E as [E1 E2].
    apply Nat.leb_le in E1, E2.
    rewrite nat_ascii_embedding by lia. lia.
  - intros [H1 H2]. apply Nat.leb_le in H1, H2. rewrite H1, H2 in E. discriminate.
Qed.

Lemma lowerChar_fixed (c : ascii) :
  ~ (65 <= nat_of_ascii c <= 90)%nat -> Str.lowerChar c = c.
Proof.
  intros Hn. unfold Str.lowerChar.
  destruct ((65 <=? nat_of_ascii c)%nat && (nat_of_ascii c <=? 90)%nat) eqn:E;
    [| reflexivity].
  apply andb_true_iff in E. destruct E as [E1 E2].
  apply Nat.leb_le in E1, E2. exfalso. apply Hn. lia.
Qed.

Lemma toLowerCase_noUpper (s : string) : noUpper (Str.toLowerCase s).
Proof.
  induction s as [|c s IH]; simpl; [intros c [] |].
  intros x [<- | Hin]; [apply lowerChar_not_upper | exact (IH x Hin)].
Qed.

Lemma toLowerCase_fixed (s : string) : noUpper s -> Str.toLowerCase s = s.
Proof.
  induction s as [|c s IH]; intros Hn; simpl; [reflexivity |].
  rewrite lowerChar_fixed by (apply Hn; now left). f_equal. apply IH.
  intros x Hx. apply Hn. now right.
Qed.

Lemma hyphenate_noUpper (b : bool) (s : string) :
  noUpper s -> noUpper (Str.hyphenate b s).
Proof.
  revert b. induction s as [|c s IH]; intros b Hn; simpl; [intros c [] |].
  assert (Hs : noUpper s) by (intros x Hx; apply Hn; now right).
  destruct (Str.isSpace c).
  - destruct b; [now apply IH |].
    intros x [<- | Hin]; [cbn; lia | exact (IH true Hs x Hin)].
  - intros x [<- | Hin]; [apply Hn; now left | exact (IH false Hs x Hin)].
Qed.

(** X13.  The name that the first pre-save hook of the MongoDB role
    model stores contains no white space and no upper-case letter, and
    storing is idempotent: a stored name is stored as it is. *)
Theorem storedName_normal_form :
  forall (s : string),
    noSpace (storedName s)
    /\ noUpper (storedName s)
    /\ storedName (storedName s) = storedName s
    /\ forall d,
        RoleMongo.isModified "name" d = true ->
        Role.name (RoleMongo.fields d) = s ->
        Role.name (RoleMongo.fields (RoleMongo.preSave_name d)) = storedName s
        /\ RoleMongo.preSave_name (RoleMongo.preSave_name d) = RoleMongo.preSave_name d.
Proof.
  intros s.
  assert (Hsp : noSpace (storedName s)) by apply hyphenate_noSpace.
  assert (Hup : noUpper (storedName s))
    by (apply hyphenate_noUpper, toLowerCase_noUpper).
  assert (Hidem : storedName (storedName s) = storedName s).
  { unfold storedName at 1. rewrite toLowerCase_fixed by exact Hup.
    unfold Str.replaceSpaces. now apply hyphenate_fixed. }
  split; [assumption |]. split; [assumption |]. split; [assumption |].
  intros d Hmod Hname.
  assert (Hstep : RoleMongo.preSave_name d
                  = RoleMongo.mkDoc (Role.set_name (storedName s) (RoleMongo.fields d))
                                    (RoleMongo.isNew d) (RoleMongo.modifiedPaths d)).
  { unfold RoleMongo.preSave_name. rewrite Hmod, Hname. reflexivity. }
  split; [now rewrite Hstep |].
  rewrite Hstep. unfold RoleMongo.preSave_name at 1.
  unfold RoleMongo.isModified in *. cbn [RoleMongo.modifiedPaths]. rewrite Hmod.
  cbn [RoleMongo.fields RoleMongo.isNew RoleMongo.modifiedPaths Role.name Role.set_name].
  change (Str.replaceSpaces (Str.toLowerCase (storedName s)))
    with (storedName (storedName s)).
  rewrite Hidem. reflexivity.
Qed.

Lemma storedName_normal_form_witness :
  Role.name
    (RoleMongo.fields
       (RoleMongo.preSave_name
          (RoleMongo.newRole 12%nat
             (RoleMongo.mkData "Content  Editor" None [] None None None))))
  = storedName "Content  Editor".
Proof.
  exact (proj1 (proj2 (proj2 (proj2 (storedName_normal_form "Content  Editor")))
                  (RoleMongo.newRole 12%nat
                     (RoleMongo.mkData "Content  Editor" None [] None None None))
                  eq_refl eq_refl)).
Defined.

(* ------------------------------------------------------------------ *)
(** ** [createRole] and [deleteRole] *)

Lemma nameTaken_free (d : Role.t) (rs : list Role.t) :
  (forall r, In r rs -> Role._id r <> Role._id d -> Role.name r <> Role.name d) ->
  RoleMongo.nameTaken d rs = false.
Proof.
  intros Hfree. unfold RoleMongo.nameTaken.
  destruct (existsb _ rs) eqn:E; [| reflexivity].
  exfalso. apply existsb_exists in E. destruct E as [r [Hin Hb]].
  apply andb_true_iff in Hb. destruct Hb as [Hid Hname].
  apply negb_true_iff, Nat.eqb_neq in Hid. apply String.eqb_eq in Hname.
  exact (Hfree r Hin Hid Hname).
Qed.

Lemma find_snoc_fresh (rs : list Role.t) (role : Role.t) :
  ~ In (Role._id role) (map Role._id rs) ->
  find (fun r => (Role._id r =? Role._id role)%nat) (rs ++ [role]) = Some role.
Proof.
  intros Hfresh. rewrite find_app_miss.
  - simpl. now rewrite Nat.eqb_refl.
  - apply find_none_iff. intros r Hin. apply Nat.eqb_neq. intros E.
    apply Hfresh. rewrite <- E. now apply in_map.
Qed.

Lemma write_new (d : RoleMongo.Doc) (db : Db) :
  RoleMongo.isNew d = true ->
  RoleMongo.nameTaken (RoleMongo.fields d) (roles db) = false ->
  RoleMongo.write d db
  = (Returned tt, set_roles (roles db ++ [RoleMongo.fields d]) db).
Proof.
  intros Hnew Hfree. unfold RoleMongo.write, bind, gets. now rewrite Hfree, Hnew.
Qed.

Lemma write_stored (d : RoleMongo.Doc) (db : Db) :
  RoleMongo.isNew d = false ->
  RoleMongo.nameTaken (RoleMongo.fields d) (roles db) = false ->
  RoleMongo.write d db
  = (Returned tt,
     set_roles (updateFirst (fun r => (Role._id r =? Role._id (RoleMongo.fields d))%nat)
                            (fun _ => RoleMongo.fields d) (roles db)) db).
Proof.
  intros Hnew Hfree. unfold RoleMongo.write, bind, gets. now rewrite Hfree, Hnew.
Qed.

(** X14.  [createRole] refuses a name whose trimmed form a stored,
    non-deleted role already has (the lookup's filter is trimmed by
    the schema) with the 400 error 'Role with this name already
    exists', and otherwise refuses a role that fails the schema
    validators with the 500 error 'Failed to create role'; it writes
    nothing in either case.  Otherwise, when the identifier is new and no stored role has
    the stored form of the name, it appends one role: the name trimmed,
    lower-cased and hyphenated, the flags as given or by default
    ([isDefault] and [isSystem] false, [isActive] true), not deleted;
    it returns that role, and a lookup by the identifier then finds
    it. *)
Theorem createRole_outcomes :
  forall (newId : ObjectId) (roleData : RoleMongo.RoleData) (db : Db),
    let role :=
      Role.mk newId (storedName (Str.trim (RoleMongo.d_name roleData)))
              (option_map Str.trim (RoleMongo.d_description roleData))
              (RoleMongo.d_permissions roleData)
              (RoleMongo.orDefault (RoleMongo.d_isDefault roleData) false)
              (RoleMongo.orDefault (RoleMongo.d_isSystem roleData) false)
              (RoleMongo.orDefault (RoleMongo.d_isActive roleData) true)
              false in
    (forall existing,
        find (fun r => String.eqb (Role.name r) (Str.trim (RoleMongo.d_name roleData))
                       && negb (Role.isDeleted r)) (roles db) = Some existing ->
        RoleService.createRole newId roleData db
        = (Threw (Api (ApiError.mk "Role with this name already exists" 400 true)), db))
    /\ (find (fun r => String.eqb (Role.name r) (Str.trim (RoleMongo.d_name roleData))
                       && negb (Role.isDeleted r)) (roles db) = None ->
        (RoleMongo.validate (RoleMongo.fields (RoleMongo.newRole newId roleData))
         = false ->
         RoleService.createRole newId roleData db
         = (Threw (Api (ApiError.mk "Failed to create role" 500 false)), db))
        /\ (RoleMongo.validate (RoleMongo.fields (RoleMongo.newRole newId roleData))
            = true ->
            ~ In newId (map Role._id (roles db)) ->
            (forall r, In r (roles db) -> Role.name r <> Role.name role) ->
            RoleService.createRole newId roleData db
            = (Returned role, set_roles (roles db ++ [role]) db)
            /\ fst (RoleMongo.findById newId
                      (snd (RoleService.createRole newId roleData db)))
               = Returned (Some role))).
Proof.
  intros newId roleData db role. split.
  - intros existing Hfind.
    unfold RoleService.createRole, try_catch, bind,
      RoleService.findByNameNotDeleted, gets.
    now rewrite Hfind.
  - intros Hnone. split.
    + intros Hbad.
      unfold RoleService.createRole, try_catch, bind,
        RoleService.findByNameNotDeleted, gets.
      rewrite Hnone. unfold RoleMongo.save. rewrite Hbad. reflexivity.
    + intros Hok Hfresh Hfree.
      assert (Hrun : RoleService.createRole newId roleData db
                     = (Returned role, set_roles (roles db ++ [role]) db)).
      { unfold RoleService.createRole, try_catch, bind at 1,
          RoleService.findByNameNotDeleted, gets.
        rewrite Hnone. unfold RoleMongo.save. rewrite Hok. cbn [negb].
        assert (Hpre : RoleMongo.preSave_name (RoleMongo.newRole newId roleData)
                       = RoleMongo.mkDoc role true
                           (RoleMongo.modifiedPaths
                              (RoleMongo.newRole newId roleData))).
        { reflexivity. }
        rewrite Hpre.
        assert (Hdg : RoleMongo.preSave_deleteGuard
                        (RoleMongo.mkDoc role true
                           (RoleMongo.modifiedPaths
                              (RoleMongo.newRole newId roleData))) = None).
        { unfold RoleMongo.preSave_deleteGuard. cbn [RoleMongo.fields Role.isDeleted].
          subst role. cbn [Role.isDeleted]. now rewrite andb_false_r. }
        rewrite Hdg.
        assert (Hsg : RoleMongo.preSave_systemGuard
                        (RoleMongo.mkDoc role true
                           (RoleMongo.modifiedPaths
                              (RoleMongo.newRole newId roleData))) = None).
        { unfold RoleMongo.preSave_systemGuard. cbn [RoleMongo.isNew negb].
          now rewrite andb_false_r. }
        rewrite Hsg.
        unfold bind. rewrite write_new; [reflexivity | reflexivity |].
        apply nameTaken_free. intros r Hr _. now apply Hfree. }
      rewrite Hrun. split; [reflexivity |].
      cbn [snd]. unfold RoleMongo.findById, gets. cbn [fst roles set_roles].
      f_equal. apply (find_snoc_fresh (roles db) role). exact Hfresh.
Qed.

Lemma createRole_outcomes_witness :
  RoleService.createRole 12%nat
    (RoleMongo.mkData " user " None ["no:such"] None None None) exampleDb
  = (Threw (Api (ApiError.mk "Role with this name already exists" 400 true)),
     exampleDb).
Proof.
  exact (proj1 (createRole_outcomes 12%nat
                  (RoleMongo.mkData " user " None ["no:such"] None None None)
                  exampleDb)
               exampleUserRole eq_refl).
Defined.

Lemma names_free_of_well_keyed (db : Db) (role d : Role.t) :
  RolesWellKeyed db -> In role (roles db) ->
  Role._id d = Role._id role -> Role.name d = Role.name role ->
  RoleMongo.nameTaken d (roles db) = false.
Proof.
  intros [_ Hnames] Hin Hid Hname. apply nameTaken_free.
  intros r Hr Hne Heq. apply Hne. rewrite Hid. f_equal.
  clear Hne Hid. rewrite Hname in Heq. clear Hname d.
  induction (roles db) as [|x l IH]; [contradiction |].
  inversion Hnames as [|? ? Hnotin Hnd]; subst.
  destruct Hr as [-> | Hr], Hin as [-> | Hin]; try reflexivity.
  - exfalso. apply Hnotin. rewrite Heq. now apply in_map.
  - exfalso. apply Hnotin. rewrite <- Heq. now apply in_map.
  - now apply IH.
Qed.

(** The soft delete that [deleteRole] writes. *)
Definition deletedRole (role : Role.t) : Role.t :=
  Role.set_isDeleted true (Role.set_isActive false role).

(** X15.  [deleteRole] never deletes a system role, and never a role
    that a non-deleted user holds: it fails with 404 for an unknown
    identifier, with the 400 error 'Cannot delete system roles' for a
    system role, and with the 400 error 'Cannot delete role that is
    assigned to users' when some non-deleted user has the role, and it
    writes nothing then.  Otherwise (the stored role being valid and
    not yet deleted, identifiers and names unique) it marks the role
    deleted and inactive, leaves everything else as it was, and the
    deleted role grants no permission. *)
Theorem deleteRole_outcomes :
  forall (roleId : ObjectId) (db : Db),
    (find (fun r => (Role._id r =? roleId)%nat) (roles db) = None ->
     RoleService.deleteRole roleId db
     = (Threw (Api (ApiError.mk "Role not found" 404 true)), db))
    /\ (forall role,
        find (fun r => (Role._id r =? roleId)%nat) (roles db) = Some role ->
        (Role.isSystem role = true ->
         RoleService.deleteRole roleId db
         = (Threw (Api (ApiError.mk "Cannot delete system roles" 400 true)), db))
        /\ (Role.isSystem role = false ->
            (exists u, In u (users db) /\ User.role u = roleId
                       /\ User.isDeleted u = false) ->
            RoleService.deleteRole roleId db
            = (Threw (Api (ApiError.mk "Cannot delete role that is assigned to users"
                                       400 true)), db))
        /\ (Role.isSystem role = false ->
            (forall u, In u (users db) -> User.role u = roleId ->
                       User.isDeleted u = true) ->
            RolesWellKeyed db ->
            RoleMongo.validate role = true ->
            Role.isDeleted role = false ->
            RoleService.deleteRole roleId db
            = (Returned "Role deleted successfully",
               set_roles (updateFirst (fun r => (Role._id r =? roleId)%nat)
                                      (fun _ => deletedRole role) (roles db)) db)
            /\ forall p, RoleMongo.hasPermission (deletedRole role) p = false)).
Proof.
  intros roleId db. split.
  - intros Hnone. unfold RoleService.deleteRole, try_catch, bind, RoleMongo.findById, gets.
    now rewrite Hnone.
  - intros role Hfind.
    assert (Hid : Role._id role = roleId /\ In role (roles db)).
    { apply find_some in Hfind. destruct Hfind as [Hin Hb].
      apply Nat.eqb_eq in Hb. auto. }
    destruct Hid as [Hid Hin]. split; [| split].
    + intros Hsys.
      unfold RoleService.deleteRole, try_catch, bind, RoleMongo.findById, gets.
      now rewrite Hfind, Hsys.
    + intros Hsys [u (Hu & Hrole & Hdel)].
      unfold RoleService.deleteRole, try_catch. unfold bind at 1.
      unfold RoleMongo.findById, gets. rewrite Hfind, Hsys.
      unfold bind at 1.
      assert (Hcount : (0 <? List.length
                          (filter (fun u0 => (User.role u0 =? roleId)%nat
                                             && negb (User.isDeleted u0)) (users db)))%nat
                       = true).
      { apply Nat.ltb_lt.
        assert (Hinf : In u (filter (fun u0 => (User.role u0 =? roleId)%nat
                                               && negb (User.isDeleted u0)) (users db))).
        { apply filter_In. split; [assumption |].
          rewrite Hrole, Nat.eqb_refl, Hdel. reflexivity. }
        destruct (filter _ (users db)); [contradiction | simpl; lia]. }
      rewrite Hcount. reflexivity.
    + intros Hsys Hnone Hkeys Hvalid Hnotdel.
      split; [| intros p; reflexivity].
      unfold RoleService.deleteRole, try_catch. unfold bind at 1.
      unfold RoleMongo.findById, gets. rewrite Hfind, Hsys.
      unfold bind at 1.
      assert (Hcount : (0 <? List.length
                          (filter (fun u0 => (User.role u0 =? roleId)%nat
                                             && negb (User.isDeleted u0)) (users db)))%nat
                       = false).
      { rewrite filter_nothing; [reflexivity |].
        intros u Hu. destruct (User.role u =? roleId)%nat eqn:E; [| reflexivity].
        apply Nat.eqb_eq in E. now rewrite (Hnone u Hu E). }
      rewrite Hcount.
      set (d := RoleService.applyUpdate _ (RoleMongo.loaded role)).
      assert (Hd : RoleMongo.fields d = deletedRole role
                   /\ RoleMongo.isNew d = false
                   /\ RoleMongo.isModified "name" d = false
                   /\ RoleMongo.isModified "isDeleted" d = true).
      { subst d. unfold RoleService.applyUpdate, RoleService.onKey, RoleService.assign,
          deletedRole.
        cbn [RoleService.u_name RoleService.u_description RoleService.u_permissions
             RoleService.u_isDefault RoleService.u_isSystem RoleService.u_isActive
             RoleService.u_isDeleted].
        destruct role as [i n de pe df sy ac dl]. cbn in Hnotdel. subst dl.
        destruct ac; cbn; repeat split. }
      destruct Hd as (Hfields & Hnew & Hmodn & Hmodd).
      assert (Hsave : RoleMongo.save d db
                      = (Returned (deletedRole role),
                         set_roles (updateFirst (fun r => (Role._id r =? roleId)%nat)
                                      (fun _ => deletedRole role) (roles db)) db)).
      { unfold RoleMongo.save.
        assert (Hv : RoleMongo.validate (RoleMongo.fields d) = true).
        { rewrite Hfields. unfold RoleMongo.validate, deletedRole in *. exact Hvalid. }
        rewrite Hv. cbn [negb].
        assert (Hpre : RoleMongo.preSave_name d = d).
        { unfold RoleMongo.preSave_name. now rewrite Hmodn. }
        rewrite Hpre.
        assert (Hdg : RoleMongo.preSave_deleteGuard d = None).
        { unfold RoleMongo.preSave_deleteGuard. rewrite Hfields.
          unfold deletedRole. cbn. rewrite Hsys. now rewrite andb_false_r. }
        rewrite Hdg.
        assert (Hsg : RoleMongo.preSave_systemGuard d = None).
        { unfold RoleMongo.preSave_systemGuard. rewrite Hfields.
          unfold deletedRole. cbn. now rewrite Hsys. }
        rewrite Hsg. unfold bind.
        rewrite write_stored; [| assumption |].
        - rewrite Hfields.
          change (Role._id (deletedRole role)) with (Role._id role).
          rewrite Hid. reflexivity.
        - rewrite Hfields. apply (names_free_of_well_keyed db role); auto. }
      unfold bind. rewrite Hsave. reflexivity.
Qed.

Lemma deleteRole_outcomes_witness :
  RoleService.deleteRole 10%nat exampleDb
  = (Threw (Api (ApiError.mk "Cannot delete system roles" 400 true)), exampleDb).
Proof.
  exact (proj1 (proj2 (deleteRole_outcomes 10%nat exampleDb) exampleUserRole eq_refl)
               eq_refl).
Defined.

(* ------------------------------------------------------------------ *)
(** ** [addRolePermissions] and [removeRolePermissions] *)

Lemma save_plain (d : RoleMongo.Doc) (db : Db) :
  RoleMongo.isNew d = false ->
  Role.isSystem (RoleMongo.fields d) = false ->
  RoleMongo.isModified "name" d = false ->
  RoleMongo.validate (RoleMongo.fields d) = true ->
  RoleMongo.nameTaken (RoleMongo.fields d) (roles db) = false ->
  RoleMongo.save d db
  = (Returned (RoleMongo.fields d),
     set_roles (updateFirst (fun r => (Role._id r =? Role._id (RoleMongo.fields d))%nat)
                            (fun _ => RoleMongo.fields d) (roles db)) db).
Proof.
  intros Hnew Hsys Hname Hvalid Hfree. unfold RoleMongo.save.
  rewrite Hvalid. cbn [negb].
  assert (Hpre : RoleMongo.preSave_name d = d)
    by (unfold RoleMongo.preSave_name; now rewrite Hname).
  rewrite Hpre.
  assert (Hdg : RoleMongo.preSave_deleteGuard d = None).
  { unfold RoleMongo.preSave_deleteGuard. rewrite Hsys. now rewrite andb_false_r. }
  assert (Hsg : RoleMongo.preSave_systemGuard d = None).
  { unfold RoleMongo.preSave_systemGuard. now rewrite Hsys. }
  rewrite Hdg, Hsg. unfold bind. now rewrite write_stored.
Qed.

Lemma list_eqb_eq (a b : list string) : RoleService.list_eqb a b = true <-> a = b.
Proof.
  revert b. induction a as [|x a IH]; intros [|y b]; simpl;
    try (split; (reflexivity || discriminate)).
  rewrite andb_true_iff, String.eqb_eq, IH. split.
  - intros [-> ->]. reflexivity.
  - intros [= -> ->]. auto.
Qed.

Lemma set_permissions_same (role : Role.t) :
  Role.set_permissions (Role.permissions role) role = role.
Proof. now destruct role. Qed.

(** The document that both services save: the role with the new
    permission list. *)
Lemma assign_permissions_fields (role : Role.t) (perms : list string) :
  let d := RoleService.assign "permissions"
             (RoleService.list_eqb perms (Role.permissions role))
             (Role.set_permissions perms) (RoleMongo.loaded role) in
  RoleMongo.fields d = Role.set_permissions perms role
  /\ RoleMongo.isNew d = false
  /\ RoleMongo.isModified "name" d = false.
Proof.
  cbv zeta. unfold RoleService.assign.
  destruct (RoleService.list_eqb perms (Role.permissions role)) eqn:E.
  - apply list_eqb_eq in E. rewrite E, set_permissions_same. repeat split.
  - repeat split.
Qed.

Lemma pushMissing_In (cur : list string) (q p : string) :
  In p (RoleAdmin.pushMissing cur q) <-> In p cur \/ p = q.
Proof.
  unfold RoleAdmin.pushMissing. destruct (Str.includes cur q) eqn:E.
  - apply Str.includes_In in E. split; [tauto |]. intros [Hp | ->]; assumption.
  - rewrite in_app_iff. simpl. split.
    + intros [Hp | [<- | []]]; auto.
    + intros [Hp | ->]; auto.
Qed.

Lemma mergePermissions_In (cur added : list string) (p : string) :
  In p (RoleAdmin.mergePermissions cur added) <-> In p cur \/ In p added.
Proof.
  unfold RoleAdmin.mergePermissions. revert cur.
  induction added as [|q added IH]; intros cur; simpl; [tauto |].
  rewrite IH, pushMissing_In. split.
  - intros [[Hp | ->] | Hp]; auto.
  - intros [Hp | [<- | Hp]]; auto.
Qed.

Lemma pushMissing_NoDup (cur : list string) (q : string) :
  NoDup cur -> NoDup (RoleAdmin.pushMissing cur q).
Proof.
  intros Hnd. unfold RoleAdmin.pushMissing. destruct (Str.includes cur q) eqn:E;
    [assumption |].
  apply NoDup_app; [assumption | constructor; [simpl; tauto | constructor] |].
  intros x Hx [<- | []].
  apply Str.includes_In in Hx. congruence.
Qed.

Lemma mergePermissions_NoDup (cur added : list string) :
  NoDup cur -> NoDup (RoleAdmin.mergePermissions cur added).
Proof.
  unfold RoleAdmin.mergePermissions. revert cur.
  induction added as [|q added IH]; intros cur Hnd; simpl; [assumption |].
  apply IH. now apply pushMissing_NoDup.
Qed.

Lemma mergePermissions_absorbs (cur added : list string) :
  (forall p, In p added -> In p cur) ->
  RoleAdmin.mergePermissions cur added = cur.
Proof.
  unfold RoleAdmin.mergePermissions. revert cur.
  induction added as [|q added IH]; intros cur Hall; simpl; [reflexivity |].
  assert (Hq : RoleAdmin.pushMissing cur q = cur).
  { unfold RoleAdmin.pushMissing.
    assert (Hin : Str.includes cur q = true)
      by (apply Str.includes_In, Hall; now left).
    now rewrite Hin. }
  rewrite Hq. apply IH. intros p Hp. apply Hall. now right.
Qed.

Lemma mergePermissions_keeps_prefix (cur added : list string) :
  exists extra, RoleAdmin.mergePermissions cur added = (cur ++ extra)%list.
Proof.
  unfold RoleAdmin.mergePermissions. revert cur.
  induction added as [|q added IH]; intros cur; simpl.
  - exists []. now rewrite app_nil_r.
  - destruct (IH (RoleAdmin.pushMissing cur q)) as [extra He]. rewrite He.
    unfold RoleAdmin.pushMissing. destruct (Str.includes cur q).
    + now exists extra.
    + exists ([q] ++ extra)%list. now rewrite <- app_assoc.
Qed.

Lemma filter_mergePermissions (f : string -> bool) (cur added : list string) :
  (forall q, In q added -> f q = false) ->
  filter f (RoleAdmin.mergePermissions cur added) = filter f cur.
Proof.
  unfold RoleAdmin.mergePermissions. revert cur.
  induction added as [|q added IH]; intros cur Hall; simpl; [reflexivity |].
  rewrite IH by (intros x Hx; apply Hall; now right).
  unfold RoleAdmin.pushMissing. destruct (Str.includes cur q); [reflexivity |].
  rewrite filter_app. simpl. rewrite (Hall q (or_introl eq_refl)). apply app_nil_r.
Qed.

(** X16.  [addRolePermissions] refuses a system role with the 400 error
    'Cannot update system roles', and a result outside the schema's
    permission list with the 500 error 'Failed to add role
    permissions', writing nothing.  On a valid, non-system stored role
    (identifiers and names unique) it stores and returns the role with
    its former permissions first, in their order, followed by the
    added ones it did not have: a permission is in the result exactly
    when it was there or was added, no duplicate is introduced, and
    adding the same permissions again changes nothing more. *)
Theorem addRolePermissions_outcomes :
  forall (roleId : ObjectId) (added : list string) (db : Db) (role : Role.t),
    find (fun r => (Role._id r =? roleId)%nat) (roles db) = Some role ->
    let merged := RoleAdmin.mergePermissions (Role.permissions role) added in
    (Role.isSystem role = true ->
     RoleAdmin.addRolePermissions roleId added db
     = (Threw (Api (ApiError.mk "Cannot update system roles" 400 true)), db))
    /\ (Role.isSystem role = false ->
        RoleMongo.validate (Role.set_permissions merged role) = false ->
        RoleAdmin.addRolePermissions roleId added db
        = (Threw (Api (ApiError.mk "Failed to add role permissions" 500 false)), db))
    /\ (Role.isSystem role = false ->
        RoleMongo.validate (Role.set_permissions merged role) = true ->
        RolesWellKeyed db ->
        RoleAdmin.addRolePermissions roleId added db
        = (Returned (Role.set_permissions merged role),
           set_roles (updateFirst (fun r => (Role._id r =? roleId)%nat)
                                  (fun _ => Role.set_permissions merged role)
                                  (roles db)) db))
    /\ (forall p, In p merged <-> In p (Role.permissions role) \/ In p added)
    /\ (exists extra, merged = (Role.permissions role ++ extra)%list)
    /\ (NoDup (Role.permissions role) -> NoDup merged)
    /\ RoleAdmin.mergePermissions merged added = merged.
Proof.
  intros roleId added db role Hfind merged.
  assert (Hid : Role._id role = roleId /\ In role (roles db)).
  { apply find_some in Hfind. destruct Hfind as [Hin Hb].
    apply Nat.eqb_eq in Hb. auto. }
  destruct Hid as [Hid Hin].
  destruct (assign_permissions_fields role merged) as (Hfields & Hnew & Hname).
  split; [| split; [| split; [| split; [| split; [| split]]]]].
  - intros Hsys.
    unfold RoleAdmin.addRolePermissions, try_catch, bind, RoleMongo.findById, gets.
    now rewrite Hfind, Hsys.
  - intros Hsys Hbad.
    unfold RoleAdmin.addRolePermissions, try_catch, bind, RoleMongo.findById, gets.
    rewrite Hfind, Hsys. fold merged. unfold RoleMongo.save.
    rewrite Hfields, Hbad. reflexivity.
  - intros Hsys Hvalid Hkeys.
    unfold RoleAdmin.addRolePermissions, try_catch, bind, RoleMongo.findById, gets.
    rewrite Hfind, Hsys. fold merged.
    rewrite save_plain; rewrite ?Hfields; try assumption.
    + cbn [Role._id Role.set_permissions]. rewrite Hid. reflexivity.
    + apply (names_free_of_well_keyed db role); auto.
  - intros p. apply mergePermissions_In.
  - apply mergePermissions_keeps_prefix.
  - apply mergePermissions_NoDup.
  - apply mergePermissions_absorbs. intros p Hp. apply mergePermissions_In. now right.
Qed.

Lemma addRolePermissions_outcomes_witness :
  RoleAdmin.addRolePermissions 11%nat ["file:list"] exampleDb
  = (Threw (Api (ApiError.mk "Cannot update system roles" 400 true)), exampleDb).
Proof.
  exact (proj1 (addRolePermissions_outcomes 11%nat ["file:list"] exampleDb
                  exampleAdminRole eq_refl) eq_refl).
Defined.

Lemma withoutPermissions_In (cur removed : list string) (p : string) :
  In p (RoleAdmin.withoutPermissions cur removed) <-> In p cur /\ ~ In p removed.
Proof.
  unfold RoleAdmin.withoutPermissions. rewrite filter_In, negb_true_iff.
  split; intros [Hp Hn]; (split; [assumption |]).
  - intros Hin. apply Str.includes_In in Hin. congruence.
  - destruct (Str.includes removed p) eqn:E; [| reflexivity].
    apply Str.includes_In in E. contradiction.
Qed.

(** X17.  [removeRolePermissions] refuses a system role with the 400
    error 'Cannot update system roles' and writes nothing.  On a valid,
    non-system stored role (identifiers and names unique) it stores and
    returns the role with exactly the permissions that were not named,
    in their order; on such a role the removed permissions are then
    granted only if the wildcard ['admin:all'] is still held; and
    removing what [addRolePermissions] merged leaves what removing
    from the original leaves. *)
Theorem removeRolePermissions_outcomes :
  forall (roleId : ObjectId) (removed : list string) (db : Db) (role : Role.t),
    find (fun r => (Role._id r =? roleId)%nat) (roles db) = Some role ->
    let kept := RoleAdmin.withoutPermissions (Role.permissions role) removed in
    (Role.isSystem role = true ->
     RoleAdmin.removeRolePermissions roleId removed db
     = (Threw (Api (ApiError.mk "Cannot update system roles" 400 true)), db))
    /\ (Role.isSystem role = false ->
        RoleMongo.validate (Role.set_permissions kept role) = true ->
        RolesWellKeyed db ->
        RoleAdmin.removeRolePermissions roleId removed db
        = (Returned (Role.set_permissions kept role),
           set_roles (updateFirst (fun r => (Role._id r =? roleId)%nat)
                                  (fun _ => Role.set_permissions kept role)
                                  (roles db)) db))
    /\ (forall p, In p kept <-> In p (Role.permissions role) /\ ~ In p removed)
    /\ (forall p, In p removed ->
                  RoleMongo.hasPermission (Role.set_permissions kept role) p = true ->
                  In "admin:all" kept)
    /\ RoleAdmin.withoutPermissions
         (RoleAdmin.mergePermissions (Role.permissions role) removed) removed
       = kept.
Proof.
  intros roleId removed db role Hfind kept.
  assert (Hid : Role._id role = roleId /\ In role (roles db)).
  { apply find_some in Hfind. destruct Hfind as [Hin Hb].
    apply Nat.eqb_eq in Hb. auto. }
  destruct Hid as [Hid Hin].
  destruct (assign_permissions_fields role kept) as (Hfields & Hnew & Hname).
  split; [| split; [| split; [| split]]].
  - intros Hsys.
    unfold RoleAdmin.removeRolePermissions, try_catch, bind, RoleMongo.findById, gets.
    now rewrite Hfind, Hsys.
  - intros Hsys Hvalid Hkeys.
    unfold RoleAdmin.removeRolePermissions, try_catch, bind, RoleMongo.findById, gets.
    rewrite Hfind, Hsys. fold kept.
    rewrite save_plain; rewrite ?Hfields; try assumption.
    + cbn [Role._id Role.set_permissions]. rewrite Hid. reflexivity.
    + apply (names_free_of_well_keyed db role); auto.
  - intros p. apply withoutPermissions_In.
  - intros p Hp Hhas. apply mongo_hasPermission_iff in Hhas.
    destruct Hhas as (_ & _ & [Hk | Hadm]); [| exact Hadm].
    cbn in Hk. apply withoutPermissions_In in Hk. tauto.
  - unfold kept, RoleAdmin.withoutPermissions. apply filter_mergePermissions.
    intros q Hq. apply negb_false_iff. now apply Str.includes_In.
Qed.

Lemma removeRolePermissions_outcomes_witness :
  RoleAdmin.removeRolePermissions 10%nat ["auth:login"] exampleDb
  = (Threw (Api (ApiError.mk "Cannot update system roles" 400 true)), exampleDb).
Proof.
  exact (proj1 (removeRolePermissions_outcomes 10%nat ["auth:login"] exampleDb
                  exampleUserRole eq_refl) eq_refl).
Defined.

(* ------------------------------------------------------------------ *)
(** ** [assignRole] and [unassignRole] *)

Lemma saveUserRole_stored (db : Db) (user : User.t) (roleId : ObjectId) :
  UniqueIds db -> In user (users db) ->
  stored (snd (RoleAdmin.saveUserRole (User._id user) roleId db)) (User._id user)
  = Some (RoleAdmin.setRole roleId user).
Proof.
  intros Hu Hin. unfold RoleAdmin.saveUserRole, modify. cbn [snd].
  now apply stored_after_update.
Qed.

(** X18.  [assignRole] fails with 404 'Role not found' or 'User not
    found' when the identifier matches nothing, and otherwise stores
    the role identifier on the user, whether or not that role is
    active or deleted.  [unassignRole] fails with 404 for an unknown
    user, with the 400 error 'User does not have this role' when the
    user's role is another one, and with the 500 error 'No default
    role found' when no role is both default and active; otherwise the
    user gets the first role that is default and active.  A failure
    writes nothing, and a success changes the role field only. *)
Theorem assignRole_unassignRole_outcomes :
  forall (roleId userId : ObjectId) (db : Db),
    UniqueIds db ->
    (find (fun r => (Role._id r =? roleId)%nat) (roles db) = None ->
     RoleAdmin.assignRole roleId userId db
     = (Threw (Api (ApiError.mk "Role not found" 404 true)), db))
    /\ (forall role,
        find (fun r => (Role._id r =? roleId)%nat) (roles db) = Some role ->
        (find (byId userId) (users db) = None ->
         RoleAdmin.assignRole roleId userId db
         = (Threw (Api (ApiError.mk "User not found" 404 true)), db))
        /\ (forall user,
            find (byId userId) (users db) = Some user ->
            fst (RoleAdmin.assignRole roleId userId db)
            = Returned "Role assigned successfully"
            /\ stored (snd (RoleAdmin.assignRole roleId userId db)) userId
               = Some (RoleAdmin.setRole roleId user)))
    /\ (find (byId userId) (users db) = None ->
        RoleAdmin.unassignRole roleId userId db
        = (Threw (Api (ApiError.mk "User not found" 404 true)), db))
    /\ (forall user,
        find (byId userId) (users db) = Some user ->
        (User.role user <> roleId ->
         RoleAdmin.unassignRole roleId userId db
         = (Threw (Api (ApiError.mk "User does not have this role" 400 true)), db))
        /\ (User.role user = roleId ->
            (find (fun r => Role.isDefault r && Role.isActive r) (roles db) = None ->
             RoleAdmin.unassignRole roleId userId db
             = (Threw (Api (ApiError.mk "No default role found" 500 false)), db))
            /\ (forall defaultRole,
                find (fun r => Role.isDefault r && Role.isActive r) (roles db)
                = Some defaultRole ->
                fst (RoleAdmin.unassignRole roleId userId db)
                = Returned "Role unassigned successfully"
                /\ stored (snd (RoleAdmin.unassignRole roleId userId db)) userId
                   = Some (RoleAdmin.setRole (Role._id defaultRole) user)
                /\ Role.isDefault defaultRole = true
                /\ Role.isActive defaultRole = true))).
Proof.
  intros roleId userId db Huniq. split; [| split; [| split]].
  - intros Hnone.
    unfold RoleAdmin.assignRole, try_catch, bind, RoleMongo.findById, gets.
    now rewrite Hnone.
  - intros role Hrole. split.
    + intros Hnone.
      unfold RoleAdmin.assignRole, try_catch, bind, RoleMongo.findById, gets.
      now rewrite Hrole, Hnone.
    + intros user Huser. destruct (find_byId_id _ _ _ Huser) as [Hid Hin].
      assert (Hrun : RoleAdmin.assignRole roleId userId db
                     = (Returned "Role assigned successfully",
                        snd (RoleAdmin.saveUserRole (User._id user) roleId db))).
      { unfold RoleAdmin.assignRole, try_catch, bind, RoleMongo.findById, gets.
        rewrite Hrole, Huser. reflexivity. }
      rewrite Hrun. cbn [fst snd]. split; [reflexivity |].
      rewrite <- Hid. now apply saveUserRole_stored.
  - intros Hnone. unfold RoleAdmin.unassignRole, try_catch, bind, gets.
    now rewrite Hnone.
  - intros user Huser. destruct (find_byId_id _ _ _ Huser) as [Hid Hin]. split.
    + intros Hne. unfold RoleAdmin.unassignRole, try_catch, bind, gets.
      rewrite Huser.
      assert (E : (User.role user =? roleId)%nat = false) by now apply Nat.eqb_neq.
      now rewrite E.
    + intros Heq.
      assert (E : (User.role user =? roleId)%nat = true) by now apply Nat.eqb_eq.
      split.
      * intros Hnone.
        unfold RoleAdmin.unassignRole, try_catch. unfold bind at 1. unfold gets at 1.
        rewrite Huser, E. cbn [negb].
        unfold bind, RoleAdmin.findActiveDefault, gets. now rewrite Hnone.
      * intros defaultRole Hdef.
        assert (Hrun : RoleAdmin.unassignRole roleId userId db
                       = (Returned "Role unassigned successfully",
                          snd (RoleAdmin.saveUserRole (User._id user)
                                 (Role._id defaultRole) db))).
        { unfold RoleAdmin.unassignRole, try_catch. unfold bind at 1. unfold gets at 1.
          rewrite Huser, E. cbn [negb].
          unfold bind, RoleAdmin.findActiveDefault, gets. now rewrite Hdef. }
        rewrite Hrun. cbn [fst snd]. split; [reflexivity |]. split.
        -- rewrite <- Hid. now apply saveUserRole_stored.
        -- apply find_some in Hdef. destruct Hdef as [_ Hb].
           apply andb_true_iff in Hb. exact Hb.
Qed.

Lemma assignRole_unassignRole_outcomes_witness :
  stored (snd (RoleAdmin.unassignRole 11%nat 1%nat
                 (mkDb [RoleAdmin.setRole 11%nat exampleUser]
                       [exampleUserRole; exampleAdminRole] [])))
         1%nat
  = Some (RoleAdmin.setRole 10%nat (RoleAdmin.setRole 11%nat exampleUser)).
Proof.
  refine (proj1 (proj2 (proj2 (proj2 (proj2 (proj2 (proj2
    (assignRole_unassignRole_outcomes 11%nat 1%nat
       (mkDb [RoleAdmin.setRole 11%nat exampleUser]
             [exampleUserRole; exampleAdminRole] []) _)))
    (RoleAdmin.setRole 11%nat exampleUser) eq_refl) eq_refl)
    exampleUserRole eq_refl))).
  unfold UniqueIds. simpl. constructor; [simpl; tauto | constructor].
Defined.

(* ------------------------------------------------------------------ *)
(** ** The save hooks of the two role models on system and default roles *)

(** X19.  The system-role guard of the MongoDB model's [save] tests
    the [isSystem] flag of the document that is being saved, not that
    of the stored role.  A stored document whose flag is true, with
    at least one modified path, is not written: the save throws and
    the database is as before, and when the document is valid and is
    not being deleted the error is 'Cannot modify system role
    properties', also when only [description] or [isActive] were
    modified (the hook compares the allowed names with [Object.keys]
    of the array of modified paths, that is with indices).  A stored
    document whose flag is false passes the guard, also when the flag
    was true on the stored role and has just been cleared: valid, with
    its name not modified and not taken, it is written over the
    stored role. *)
Theorem mongo_system_guard_reads_the_document :
  forall (d : RoleMongo.Doc) (db : Db),
    RoleMongo.isNew d = false ->
    RoleMongo.modifiedPaths d <> [] ->
    (Role.isSystem (RoleMongo.fields d) = true ->
     (exists e, RoleMongo.save d db = (Threw e, db))
     /\ (RoleMongo.validate (RoleMongo.fields d) = true ->
         RoleMongo.isModified "isDeleted" d && Role.isDeleted (RoleMongo.fields d)
         = false ->
         RoleMongo.save d db
         = (Threw (JsError "Error" "Cannot modify system role properties"), db)))
    /\ (Role.isSystem (RoleMongo.fields d) = false ->
        RoleMongo.isModified "name" d = false ->
        RoleMongo.validate (RoleMongo.fields d) = true ->
        RoleMongo.nameTaken (RoleMongo.fields d) (roles db) = false ->
        RoleMongo.save d db
        = (Returned (RoleMongo.fields d),
           set_roles
             (updateFirst
                (fun r => (Role._id r =? Role._id (RoleMongo.fields d))%nat)
                (fun _ => RoleMongo.fields d) (roles db)) db)).
Proof.
  intros d db Hnew Hmod. split.
  - intros Hsys.
    destruct (preSave_name_keeps d) as (Hid & Hnew' & Hpaths & Hsys').
    assert (Hguard : RoleMongo.preSave_systemGuard (RoleMongo.preSave_name d)
                     = Some (JsError "Error" "Cannot modify system role properties")).
    { apply preSave_systemGuard_on_system_role; congruence. }
    split.
    + unfold RoleMongo.save.
      destruct (negb (RoleMongo.validate (RoleMongo.fields d)));
        [eexists; reflexivity |].
      destruct (RoleMongo.preSave_deleteGuard _); [eexists; reflexivity |].
      rewrite Hguard. eexists. reflexivity.
    + intros Hvalid Hnodel. unfold RoleMongo.save. rewrite Hvalid. cbn [negb].
      assert (Hdg : RoleMongo.preSave_deleteGuard (RoleMongo.preSave_name d) = None).
      { unfold RoleMongo.preSave_deleteGuard, RoleMongo.isModified. rewrite Hpaths.
        assert (Hdel : Role.isDeleted (RoleMongo.fields (RoleMongo.preSave_name d))
                       = Role.isDeleted (RoleMongo.fields d)).
        { unfold RoleMongo.preSave_name. destruct (RoleMongo.isModified "name" d);
            reflexivity. }
        rewrite Hdel. unfold RoleMongo.isModified in Hnodel. now rewrite Hnodel. }
      now rewrite Hdg, Hguard.
  - intros Hsys Hname Hvalid Hfree. now apply save_plain.
Qed.

Lemma mongo_system_guard_reads_the_document_witness :
  RoleMongo.save
    (RoleService.applyUpdate
       (RoleService.mkUpdate None None None None None (Some false) None)
       (RoleMongo.loaded exampleUserRole))
    exampleDb
  = (Threw (JsError "Error" "Cannot modify system role properties"), exampleDb)
  /\ RoleMongo.save
       (RoleService.applyUpdate
          (RoleService.mkUpdate None None None None (Some false) None None)
          (RoleMongo.loaded exampleUserRole))
       exampleDb
     = (Returned (Role.set_isSystem false exampleUserRole),
        set_roles [Role.set_isSystem false exampleUserRole; exampleAdminRole]
                  exampleDb).
Proof.
  split.
  - refine (proj2 (proj1 (mongo_system_guard_reads_the_document
              (RoleService.applyUpdate
                 (RoleService.mkUpdate None None None None None (Some false) None)
                 (RoleMongo.loaded exampleUserRole))
              exampleDb eq_refl _) eq_refl) eq_refl eq_refl).
    discriminate.
  - refine (proj2 (mongo_system_guard_reads_the_document
              (RoleService.applyUpdate
                 (RoleService.mkUpdate None None None None (Some false) None None)
                 (RoleMongo.loaded exampleUserRole))
              exampleDb eq_refl _) eq_refl eq_refl eq_refl eq_refl).
    discriminate.
Defined.



(** X21.  The permission methods of the role models.  After
    [addPermission p] the role (of the PostgreSQL model) has [p]; the
    method keeps every permission, adds none twice, and is idempotent.
    After [removePermission p] the set no longer holds [p] and holds
    every other permission as before, so [p] is still granted exactly
    when it is not the wildcard and the wildcard is held; removing a
    permission that was just added to a role that did not have it
    gives the role back.  The MongoDB [removePermission] throws on a
    system role. *)
Theorem permission_methods :
  forall (r : Role.t) (p : string),
    RolePostgres.hasPermission (RoleAdmin.addPermission r p) p = true
    /\ RoleAdmin.addPermission (RoleAdmin.addPermission r p) p
       = RoleAdmin.addPermission r p
    /\ (forall q, In q (Role.permissions (RoleAdmin.addPermission r p))
                  <-> In q (Role.permissions r) \/ q = p)
    /\ (NoDup (Role.permissions r) ->
        NoDup (Role.permissions (RoleAdmin.addPermission r p)))
    /\ (forall q, In q (Role.permissions (RoleAdmin.removePermission r p))
                  <-> In q (Role.permissions r) /\ q <> p)
    /\ (RolePostgres.hasPermission (RoleAdmin.removePermission r p) p = true
        <-> p <> "admin:all" /\ In "admin:all" (Role.permissions r))
    /\ (~ In p (Role.permissions r) ->
        RoleAdmin.removePermission (RoleAdmin.addPermission r p) p = r)
    /\ (Role.isSystem r = true ->
        RoleAdmin.removePermissionMongo r p
        = Threw (JsError "Error" "Cannot modify permissions of system roles")).
Proof.
  intros r p.
  assert (Hadd : forall q, In q (Role.permissions (RoleAdmin.addPermission r p))
                           <-> In q (Role.permissions r) \/ q = p).
  { intros q. unfold RoleAdmin.addPermission.
    destruct (Str.includes (Role.permissions r) p) eqn:E.
    - apply Str.includes_In in E. split; [tauto |]. intros [Hq | ->]; assumption.
    - cbn. rewrite in_app_iff. simpl. split.
      + intros [Hq | [<- | []]]; auto.
      + intros [Hq | ->]; auto. }
  assert (Hrem : forall q, In q (Role.permissions (RoleAdmin.removePermission r p))
                           <-> In q (Role.permissions r) /\ q <> p).
  { intros q. unfold RoleAdmin.removePermission. cbn.
    rewrite filter_In, negb_true_iff. split; intros [Hq Hn]; (split; [assumption |]).
    - intros ->. rewrite String.eqb_refl in Hn. discriminate.
    - now apply String.eqb_neq. }
  split; [| split; [| split; [| split; [| split; [| split; [| split]]]]]].
  - apply postgres_hasPermission_iff. left. apply Hadd. now right.
  - unfold RoleAdmin.addPermission at 1.
    assert (Hin : Str.includes (Role.permissions (RoleAdmin.addPermission r p)) p = true)
      by (apply Str.includes_In, Hadd; now right).
    now rewrite Hin.
  - exact Hadd.
  - intros Hnd. unfold RoleAdmin.addPermission.
    destruct (Str.includes (Role.permissions r) p) eqn:E; [assumption |]. cbn.
    apply NoDup_app; [assumption | constructor; [simpl; tauto | constructor] |].
    intros x Hx [<- | []]. apply Str.includes_In in Hx. congruence.
  - exact Hrem.
  - rewrite postgres_hasPermission_iff, !Hrem. split.
    + intros [[_ Hn] | [Hadm Hn]]; [now contradiction Hn |].
      split; [congruence | assumption].
    + intros [Hn Hadm]. right. split; [assumption | congruence].
  - intros Hnot. unfold RoleAdmin.addPermission.
    assert (E : Str.includes (Role.permissions r) p = false).
    { destruct (Str.includes _ p) eqn:E; [| reflexivity].
      apply Str.includes_In in E. contradiction. }
    rewrite E. unfold RoleAdmin.removePermission. cbn.
    rewrite filter_app. simpl. rewrite String.eqb_refl. cbn. rewrite app_nil_r.
    assert (Hf : filter (fun q => negb (String.eqb q p)) (Role.permissions r)
                 = Role.permissions r).
    { apply forallb_filter_id. apply forallb_forall. intros x Hx.
      apply negb_true_iff, String.eqb_neq. intros ->. contradiction. }
    rewrite Hf. now destruct r.
  - intros Hsys. unfold RoleAdmin.removePermissionMongo. now rewrite Hsys.
Qed.

Lemma permission_methods_witness :
  RoleAdmin.removePermission (RoleAdmin.addPermission exampleUserRole "file:list")
                             "file:list"
  = exampleUserRole.
Proof.
  refine (proj1 (proj2 (proj2 (proj2 (proj2 (proj2 (proj2
            (permission_methods exampleUserRole "file:list"))))))) _).
  simpl. intros [E | [E | []]]; discriminate.
Defined.

(* ------------------------------------------------------------------ *)
(** ** Authentication middleware (unnamed/part_003, second document) *)

Module Middleware.

(** [ApiError.forbidden] of utils/ApiError.js *)
Definition forbidden (m : string) : ApiError.t := ApiError.mk m 403 true.

(** [req.user].  [authenticateRefresh] sets no [permissions]. *)
Record ReqUser : Type := mkReqUser {
  ru_id : ObjectId;
  ru_email : string;
  ru_role : string;
  ru_permissions : option (list string)
}.

(** The parts of the request that the middleware reads: the
    [authorization] header, [cookies.accessToken], [query.token] (each
    [None] when undefined) and [user]. *)
Record Request : Type := mkRequest {
  authorization : option string;
  cookieAccessToken : option string;
  queryToken : option string;
  user : option ReqUser
}.

Definition set_user (u : option ReqUser) (req : Request) : Request :=
  mkRequest (authorization req) (cookieAccessToken req) (queryToken req) u.

(** Truthiness of a value that is a string or undefined *)
Definition truthy (v : option string) : bool :=
  match v with
  | Some s => negb (String.eqb s "")
  | None => false
  end.

(** [String.prototype.split] on a one-character separator *)
Fixpoint split (sep : ascii) (s : string) : list string :=
  match s with
  | EmptyString => [EmptyString]
  | String c rest =>
      if Ascii.eqb c sep then EmptyString :: split sep rest
      else match split sep rest with
           | [] => [String c EmptyString]
           | w :: ws => String c w :: ws
           end
  end.

(** What [jwt.verify] with the access secret does with a token, at
    the given instant; the last case is any other exception. *)
Inductive AccessVerdict : Type :=
| AccessDecoded (p : AccessPayload)
| AccessTokenExpiredError
| AccessJsonWebTokenError
| AccessOtherError.

(** The [token] variable of [authenticate] after its if-chain *)
Definition accessTokenOf (req : Request) : option string :=
  let other :=
    if truthy (cookieAccessToken req) then cookieAccessToken req
    else if truthy (queryToken req) then queryToken req
    else None in
  match authorization req with
  | Some h =>
      if String.prefix "Bearer" h then nth_error (split " " h) 1 else other
  | None => other
  end.

(** The [token] variable of [optionalAuth], which reads no query *)
Definition optionalTokenOf (req : Request) : option string :=
  let other :=
    if truthy (cookieAccessToken req) then cookieAccessToken req else None in
  match authorization req with
  | Some h =>
      if String.prefix "Bearer" h then nth_error (split " " h) 1 else other
  | None => other
  end.

Definition userOf (decoded : AccessPayload) : ReqUser :=
  mkReqUser (ap_id decoded) (ap_email decoded) (ap_role decoded)
            (Some (ap_permissions decoded)).

Section WithJwt.
Variable verifyAccessToken : string -> Z -> AccessVerdict.

(** [authenticate]: the request as the next handler sees it, and the
    argument of [next] ([None] for [next()]). *)
Definition authenticate (now : Z) (req : Request) : Request * option ApiError.t :=
  if negb (truthy (accessTokenOf req)) then
    (req, Some (ApiError.unauthorized "Access token required"))
  else
    match accessTokenOf req with
    | None => (req, Some (ApiError.unauthorized "Access token required"))
    | Some token =>
        match verifyAccessToken token now with
        | AccessDecoded decoded => (set_user (Some (userOf decoded)) req, None)
        | AccessTokenExpiredError =>
            (req, Some (ApiError.unauthorized "Token expired"))
        | AccessJsonWebTokenError =>
            (req, Some (ApiError.unauthorized "Invalid token"))
        | AccessOtherError =>
            (req, Some (ApiError.unauthorized "Authentication failed"))
        end
    end.

(** [optionalAuth] *)
Definition optionalAuth (now : Z) (req : Request) : Request * option ApiError.t :=
  if truthy (optionalTokenOf req) then
    match optionalTokenOf req with
    | None => (req, None)
    | Some token =>
        match verifyAccessToken token now with
        | AccessDecoded decoded => (set_user (Some (userOf decoded)) req, None)
        | _ => (req, None)
        end
    end
  else (req, None).

End WithJwt.

(** [requireRole(...roles)] *)
Definition requireRole (roles : list string) (req : Request) : option ApiError.t :=
  match user req with
  | None => Some (ApiError.unauthorized "Authentication required")
  | Some u =>
      if negb (Str.includes roles (ru_role u)) then
        Some (forbidden "Insufficient permissions")
      else None
  end.

(** [requirePermission(...permissions)] *)
Definition requirePermission (permissions : list string) (req : Request)
  : option ApiError.t :=
  match user req with
  | None => Some (ApiError.unauthorized "Authentication required")
  | Some u =>
      let userPermissions :=
        match ru_permissions u with Some l => l | None => [] end in
      let hasAllPermissions :=
        forallb (fun permission => Str.includes userPermissions permission)
                permissions in
      if negb hasAllPermissions then Some (forbidden "Insufficient permissions")
      else None
  end.

End Middleware.

Definition noSpaceIn (s : string) : Prop :=
  forallb (fun c => negb (Ascii.eqb c " ")) (list_ascii_of_string s) = true.

Lemma split_no_separator (s : string) :
  noSpaceIn s -> Middleware.split " " s = [s].
Proof.
  unfold noSpaceIn. induction s as [| c s IH]; [reflexivity |].
  cbn [list_ascii_of_string forallb Middleware.split].
  intros Hc. apply andb_true_iff in Hc. destruct Hc as [Hc Hs].
  apply negb_true_iff in Hc. rewrite Hc, (IH Hs). reflexivity.
Qed.

Lemma accessTokenOf_bearer (req : Middleware.Request) (token : string) :
  Middleware.authorization req = Some ("Bearer " ++ token)%string ->
  noSpaceIn token ->
  Middleware.accessTokenOf req = Some token
  /\ Middleware.optionalTokenOf req = Some token.
Proof.
  intros Hh Hs. unfold Middleware.accessTokenOf, Middleware.optionalTokenOf.
  rewrite Hh. cbn. rewrite (split_no_separator token Hs). cbn. split; reflexivity.
Qed.

(** X22.  [authenticate] on a request whose Authorization header is
    'Bearer ', then a non-empty token without a space: the outcome is
    decided by that token alone, whatever the cookies and the query
    hold.  The request passes exactly when [verifyAccessToken] accepts
    the token, and [req.user] is then the token's payload with its
    permissions; every refusal is a 401.  [optionalAuth] sets the same
    user and never refuses. *)
Theorem authenticate_bearer_header :
  forall (verify : string -> Z -> Middleware.AccessVerdict) (now : Z)
         (req : Middleware.Request) (token : string),
    Middleware.authorization req = Some ("Bearer " ++ token)%string ->
    noSpaceIn token ->
    token <> EmptyString ->
    (forall decoded,
        verify token now = Middleware.AccessDecoded decoded <->
        Middleware.authenticate verify now req
        = (Middleware.set_user (Some (Middleware.userOf decoded)) req, None))
    /\ (forall req', Middleware.authenticate verify now req = (req', None) ->
                     exists decoded,
                       verify token now = Middleware.AccessDecoded decoded
                       /\ Middleware.user req' = Some (Middleware.userOf decoded))
    /\ (forall e, snd (Middleware.authenticate verify now req) = Some e ->
                  ApiError.statusCode e = 401
                  /\ fst (Middleware.authenticate verify now req) = req)
    /\ snd (Middleware.optionalAuth verify now req) = None
    /\ (snd (Middleware.authenticate verify now req) = None ->
        Middleware.optionalAuth verify now req
        = Middleware.authenticate verify now req).
Proof.
  intros verify now req token Hh Hs Hne.
  destruct (accessTokenOf_bearer req token Hh Hs) as [Ha Ho].
  assert (Ht : Middleware.truthy (Some token) = true).
  { cbn. apply negb_true_iff, String.eqb_neq. exact Hne. }
  unfold Middleware.authenticate, Middleware.optionalAuth.
  rewrite Ha, Ho, Ht. cbn [negb].
  split; [| split; [| split; [| split]]].
  - intros decoded. split.
    + intros ->. reflexivity.
    + destruct (verify token now) as [p | | |]; intros Heq; try discriminate.
      apply (f_equal (fun r => Middleware.user (fst r))) in Heq. cbn in Heq.
      destruct p, decoded. unfold Middleware.userOf in Heq. cbn in Heq.
      congruence.
  - intros req'. destruct (verify token now) as [p | | |]; intros Heq;
      try discriminate.
    injection Heq as <-. exists p. split; reflexivity.
  - intros e. destruct (verify token now) as [p | | |]; cbn; intros Heq;
      try discriminate; injection Heq as <-; split; reflexivity.
  - destruct (verify token now); reflexivity.
  - destruct (verify token now); cbn; intros Heq; try discriminate. reflexivity.
Qed.

Lemma authenticate_bearer_header_witness :
  Middleware.authenticate
    (fun t _ => if String.eqb t "tok"
                then Middleware.AccessDecoded
                       (mkAccessPayload 1%nat "a@x.com" "user" ["profile:read"])
                else Middleware.AccessJsonWebTokenError)
    0 (Middleware.mkRequest (Some "Bearer tok") (Some "cookie") None None)
  = (Middleware.set_user
       (Some (Middleware.userOf
                (mkAccessPayload 1%nat "a@x.com" "user" ["profile:read"])))
       (Middleware.mkRequest (Some "Bearer tok") (Some "cookie") None None), None).
Proof.
  refine (proj1 (proj1 (authenticate_bearer_header
            (fun t _ => if String.eqb t "tok"
                        then Middleware.AccessDecoded
                               (mkAccessPayload 1%nat "a@x.com" "user" ["profile:read"])
                        else Middleware.AccessJsonWebTokenError)
            0 (Middleware.mkRequest (Some "Bearer tok") (Some "cookie") None None)
            "tok" eq_refl eq_refl _)
            (mkAccessPayload 1%nat "a@x.com" "user" ["profile:read"])) eq_refl).
  discriminate.
Defined.

Lemma noSpaceIn_app (a b : string) :
  noSpaceIn a -> noSpaceIn b -> noSpaceIn (a ++ b).
Proof.
  unfold noSpaceIn. induction a as [| c a IH]; [auto |].
  cbn [String.append list_ascii_of_string forallb]. intros Ha Hb.
  apply andb_true_iff in Ha. destruct Ha as [Hc Ha].
  rewrite Hc. cbn. now apply IH.
Qed.

Lemma split_at_first_space (w rest : string) :
  noSpaceIn w ->
  Middleware.split " " (w ++ String " " rest) = w :: Middleware.split " " rest.
Proof.
  unfold noSpaceIn. induction w as [| c w IH]; [reflexivity |].
  cbn [String.append list_ascii_of_string forallb Middleware.split].
  intros Hc. apply andb_true_iff in Hc. destruct Hc as [Hc Hw].
  apply negb_true_iff in Hc. rewrite Hc, (IH Hw). reflexivity.
Qed.

Lemma append_assoc (a b c : string) : (a ++ (b ++ c) = (a ++ b) ++ c)%string.
Proof. induction a as [| x a IH]; [reflexivity |]. cbn. now rewrite IH. Qed.

Lemma prefix_app (a b : string) : String.prefix a (a ++ b) = true.
Proof.
  induction a as [| c a IH]; [now destruct b |].
  cbn. destruct (ascii_dec c c); [exact IH | congruence].
Qed.

(** X23.  The Authorization header decides alone as soon as it starts
    with 'Bearer': [authenticate] takes what stands between the first
    and the second space as the token and never falls back to the
    cookie or the query.  A header without a space, or with two spaces
    before the token, is refused with the 401 'Access token required'
    although a cookie token may be present; a scheme that merely
    starts with 'Bearer' is accepted like 'Bearer' itself. *)
Theorem authenticate_header_takes_precedence :
  forall (verify : string -> Z -> Middleware.AccessVerdict) (now : Z)
         (req : Middleware.Request) (w : string),
    noSpaceIn w ->
    (Middleware.authorization req = Some ("Bearer" ++ w)%string ->
     Middleware.authenticate verify now req
     = (req, Some (ApiError.unauthorized "Access token required")))
    /\ (forall rest,
           Middleware.authorization req
           = Some ("Bearer" ++ w ++ String " " (String " " rest))%string ->
           Middleware.authenticate verify now req
           = (req, Some (ApiError.unauthorized "Access token required")))
    /\ (forall token decoded,
           Middleware.authorization req
           = Some ("Bearer" ++ w ++ String " " token)%string ->
           noSpaceIn token -> token <> EmptyString ->
           verify token now = Middleware.AccessDecoded decoded ->
           Middleware.authenticate verify now req
           = (Middleware.set_user (Some (Middleware.userOf decoded)) req, None)).
Proof.
  intros verify now req w Hw.
  assert (Hbw : noSpaceIn ("Bearer" ++ w))
    by (apply noSpaceIn_app; [reflexivity | exact Hw]).
  split; [| split].
  - intros Hh. unfold Middleware.authenticate, Middleware.accessTokenOf.
    rewrite Hh, prefix_app, (split_no_separator _ Hbw). reflexivity.
  - intros rest Hh. unfold Middleware.authenticate, Middleware.accessTokenOf.
    rewrite Hh, prefix_app, append_assoc.
    rewrite (split_at_first_space _ _ Hbw). reflexivity.
  - intros token decoded Hh Ht Hne Hv.
    unfold Middleware.authenticate, Middleware.accessTokenOf.
    rewrite Hh, prefix_app, append_assoc.
    rewrite (split_at_first_space _ _ Hbw), (split_no_separator _ Ht).
    cbn [nth_error]. 
    assert (Htr : Middleware.truthy (Some token) = true).
    { cbn. apply negb_true_iff, String.eqb_neq. exact Hne. }
    rewrite Htr, Hv. reflexivity.
Qed.

Lemma authenticate_header_takes_precedence_witness :
  Middleware.authenticate (fun _ _ => Middleware.AccessJsonWebTokenError) 0
    (Middleware.mkRequest (Some "Bearer") (Some "cookie") None None)
  = (Middleware.mkRequest (Some "Bearer") (Some "cookie") None None,
     Some (ApiError.unauthorized "Access token required")).
Proof.
  exact (proj1 (authenticate_header_takes_precedence
                  (fun _ _ => Middleware.AccessJsonWebTokenError) 0
                  (Middleware.mkRequest (Some "Bearer") (Some "cookie") None None)
                  "" eq_refl) eq_refl).
Defined.

(** X24.  [requirePermission] compares literally: a request passes
    exactly when its user holds every required permission by name, and
    a request without a user gets the 401 'Authentication required'.
    The wildcard is not honoured here: a user whose permissions are
    those of a role holding only 'admin:all' is refused with the 403
    'Insufficient permissions' for any other permission, although the
    role's own [hasPermission] grants it.  [requireRole] passes
    exactly the users whose role name is among the roles given. *)
Theorem requirePermission_is_literal :
  forall (required : list string) (req : Middleware.Request),
    (Middleware.user req = None ->
     Middleware.requirePermission required req
     = Some (ApiError.unauthorized "Authentication required"))
    /\ (forall u held,
           Middleware.user req = Some u ->
           Middleware.ru_permissions u = Some held ->
           (Middleware.requirePermission required req = None
            <-> forall p, In p required -> In p held)
           /\ (Middleware.requirePermission required req <> None ->
               Middleware.requirePermission required req
               = Some (Middleware.forbidden "Insufficient permissions")))
    /\ (forall u role p,
           Middleware.user req = Some u ->
           Middleware.ru_permissions u = Some (Role.permissions role) ->
           Role.permissions role = ["admin:all"] ->
           p <> "admin:all" ->
           RolePostgres.hasPermission role p = true
           /\ Middleware.requirePermission [p] req
              = Some (Middleware.forbidden "Insufficient permissions"))
    /\ (forall u roles,
           Middleware.user req = Some u ->
           (Middleware.requireRole roles req = None
            <-> In (Middleware.ru_role u) roles)).
Proof.
  intros required req. split; [| split; [| split]].
  - intros Hu. unfold Middleware.requirePermission. now rewrite Hu.
  - intros u held Hu Hp. unfold Middleware.requirePermission. rewrite Hu, Hp.
    destruct (forallb (fun permission => Str.includes held permission) required)
      eqn:E; cbn [negb].
    + split; [| congruence]. split; [| reflexivity]. intros _ p Hin.
      rewrite forallb_forall in E. apply Str.includes_In. now apply E.
    + split; [| reflexivity]. split; [discriminate |]. intros Hall.
      assert (forallb (fun permission => Str.includes held permission) required
              = true); [| congruence].
      apply forallb_forall. intros p Hin. apply Str.includes_In. now apply Hall.
  - intros u role p Hu Hp Hperm Hne. split.
    + apply postgres_hasPermission_iff. right. rewrite Hperm. simpl. auto.
    + unfold Middleware.requirePermission. rewrite Hu, Hp, Hperm.
      cbn. apply String.eqb_neq in Hne.
      rewrite ?Hne; rewrite String.eqb_sym in Hne; rewrite ?Hne; reflexivity.
  - intros u roles Hu. unfold Middleware.requireRole. rewrite Hu.
    destruct (Str.includes roles (Middleware.ru_role u)) eqn:E; cbn [negb].
    + split; [| reflexivity]. intros _. now apply Str.includes_In.
    + split; [discriminate |]. intros Hin. apply Str.includes_In in Hin. congruence.
Qed.

Lemma requirePermission_is_literal_witness :
  RolePostgres.hasPermission
    (Role.mk 13%nat "root" None ["admin:all"] false true true false) "user:read"
  = true
  /\ Middleware.requirePermission ["user:read"]
       (Middleware.mkRequest None None None
          (Some (Middleware.mkReqUser 1%nat "a@x.com" "root" (Some ["admin:all"]))))
     = Some (Middleware.forbidden "Insufficient permissions").
Proof.
  refine (proj1 (proj2 (proj2 (requirePermission_is_literal ["user:read"]
            (Middleware.mkRequest None None None
               (Some (Middleware.mkReqUser 1%nat "a@x.com" "root"
                        (Some ["admin:all"])))))))
            _ (Role.mk 13%nat "root" None ["admin:all"] false true true false)
            "user:read" eq_refl eq_refl eq_refl _).
  discriminate.
Defined.

(* ------------------------------------------------------------------ *)
(** ** Pagination helpers (src/utils/pagination.js)

    The source computes in doubles.  The embedding is over the
    integers, and covers the calls whose arguments and intermediate
    values are integers that a double holds exactly (at most 2^53 - 1
    in magnitude), where the operations of doubles give the integer
    results; outside that range [createPagination] and
    [calculateOffset] are [None], which stands for 'not covered'. *)

Module Pagination.

Definition maxSafe : Z := 2 ^ 53 - 1.

Definition safe (z : Z) : bool := (- maxSafe <=? z) && (z <=? maxSafe).

(** [Math.ceil(a / b)] for [0 <= a <= maxSafe] and [1 <= b]: the
    quotient of the doubles is never rounded down to the integer
    below it, so its ceiling is that of the exact quotient. *)
Definition ceilDiv (a b : Z) : Z := - ((- a) / b).

Record Page : Type := mkPage {
  currentPage : Z;
  itemsPerPage : Z;
  totalItems : Z;
  totalPages : Z;
  hasNextPage : bool;
  hasPrevPage : bool;
  nextPage : option Z;
  prevPage : option Z;
  startIndex : Z;
  endIndex : Z
}.

(** The calls of [createPagination] that the embedding covers: a
    limit of at least one, a total of at least zero, and every value
    computed from them exact. *)
Definition covered (page limit total : Z) : bool :=
  (1 <=? limit) && (0 <=? total)
  && safe page && safe limit && safe total
  && safe (page * limit) && safe ((page - 1) * limit).

(** [createPagination], on arguments that [parseInt] reads as the
    given integers *)
Definition createPagination (page limit total : Z) : option Page :=
  if negb (covered page limit total) then None
  else
    let currentPage := page in
    let itemsPerPage := limit in
    let totalItems := total in
    let totalPages := ceilDiv totalItems itemsPerPage in
    let hasNextPage := currentPage <? totalPages in
    let hasPrevPage := 1 <? currentPage in
    let nextPage := if hasNextPage then Some (currentPage + 1) else None in
    let prevPage := if hasPrevPage then Some (currentPage - 1) else None in
    Some (mkPage currentPage itemsPerPage totalItems totalPages
                 hasNextPage hasPrevPage nextPage prevPage
                 ((currentPage - 1) * itemsPerPage)
                 (Z.min (currentPage * itemsPerPage) totalItems)).

Record Validation : Type := mkValidation {
  isValid : bool;
  errors : list string;
  page : Z;
  limit : Z
}.

(** [validatePagination]; an argument is what [parseInt] makes of it,
    [None] for [NaN], and [maxLimit] is an integer that prints in
    decimal digits (below 10^21 in magnitude). *)
Definition validatePagination (page limit : option Z) (maxLimit : Z) : Validation :=
  let pageNum := page in
  let limitNum := limit in
  let errors1 :=
    match pageNum with
    | Some p => if p <? 1 then ["Page must be a positive integer"] else []
    | None => ["Page must be a positive integer"]
    end in
  let errors2 :=
    match limitNum with
    | Some l => if l <? 1 then ["Limit must be a positive integer"] else []
    | None => ["Limit must be a positive integer"]
    end in
  let errors3 :=
    match limitNum with
    | Some l =>
        if maxLimit <? l
        then [("Limit cannot exceed "
                 ++ NilZero.string_of_int (Z.to_int maxLimit))%string]
        else []
    | None => []
    end in
  let errors := (errors1 ++ errors2 ++ errors3)%list in
  mkValidation (Nat.eqb (List.length errors) 0) errors
               (match pageNum with
                | Some p => if p =? 0 then 1 else p
                | None => 1
                end)
               (match limitNum with
                | Some l => if l =? 0 then 10 else l
                | None => 10
                end).

(** [calculateOffset] *)
Definition calculateOffset (page limit : Z) : option Z :=
  if safe page && safe limit && safe ((page - 1) * limit)
  then Some ((page - 1) * limit) else None.

(** [isValidPage] *)
Definition isValidPage (page totalPages : Z) : bool :=
  (1 <=? page) && (page <=? totalPages).

End Pagination.

Lemma ceilDiv_bounds (a b : Z) :
  0 < b ->
  (Pagination.ceilDiv a b - 1) * b < a <= Pagination.ceilDiv a b * b.
Proof.
  intros Hb. unfold Pagination.ceilDiv.
  pose proof (Z.mul_div_le (- a) b Hb).
  pose proof (Z.mul_succ_div_gt (- a) b Hb).
  nia.
Qed.

Lemma validatePagination_accepts (page limit : option Z) (maxLimit : Z) :
  Pagination.isValid (Pagination.validatePagination page limit maxLimit) = true
  <-> exists p l, page = Some p /\ limit = Some l /\ 1 <= p /\ 1 <= l <= maxLimit.
Proof.
  unfold Pagination.validatePagination. cbn [Pagination.isValid].
  split.
  - destruct page as [p |], limit as [l |];
      try destruct (Z.ltb_spec p 1); try destruct (Z.ltb_spec l 1);
      try destruct (Z.ltb_spec maxLimit l); cbn; try discriminate.
    intros _. exists p, l. repeat split; (reflexivity || lia).
  - intros (p & l & -> & -> & Hp1 & Hl1 & Hl2).
    destruct (Z.ltb_spec p 1), (Z.ltb_spec l 1), (Z.ltb_spec maxLimit l);
      try lia. reflexivity.
Qed.

Lemma covered_in_range (page limit total : Z) :
  1 <= page -> 1 <= limit -> 0 <= total ->
  page * limit <= Pagination.maxSafe -> total <= Pagination.maxSafe ->
  Pagination.covered page limit total = true.
Proof.
  intros Hp Hl Ht Hpl Htot. unfold Pagination.covered, Pagination.safe.
  unfold Pagination.maxSafe in *.
  repeat (apply andb_true_iff; split); apply Z.leb_le; nia.
Qed.

(** X25.  Pages tile the items, for numbers that doubles hold exactly.
    When [validatePagination] accepts a page and a limit, the values
    it returns are the ones given, with 1 <= page and
    1 <= limit <= maxLimit.  For these and a total of at least zero,
    with the total and the end of the following page, (page + 1) *
    limit, at most 2^53 - 1, [createPagination] reports the least number of pages of
    that size that hold all the items; a page that exists covers a
    non-empty range of at most [limit] indices below the total; a
    page with a successor is full and the successor starts where it
    ends; the last page ends at the total; a page beyond the last
    covers nothing. *)
Theorem pagination_tiles_the_items :
  forall (page limit : option Z) (maxLimit total : Z),
    Pagination.isValid (Pagination.validatePagination page limit maxLimit) = true ->
    0 <= total ->
    let v := Pagination.validatePagination page limit maxLimit in
    total <= Pagination.maxSafe ->
    (Pagination.page v + 1) * Pagination.limit v <= Pagination.maxSafe ->
    page = Some (Pagination.page v) /\ limit = Some (Pagination.limit v)
    /\ 1 <= Pagination.page v /\ 1 <= Pagination.limit v <= maxLimit
    /\ Pagination.errors v = []
    /\ exists p,
        Pagination.createPagination (Pagination.page v) (Pagination.limit v) total
        = Some p
        /\ (Pagination.totalPages p - 1) * Pagination.limit v < total
           <= Pagination.totalPages p * Pagination.limit v
        /\ Pagination.calculateOffset (Pagination.page v) (Pagination.limit v)
           = Some (Pagination.startIndex p)
        /\ (Pagination.isValidPage (Pagination.page v) (Pagination.totalPages p) = true ->
            0 <= Pagination.startIndex p < Pagination.endIndex p
            /\ Pagination.endIndex p <= total
            /\ Pagination.endIndex p - Pagination.startIndex p <= Pagination.limit v)
        /\ (Pagination.hasNextPage p = true ->
            Pagination.nextPage p = Some (Pagination.page v + 1)
            /\ Pagination.endIndex p - Pagination.startIndex p = Pagination.limit v
            /\ exists q,
                Pagination.createPagination (Pagination.page v + 1)
                                            (Pagination.limit v) total = Some q
                /\ Pagination.startIndex q = Pagination.endIndex p)
        /\ (Pagination.hasNextPage p = false ->
            Pagination.nextPage p = None
            /\ (Pagination.isValidPage (Pagination.page v) (Pagination.totalPages p)
                = true ->
                Pagination.endIndex p = total))
        /\ (Pagination.totalPages p < Pagination.page v ->
            Pagination.endIndex p <= Pagination.startIndex p).
Proof.
  intros page limit maxLimit total Hvalid Htotal v Hsafe Hprod.
  pose proof Hvalid as Hshape.
  apply validatePagination_accepts in Hshape.
  destruct Hshape as (pg & lm & -> & -> & Hpg & Hlm1 & Hlm2).
  assert (Hvp : Pagination.page v = pg).
  { subst v. cbn. destruct (Z.eqb_spec pg 0); [lia | reflexivity]. }
  assert (Hvl : Pagination.limit v = lm).
  { subst v. cbn. destruct (Z.eqb_spec lm 0); [lia | reflexivity]. }
  assert (Herr : Pagination.errors v = []).
  { subst v. cbn.
    destruct (Z.ltb_spec pg 1), (Z.ltb_spec lm 1), (Z.ltb_spec maxLimit lm);
      try lia. reflexivity. }
  rewrite Hvp, Hvl, Herr in *. clear Hvp Hvl Herr Hvalid v.
  pose proof (ceilDiv_bounds total lm ltac:(lia)) as Hc.
  assert (Hprod0 : pg * lm <= Pagination.maxSafe) by nia.
  pose proof (covered_in_range pg lm total Hpg Hlm1 Htotal Hprod0 Hsafe) as Hcov.
  repeat (split; [reflexivity || lia |]).
  unfold Pagination.createPagination. rewrite Hcov. cbn [negb].
  eexists. split; [reflexivity |].
  cbn [Pagination.totalPages Pagination.startIndex Pagination.endIndex
       Pagination.hasNextPage Pagination.nextPage].
  set (tp := Pagination.ceilDiv total lm) in *. clearbody tp.
  split; [exact Hc |]. split.
  { unfold Pagination.calculateOffset.
    unfold Pagination.covered in Hcov.
    repeat (apply andb_true_iff in Hcov; destruct Hcov as [Hcov ?Hs]).
    now rewrite Hs3, Hs2, Hs. }
  unfold Pagination.isValidPage.
  split; [| split; [| split]].
  - intros Hv. apply andb_true_iff in Hv. destruct Hv as [Hlo Hhi].
    apply Z.leb_le in Hlo, Hhi. nia.
  - intros Hn. rewrite Hn. apply Z.ltb_lt in Hn.
    split; [reflexivity |]. split; [nia |].
    assert (Hcov' : Pagination.covered (pg + 1) lm total = true).
    { apply covered_in_range; try lia. }
    rewrite Hcov'. cbn [negb]. eexists. split; [reflexivity |].
    cbn [Pagination.startIndex]. nia.
  - intros Hn. rewrite Hn. apply Z.ltb_ge in Hn.
    split; [reflexivity |]. intros Hv. apply andb_true_iff in Hv.
    destruct Hv as [Hlo Hhi]. apply Z.leb_le in Hlo, Hhi. nia.
  - intros Hn. nia.
Qed.

Lemma pagination_tiles_the_items_witness :
  exists p,
    Pagination.createPagination 3 10 25 = Some p
    /\ Pagination.totalPages p = 3
    /\ Pagination.startIndex p = 20
    /\ Pagination.endIndex p = 25.
Proof.
  assert (H0 : 0 <= 25) by lia.
  assert (H1 : 25 <= Pagination.maxSafe) by (unfold Pagination.maxSafe; lia).
  assert (H2 : (3 + 1) * 10 <= Pagination.maxSafe)
    by (unfold Pagination.maxSafe; lia).
  destruct (pagination_tiles_the_items (Some 3) (Some 10) 100 25 eq_refl H0 H1 H2)
    as (_ & _ & _ & _ & _ & p & Hp & _).
  exists p. split; [exact Hp |].
  injection Hp as <-. repeat split.
Defined.

(* ------------------------------------------------------------------ *)
(** ** Password helpers (unnamed/part_008), for ASCII passwords *)

Module Password.

Definition inRange (lo hi : nat) (c : ascii) : bool :=
  ((lo <=? nat_of_ascii c)%nat && (nat_of_ascii c <=? hi)%nat).

(** The character classes of the four regular expressions *)
Definition isUpper : ascii -> bool := inRange 65 90.
Definition isLower : ascii -> bool := inRange 97 122.
Definition isDigit : ascii -> bool := inRange 48 57.

Definition specialClass : list ascii :=
  (list_ascii_of_string "!@#$%^&*(),.?" ++ [ascii_of_nat 34]
   ++ list_ascii_of_string ":{}|<>")%list.

Definition isSpecial (c : ascii) : bool := existsb (Ascii.eqb c) specialClass.

(** [/[class]/.test(s)] *)
Definition test (class : ascii -> bool) (s : string) : bool :=
  existsb class (list_ascii_of_string s).

Record Strength : Type := mkStrength {
  isValid : bool;
  errors : list string
}.

(** [validatePasswordStrength] *)
Definition validatePasswordStrength (password : string) : Strength :=
  let errors :=
    ((if (String.length password <? 8)%nat
      then ["Password must be at least 8 characters long"] else [])
     ++ (if negb (test isUpper password)
         then ["Password must contain at least one uppercase letter"] else [])
     ++ (if negb (test isLower password)
         then ["Password must contain at least one lowercase letter"] else [])
     ++ (if negb (test isDigit password)
         then ["Password must contain at least one number"] else [])
     ++ (if negb (test isSpecial password)
         then ["Password must contain at least one special character"] else []))%list in
  mkStrength (Nat.eqb (List.length errors) 0) errors.

Definition uppercase : string := "ABCDEFGHIJKLMNOPQRSTUVWXYZ".
Definition lowercase : string := "abcdefghijklmnopqrstuvwxyz".
Definition numbers : string := "0123456789".
Definition specials : string := "!@#$%^&*".
Definition charset : string :=
  "ABCDEFGHIJKLMNOPQRSTUVWXYZabcdefghijklmnopqrstuvwxyz0123456789!@#$%^&*".

(** [s[Math.floor(Math.random() * s.length)]]: the draw [r] stands for
    the index [r mod s.length], so that every index and no other can
    come out. *)
Definition pick (s : string) (r : nat) : ascii :=
  nth (r mod String.length s) (list_ascii_of_string s) " "%char.

(** [generateRandomPassword].  [random k] is the draw of the [k]-th
    character; [shuffle] is what [sort] with the random comparator
    does to the array of characters. *)
Definition generateRandomPassword (random : nat -> nat)
    (shuffle : list ascii -> list ascii) (length : nat) : string :=
  let password :=
    [pick uppercase (random 0%nat); pick lowercase (random 1%nat);
     pick numbers (random 2%nat); pick specials (random 3%nat)] in
  let password :=
    (password ++ map (fun i => pick charset (random i)) (seq 4 (length - 4)))%list in
  string_of_list_ascii (shuffle password).

(** [isCommonPassword] *)
Definition commonPasswords : list string :=
  ["password"; "123456"; "123456789"; "qwerty"; "abc123";
   "password123"; "admin"; "letmein"; "welcome"; "monkey";
   "dragon"; "master"; "sunshine"; "princess"; "qwerty123";
   "football"; "baseball"; "welcome123"; "admin123"; "user123"].

Definition isCommonPassword (password : string) : bool :=
  Str.includes commonPasswords (Str.toLowerCase password).

End Password.

Lemma length_string_of_list_ascii (l : list ascii) :
  String.length (string_of_list_ascii l) = List.length l.
Proof. induction l as [| c l IH]; [reflexivity | cbn; now rewrite IH]. Qed.

Lemma length_list_ascii_of_string (s : string) :
  List.length (list_ascii_of_string s) = String.length s.
Proof. induction s as [| c s IH]; [reflexivity | cbn; now rewrite IH]. Qed.

Lemma pick_in_class (class : ascii -> bool) (s : string) (r : nat) :
  s <> EmptyString ->
  forallb class (list_ascii_of_string s) = true ->
  class (Password.pick s r) = true.
Proof.
  intros Hne Hall. rewrite forallb_forall in Hall. apply Hall.
  unfold Password.pick. apply nth_In. rewrite length_list_ascii_of_string.
  apply Nat.mod_upper_bound. destruct s; [congruence | discriminate].
Qed.

Lemma existsb_shuffled (class : ascii -> bool) (shuffle : list ascii -> list ascii)
    (l : list ascii) (c : ascii) :
  (forall x, In x l -> In x (shuffle l)) ->
  In c l -> class c = true -> existsb class (shuffle l) = true.
Proof.
  intros Hsh Hin Hc. apply existsb_exists. exists c. split; [now apply Hsh | exact Hc].
Qed.

(** X26.  A generated password passes the strength check.  Whatever
    the random draws, and for any shuffle that keeps the characters
    and their number, [generateRandomPassword(length)] has
    max(length, 4) characters; with a length of at least 8
    [validatePasswordStrength] accepts it without an error, and below
    8 the only error is the one about the length. *)
Theorem generated_password_is_strong :
  forall (random : nat -> nat) (shuffle : list ascii -> list ascii) (length : nat),
    (forall l, List.length (shuffle l) = List.length l) ->
    (forall l x, In x l -> In x (shuffle l)) ->
    let password := Password.generateRandomPassword random shuffle length in
    String.length password = Nat.max length 4
    /\ ((8 <= length)%nat ->
        Password.validatePasswordStrength password = Password.mkStrength true [])
    /\ ((length < 8)%nat ->
        Password.validatePasswordStrength password
        = Password.mkStrength false ["Password must be at least 8 characters long"]).
Proof.
  intros random shuffle length Hlen Hin password.
  assert (Hsize : String.length password = Nat.max length 4).
  { subst password. unfold Password.generateRandomPassword.
    rewrite length_string_of_list_ascii, Hlen, length_app, length_map, length_seq.
    cbn [List.length]. lia. }
  assert (Hclass : forall class s k,
             (k < 4)%nat ->
             nth_error [Password.uppercase; Password.lowercase;
                        Password.numbers; Password.specials] k = Some s ->
             forallb class (list_ascii_of_string s) = true ->
             Password.test class password = true).
  { intros class s k Hk Hs Hall. subst password.
    unfold Password.test, Password.generateRandomPassword.
    rewrite list_ascii_of_string_of_list_ascii.
    apply existsb_shuffled with (c := Password.pick s (random k)).
    - apply Hin.
    - apply in_or_app. left.
      destruct k as [| [| [| [| k]]]]; try lia; injection Hs as <-; simpl; auto.
    - apply pick_in_class; [| exact Hall].
      destruct k as [| [| [| [| k]]]]; try lia; injection Hs as <-; discriminate. }
  assert (Hu : Password.test Password.isUpper password = true)
    by (apply (Hclass _ Password.uppercase 0%nat); [lia | reflexivity | reflexivity]).
  assert (Hl : Password.test Password.isLower password = true)
    by (apply (Hclass _ Password.lowercase 1%nat); [lia | reflexivity | reflexivity]).
  assert (Hd : Password.test Password.isDigit password = true)
    by (apply (Hclass _ Password.numbers 2%nat); [lia | reflexivity | reflexivity]).
  assert (Hs : Password.test Password.isSpecial password = true)
    by (apply (Hclass _ Password.specials 3%nat); [lia | reflexivity | reflexivity]).
  split; [exact Hsize | split].
  - intros H8. unfold Password.validatePasswordStrength.
    rewrite Hu, Hl, Hd, Hs, Hsize.
    assert (E : (Nat.max length 4 <? 8)%nat = false) by (apply Nat.ltb_ge; lia).
    rewrite E. reflexivity.
  - intros H8. unfold Password.validatePasswordStrength.
    rewrite Hu, Hl, Hd, Hs, Hsize.
    assert (E : (Nat.max length 4 <? 8)%nat = true) by (apply Nat.ltb_lt; lia).
    rewrite E. reflexivity.
Qed.

Lemma generated_password_is_strong_witness :
  Password.validatePasswordStrength
    (Password.generateRandomPassword (fun k => (7 * k + 3)%nat) (@rev ascii) 12)
  = Password.mkStrength true [].
Proof.
  refine (proj1 (proj2 (generated_password_is_strong
            (fun k => (7 * k + 3)%nat) (@rev ascii) 12 _ _)) _).
  - intros l. apply length_rev.
  - intros l x Hx. now apply in_rev in Hx.
  - lia.
Defined.

Lemma toLowerCase_keeps (class : ascii -> bool) (s : string) :
  (forall c, class c = true -> Str.lowerChar c = c) ->
  Password.test class s = true ->
  Password.test class (Str.toLowerCase s) = true.
Proof.
  intros Hfix. unfold Password.test.
  induction s as [| c s IH]; [discriminate |].
  cbn [Str.toLowerCase list_ascii_of_string existsb].
  intros Hor. apply orb_true_iff in Hor. apply orb_true_iff.
  destruct Hor as [Hc | Hs]; [left | right; now apply IH].
  now rewrite (Hfix c Hc).
Qed.

Lemma isSpecial_not_lowered (c : ascii) :
  Password.isSpecial c = true -> Str.lowerChar c = c.
Proof.
  unfold Password.isSpecial. rewrite existsb_exists.
  intros [x [Hin He]]. apply Ascii.eqb_eq in He. subst x.
  simpl in Hin.
  repeat (destruct Hin as [<- | Hin]; [reflexivity |]). contradiction.
Qed.

(** X27.  A password that [validatePasswordStrength] accepts is never
    reported by [isCommonPassword]: the check requires one of the
    special characters, lower-casing keeps it, and no entry of the
    list of common passwords holds one.  And [isCommonPassword] does
    not look at the case of letters. *)
Theorem strong_password_is_not_common :
  forall (password : string),
    (Password.isValid (Password.validatePasswordStrength password) = true ->
     Password.isCommonPassword password = false)
    /\ Password.isCommonPassword (Str.toLowerCase password)
       = Password.isCommonPassword password.
Proof.
  intros password. split.
  - intros Hvalid.
    assert (Hs : Password.test Password.isSpecial password = true).
    { unfold Password.validatePasswordStrength in Hvalid.
      cbn [Password.isValid] in Hvalid.
      destruct (Password.test Password.isSpecial password); [reflexivity |].
      destruct (String.length password <? 8)%nat,
        (Password.test Password.isUpper password),
        (Password.test Password.isLower password),
        (Password.test Password.isDigit password); discriminate. }
    apply (toLowerCase_keeps _ _ isSpecial_not_lowered) in Hs.
    unfold Password.isCommonPassword.
    destruct (Str.includes _ _) eqn:E; [| reflexivity].
    apply Str.includes_In in E.
    assert (Hnone : forallb (fun w => negb (Password.test Password.isSpecial w))
                            Password.commonPasswords = true) by reflexivity.
    rewrite forallb_forall in Hnone. apply Hnone in E.
    rewrite Hs in E. discriminate.
  - unfold Password.isCommonPassword.
    now rewrite (toLowerCase_fixed _ (toLowerCase_noUpper password)).
Qed.

Lemma strong_password_is_not_common_witness :
  Password.isCommonPassword "Password123!" = false.
Proof.
  exact (proj1 (strong_password_is_not_common "Password123!") eq_refl).
Defined.

(* ------------------------------------------------------------------ *)
(** ** Circuit breaker (unnamed/part_009, [createCircuitBreaker]) *)

Module CircuitBreaker.

Inductive State : Type := CLOSED | OPEN | HALF_OPEN.

(** The three variables of the closure *)
Record Breaker : Type := mkBreaker {
  failures : Z;
  lastFailureTime : Z;
  state : State
}.

Definition initial : Breaker := mkBreaker 0 0 CLOSED.

Definition isThrown {A : Type} (o : Outcome A) : bool :=
  match o with Threw _ => true | Returned _ => false end.

Definition thrown {A : Type} (outs : list (Outcome A)) : Z :=
  Z.of_nat (List.length (filter isThrown outs)).

Section WithFn.
Context {W A : Type}.
Variables (failureThreshold timeoutMs : Z).

(** One call of the function that [createCircuitBreaker] returns, at
    the instant [now].  [fn] is the wrapped function on the arguments
    of the call, acting on the world [W]; a call ends before the next
    one starts. *)
Definition call (fn : W -> Outcome A * W) (now : Z) (b : Breaker) (w : W)
  : Outcome A * (Breaker * W) :=
  let refused :=
    match state b with
    | OPEN => negb (timeoutMs <? now - lastFailureTime b)
    | _ => false
    end in
  if refused then (Threw (JsError "Error" "Circuit breaker is OPEN"), (b, w))
  else
    let state1 := match state b with OPEN => HALF_OPEN | s => s end in
    match fn w with
    | (Returned result, w') =>
        (Returned result,
         (match state1 with
          | HALF_OPEN => mkBreaker 0 (lastFailureTime b) CLOSED
          | _ => mkBreaker (failures b) (lastFailureTime b) state1
          end, w'))
    | (Threw error, w') =>
        (Threw error,
         (mkBreaker (failures b + 1) now
                    (if failureThreshold <=? failures b + 1 then OPEN else state1),
          w'))
    end.

(** A sequence of calls, each with its instant *)
Fixpoint run (calls : list (Z * (W -> Outcome A * W))) (b : Breaker) (w : W)
  : list (Outcome A) * (Breaker * W) :=
  match calls with
  | [] => ([], (b, w))
  | (now, fn) :: rest =>
      let '(o, (b', w')) := call fn now b w in
      let '(os, final) := run rest b' w' in
      (o :: os, final)
  end.

(** The same functions called without the breaker *)
Fixpoint direct (calls : list (Z * (W -> Outcome A * W))) (w : W)
  : list (Outcome A) * W :=
  match calls with
  | [] => ([], w)
  | (_, fn) :: rest =>
      let '(o, w') := fn w in
      let '(os, w'') := direct rest w' in
      (o :: os, w'')
  end.

End WithFn.
End CircuitBreaker.

Lemma breaker_transparent_below_threshold {W A : Type} (threshold timeout : Z)
    (calls : list (Z * (W -> Outcome A * W))) :
  forall (b : CircuitBreaker.Breaker) (w : W),
    CircuitBreaker.state b = CircuitBreaker.CLOSED ->
    CircuitBreaker.failures b
    + CircuitBreaker.thrown (fst (CircuitBreaker.direct calls w)) < threshold ->
    exists t,
      CircuitBreaker.run threshold timeout calls b w
      = (fst (CircuitBreaker.direct calls w),
         (CircuitBreaker.mkBreaker
            (CircuitBreaker.failures b
             + CircuitBreaker.thrown (fst (CircuitBreaker.direct calls w)))
            t CircuitBreaker.CLOSED,
          snd (CircuitBreaker.direct calls w))).
Proof.
  induction calls as [| [now fn] rest IH]; intros b w Hst Hlt.
  - exists (CircuitBreaker.lastFailureTime b). cbn.
    unfold CircuitBreaker.thrown. cbn. rewrite Z.add_0_r.
    destruct b; cbn in *; now subst.
  - cbn [CircuitBreaker.run CircuitBreaker.direct] in *.
    unfold CircuitBreaker.call. rewrite Hst.
    destruct (fn w) as [[a | e] w'] eqn:Hfn.
    + specialize (IH (CircuitBreaker.mkBreaker (CircuitBreaker.failures b)
                        (CircuitBreaker.lastFailureTime b) CircuitBreaker.CLOSED) w').
      destruct (CircuitBreaker.direct rest w') as [os w''] eqn:Hd.
      cbn [fst snd CircuitBreaker.failures CircuitBreaker.state] in *.
      unfold CircuitBreaker.thrown in *. cbn [filter CircuitBreaker.isThrown] in *.
      destruct (IH eq_refl Hlt) as [t Hrun]. exists t. now rewrite Hrun.
    + specialize (IH (CircuitBreaker.mkBreaker (CircuitBreaker.failures b + 1)
                        now CircuitBreaker.CLOSED) w').
      destruct (CircuitBreaker.direct rest w') as [os w''] eqn:Hd.
      cbn [fst snd CircuitBreaker.failures CircuitBreaker.state] in *.
      unfold CircuitBreaker.thrown in *.
      cbn [filter CircuitBreaker.isThrown List.length] in *.
      rewrite Nat2Z.inj_succ in *.
      assert (Hge : 0 <= Z.of_nat (List.length (filter CircuitBreaker.isThrown os)))
        by lia.
      assert (E : (threshold <=? CircuitBreaker.failures b + 1) = false)
        by (apply Z.leb_gt; lia).
      rewrite E.
      destruct (IH eq_refl ltac:(lia)) as [t Hrun]. exists t. rewrite Hrun.
      do 3 f_equal. lia.
Qed.

(** X28.  The circuit breaker counts failures in total, not in a row.
    Starting from the initial state, as long as fewer than
    [failureThreshold] of the calls have thrown, every call goes
    through to the wrapped function, and the breaker stays CLOSED
    with a failure count equal to the number of calls that threw: a
    success in the CLOSED state forgives nothing.  The failure that
    brings the count to the threshold opens the breaker; while it is
    OPEN a call made no later than [timeoutMs] after that failure
    throws 'Circuit breaker is OPEN' without calling the function; a
    later call is let through, and closes the breaker with a count of
    zero when it returns, or reopens it when it throws. *)
Theorem circuit_breaker_counts_failures_in_total :
  forall (W A : Type) (threshold timeout : Z)
         (calls : list (Z * (W -> Outcome A * W))) (w : W),
    CircuitBreaker.thrown (fst (CircuitBreaker.direct calls w)) < threshold ->
    let outs := fst (CircuitBreaker.direct calls w) in
    let w1 := snd (CircuitBreaker.direct calls w) in
    exists t,
      CircuitBreaker.run threshold timeout calls CircuitBreaker.initial w
      = (outs, (CircuitBreaker.mkBreaker (CircuitBreaker.thrown outs) t
                                         CircuitBreaker.CLOSED, w1))
      /\ forall (fn : W -> Outcome A * W) now e w2,
          CircuitBreaker.thrown outs + 1 = threshold ->
          fn w1 = (Threw e, w2) ->
          let opened := CircuitBreaker.mkBreaker threshold now CircuitBreaker.OPEN in
          CircuitBreaker.call threshold timeout fn now
            (CircuitBreaker.mkBreaker (CircuitBreaker.thrown outs) t
                                      CircuitBreaker.CLOSED) w1
          = (Threw e, (opened, w2))
          /\ (forall (fn' : W -> Outcome A * W) now',
                 now' - now <= timeout ->
                 CircuitBreaker.call threshold timeout fn' now' opened w2
                 = (Threw (JsError "Error" "Circuit breaker is OPEN"), (opened, w2)))
          /\ (forall (fn' : W -> Outcome A * W) now' a w3,
                 timeout < now' - now ->
                 fn' w2 = (Returned a, w3) ->
                 CircuitBreaker.call threshold timeout fn' now' opened w2
                 = (Returned a,
                    (CircuitBreaker.mkBreaker 0 now CircuitBreaker.CLOSED, w3)))
          /\ (forall (fn' : W -> Outcome A * W) now' e' w3,
                 timeout < now' - now ->
                 fn' w2 = (Threw e', w3) ->
                 CircuitBreaker.call threshold timeout fn' now' opened w2
                 = (Threw e',
                    (CircuitBreaker.mkBreaker (threshold + 1) now'
                                              CircuitBreaker.OPEN, w3))).
Proof.
  intros W A threshold timeout calls w Hlt outs w1.
  destruct (breaker_transparent_below_threshold threshold timeout calls
              CircuitBreaker.initial w eq_refl Hlt) as [t Hrun].
  cbn [CircuitBreaker.initial CircuitBreaker.failures] in Hrun.
  rewrite Z.add_0_l in Hrun.
  exists t. split; [exact Hrun |].
  intros fn now e w2 Hth Hfn opened. subst opened.
  split; [| split; [| split]].
  - unfold CircuitBreaker.call. cbn. rewrite Hfn.
    fold outs. rewrite Hth, Z.leb_refl. reflexivity.
  - intros fn' now' Hle. unfold CircuitBreaker.call. cbn.
    assert (E : (timeout <? now' - now) = false) by (apply Z.ltb_ge; lia).
    now rewrite E.
  - intros fn' now' a w3 Hgt Hfn'. unfold CircuitBreaker.call. cbn.
    assert (E : (timeout <? now' - now) = true) by (apply Z.ltb_lt; lia).
    now rewrite E, Hfn'.
  - intros fn' now' e' w3 Hgt Hfn'. unfold CircuitBreaker.call. cbn.
    assert (E : (timeout <? now' - now) = true) by (apply Z.ltb_lt; lia).
    assert (E' : (threshold <=? threshold + 1) = true) by (apply Z.leb_le; lia).
    now rewrite E, Hfn', E'.
Qed.

Lemma circuit_breaker_counts_failures_in_total_witness :
  exists t,
    CircuitBreaker.run 2 5000
      [(0, fun w : nat => (Threw (JsError "Error" "down"), S w));
       (10, fun w : nat => (Returned w, S w))]
      CircuitBreaker.initial 0%nat
    = ([Threw (JsError "Error" "down"); Returned 1%nat],
       (CircuitBreaker.mkBreaker 1 t CircuitBreaker.CLOSED, 2%nat)).
Proof.
  destruct (circuit_breaker_counts_failures_in_total nat nat 2 5000
              [(0, fun w : nat => (Threw (JsError "Error" "down"), S w));
               (10, fun w : nat => (Returned w, S w))]
              0%nat eq_refl) as [t [Hrun _]].
  exists t. exact Hrun.
Defined.

(* ------------------------------------------------------------------ *)
(** ** PostgreSQL token model (src/models/postgresql/token.model.js) *)

Module TokenPostgres.

Inductive kind : Type := refresh | password_reset | email_verification | access.

Definition kind_eqb (a b : kind) : bool :=
  match a, b with
  | refresh, refresh => true
  | password_reset, password_reset => true
  | email_verification, email_verification => true
  | access, access => true
  | _, _ => false
  end.

(** A row of the table, with the columns that the methods below read.
    The statics that compare [expiresAt] ([findValidByUserId],
    [findExpired], [cleanupExpired]) build their filter with
    [require('sequelize')], which is not defined in an ES module, and
    are not embedded. *)
Record t : Type := mk {
  userId : ObjectId;
  token : string;
  type : kind;
  expiresAt : Z;
  isRevoked : bool
}.

Definition set_isRevoked (v : bool) (r : t) : t :=
  mk (userId r) (token r) (type r) (expiresAt r) v.

(** [isExpired]: [new Date() > this.expiresAt] *)
Definition isExpired (now : Z) (r : t) : bool := expiresAt r <? now.

(** [isValid] *)
Definition isValid (now : Z) (r : t) : bool :=
  negb (isRevoked r) && negb (isExpired now r).

(** The [where] of [createToken]'s lookup *)
Definition live (uid : ObjectId) (k : kind) (r : t) : bool :=
  Nat.eqb (userId r) uid && kind_eqb (type r) k && negb (isRevoked r).

(** [createToken], for token data with every required column: the
    row found (the first that matches) is revoked and saved, then the
    new row is created. *)
Definition createToken (tokenData : t) (rows : list t) : t * list t :=
  let rows1 :=
    match find (live (userId tokenData) (type tokenData)) rows with
    | Some existingToken =>
        updateFirst (live (userId tokenData) (type tokenData))
                    (set_isRevoked true) rows
    | None => rows
    end in
  (tokenData, (rows1 ++ [tokenData])%list).

Definition liveCount (uid : ObjectId) (k : kind) (rows : list t) : nat :=
  List.length (filter (live uid k) rows).

End TokenPostgres.

Lemma postgres_kind_eqb_eq (a b : TokenPostgres.kind) :
  TokenPostgres.kind_eqb a b = true <-> a = b.
Proof. destruct a, b; cbn; split; congruence. Qed.

Lemma live_key (u : ObjectId) (k : TokenPostgres.kind) (r : TokenPostgres.t) :
  TokenPostgres.live u k r = true ->
  TokenPostgres.userId r = u /\ TokenPostgres.type r = k
  /\ TokenPostgres.isRevoked r = false.
Proof.
  unfold TokenPostgres.live. intros Hl.
  apply andb_true_iff in Hl. destruct Hl as [Hl Hr].
  apply andb_true_iff in Hl. destruct Hl as [Hu Hk].
  apply Nat.eqb_eq in Hu. apply postgres_kind_eqb_eq in Hk. apply negb_true_iff in Hr. auto.
Qed.

Lemma live_after_revoke (u : ObjectId) (k : TokenPostgres.kind) (r : TokenPostgres.t) :
  TokenPostgres.live u k (TokenPostgres.set_isRevoked true r) = false.
Proof. unfold TokenPostgres.live. cbn. now rewrite andb_false_r. Qed.

Lemma liveCount_after_revoke_first (u : ObjectId) (k : TokenPostgres.kind)
    (rows : list TokenPostgres.t) :
  TokenPostgres.liveCount u k
    (updateFirst (TokenPostgres.live u k) (TokenPostgres.set_isRevoked true) rows)
  = Nat.pred (TokenPostgres.liveCount u k rows).
Proof.
  unfold TokenPostgres.liveCount.
  induction rows as [| x rows IH]; [reflexivity |].
  cbn [updateFirst filter]. destruct (TokenPostgres.live u k x) eqn:E.
  - cbn [filter]. now rewrite live_after_revoke.
  - cbn [filter]. now rewrite E.
Qed.

Lemma filter_live_other_key (u u' : ObjectId) (k k' : TokenPostgres.kind)
    (rows : list TokenPostgres.t) :
  Nat.eqb u u' && TokenPostgres.kind_eqb k k' = false ->
  filter (TokenPostgres.live u k)
    (updateFirst (TokenPostgres.live u' k') (TokenPostgres.set_isRevoked true) rows)
  = filter (TokenPostgres.live u k) rows.
Proof.
  intros Hne. induction rows as [| x rows IH]; [reflexivity |].
  cbn [updateFirst filter]. destruct (TokenPostgres.live u' k' x) eqn:E.
  - cbn [filter]. rewrite live_after_revoke.
    destruct (live_key _ _ _ E) as (Hu & Hk & _).
    assert (El : TokenPostgres.live u k x = false).
    { destruct (TokenPostgres.live u k x) eqn:E2; [| reflexivity].
      destruct (live_key _ _ _ E2) as (Hu2 & Hk2 & _).
      assert (Nat.eqb u u' && TokenPostgres.kind_eqb k k' = true); [| congruence].
      apply andb_true_iff. split; [apply Nat.eqb_eq | apply postgres_kind_eqb_eq]; congruence. }
    now rewrite El.
  - cbn [filter]. now rewrite IH.
Qed.

Lemma liveCount_zero_filter (u : ObjectId) (k : TokenPostgres.kind)
    (rows : list TokenPostgres.t) :
  TokenPostgres.liveCount u k rows = 0%nat ->
  filter (TokenPostgres.live u k) rows = [].
Proof.
  unfold TokenPostgres.liveCount. destruct (filter _ rows); [reflexivity | discriminate].
Qed.

(** X29.  [createToken] keeps at most one live token per user and
    type.  The number of rows of a user and type that are not revoked
    changes by the rule: for the new token's user and type it drops by
    one (if it was not zero) and then counts the new row unless that
    is created revoked; for every other user or type it stays.  So
    where no user had two live tokens of a type, none has afterwards,
    and the only row of the new token's user and type that is not
    revoked is then the new token (when it is not created revoked),
    which [isValid] accepts up to and including the instant of its
    expiry. *)
Theorem createToken_keeps_one_live_token :
  forall (tokenData : TokenPostgres.t) (rows : list TokenPostgres.t),
    let after := snd (TokenPostgres.createToken tokenData rows) in
    (forall u k,
        TokenPostgres.liveCount u k after
        = if Nat.eqb u (TokenPostgres.userId tokenData)
             && TokenPostgres.kind_eqb k (TokenPostgres.type tokenData)
          then (Nat.pred (TokenPostgres.liveCount u k rows)
                + (if TokenPostgres.isRevoked tokenData then 0 else 1))%nat
          else TokenPostgres.liveCount u k rows)
    /\ ((forall u k, (TokenPostgres.liveCount u k rows <= 1)%nat) ->
        (forall u k, (TokenPostgres.liveCount u k after <= 1)%nat)
        /\ (TokenPostgres.isRevoked tokenData = false ->
            filter (TokenPostgres.live (TokenPostgres.userId tokenData)
                                       (TokenPostgres.type tokenData)) after
            = [tokenData]
            /\ forall now,
                TokenPostgres.isValid now tokenData = true
                <-> now <= TokenPostgres.expiresAt tokenData)).
Proof.
  intros d rows after.
  set (rows1 := match find (TokenPostgres.live (TokenPostgres.userId d)
                                               (TokenPostgres.type d)) rows with
                | Some _ => updateFirst (TokenPostgres.live (TokenPostgres.userId d)
                                                            (TokenPostgres.type d))
                                        (TokenPostgres.set_isRevoked true) rows
                | None => rows
                end).
  assert (Hafter : after = (rows1 ++ [d])%list) by reflexivity.
  assert (Hrows1 : rows1 = updateFirst (TokenPostgres.live (TokenPostgres.userId d)
                                                           (TokenPostgres.type d))
                                       (TokenPostgres.set_isRevoked true) rows).
  { subst rows1. destruct (find _ rows) eqn:E; [reflexivity |].
    symmetry. now apply updateFirst_no_match. }
  clearbody rows1 after. subst rows1 after.
  assert (Hlaw : forall u k,
             TokenPostgres.liveCount u k
               (updateFirst (TokenPostgres.live (TokenPostgres.userId d)
                                                (TokenPostgres.type d))
                            (TokenPostgres.set_isRevoked true) rows ++ [d])
             = if Nat.eqb u (TokenPostgres.userId d)
                  && TokenPostgres.kind_eqb k (TokenPostgres.type d)
               then (Nat.pred (TokenPostgres.liveCount u k rows)
                     + (if TokenPostgres.isRevoked d then 0 else 1))%nat
               else TokenPostgres.liveCount u k rows).
  { intros u k. unfold TokenPostgres.liveCount at 1.
    rewrite filter_app, length_app.
    destruct (Nat.eqb u (TokenPostgres.userId d)
              && TokenPostgres.kind_eqb k (TokenPostgres.type d)) eqn:E.
    - apply andb_true_iff in E. destruct E as [Eu Ek].
      apply Nat.eqb_eq in Eu. apply postgres_kind_eqb_eq in Ek. subst u k.
      fold (TokenPostgres.liveCount (TokenPostgres.userId d) (TokenPostgres.type d)
              (updateFirst (TokenPostgres.live (TokenPostgres.userId d)
                                               (TokenPostgres.type d))
                           (TokenPostgres.set_isRevoked true) rows)).
      rewrite liveCount_after_revoke_first. f_equal.
      cbn [filter]. unfold TokenPostgres.live.
      rewrite Nat.eqb_refl, (proj2 (postgres_kind_eqb_eq _ _) eq_refl).
      destruct (TokenPostgres.isRevoked d); reflexivity.
    - rewrite (filter_live_other_key _ _ _ _ _ E).
      cbn [filter].
      assert (El : TokenPostgres.live u k d = false).
      { destruct (TokenPostgres.live u k d) eqn:E2; [| reflexivity].
        destruct (live_key _ _ _ E2) as (Hu2 & Hk2 & _).
        assert (Nat.eqb u (TokenPostgres.userId d)
                && TokenPostgres.kind_eqb k (TokenPostgres.type d) = true);
          [| congruence].
        apply andb_true_iff.
        split; [apply Nat.eqb_eq | apply postgres_kind_eqb_eq]; congruence. }
      rewrite El. cbn [List.length]. unfold TokenPostgres.liveCount. lia. }
  split; [exact Hlaw | intros Hinv; split].
  - intros u k. rewrite Hlaw. specialize (Hinv u k).
    destruct (Nat.eqb u _ && _); [| exact Hinv].
    destruct (TokenPostgres.isRevoked d); lia.
  - intros Hrev. split.
    + rewrite filter_app. rewrite liveCount_zero_filter.
      * cbn [filter app]. unfold TokenPostgres.live.
        now rewrite Nat.eqb_refl, (proj2 (postgres_kind_eqb_eq _ _) eq_refl), Hrev.
      * rewrite liveCount_after_revoke_first.
        specialize (Hinv (TokenPostgres.userId d) (TokenPostgres.type d)). lia.
    + intros now. unfold TokenPostgres.isValid, TokenPostgres.isExpired.
      rewrite Hrev. cbn [negb andb]. rewrite negb_true_iff, Z.ltb_ge. tauto.
Qed.

Lemma createToken_keeps_one_live_token_witness :
  filter (TokenPostgres.live 1%nat TokenPostgres.refresh)
    (snd (TokenPostgres.createToken
            (TokenPostgres.mk 1%nat "new" TokenPostgres.refresh 100 false)
            [TokenPostgres.mk 1%nat "old" TokenPostgres.refresh 50 false;
             TokenPostgres.mk 2%nat "other" TokenPostgres.refresh 50 false]))
  = [TokenPostgres.mk 1%nat "new" TokenPostgres.refresh 100 false].
Proof.
  refine (proj1 (proj2 (proj2 (createToken_keeps_one_live_token
            (TokenPostgres.mk 1%nat "new" TokenPostgres.refresh 100 false)
            [TokenPostgres.mk 1%nat "old" TokenPostgres.refresh 50 false;
             TokenPostgres.mk 2%nat "other" TokenPostgres.refresh 50 false]) _)
            eq_refl)).
  intros u k. unfold TokenPostgres.liveCount, TokenPostgres.live. cbn.
  destruct u as [| [| [| u]]], k; cbn; lia.
Defined.
